(** * pyslash: the slash-command registry, converter pipeline and router

    A shallow embedding of [pyslash/slash_command.py] and
    [pyslash/patcher.py].  Python values that travel through the code are
    JSON documents (the gateway payload) and a few [discord] objects built
    from them; exceptions are explicit results; the one object that the code
    mutates in place while routing, the event payload, lives in a store that
    every routing step threads. *)

From Stdlib Require Import ZArith String Ascii List Bool Lia DecimalString.
From stdpp Require Import base option list strings gmap.

Import ListNotations.
Set Warnings "-register-all".
Local Open Scope string_scope.
Local Open Scope list_scope.

(** ** Exceptions *)

(** The exception classes the two modules raise or let through.  The last
    three derive from [BaseException] only: [except Exception] does not
    match them. *)
Inductive exn : Type :=
| CommandNotFound (msg : string)
| BadArgument (msg : string)
| CheckFailure (msg : string)
| KeyError (key : string)
| IndexError (msg : string)
| TypeError (msg : string)
| ValueError (msg : string)
| AttributeError (msg : string)
| RecursionError (msg : string)
| NotImplementedError (msg : string)
| HTTPException (msg : string)
| AppException (name : string)
| SystemExit
| KeyboardInterrupt
| GeneratorExit.

(** [isinstance(e, Exception)]. *)
Definition isinstance_Exception (e : exn) : bool :=
  match e with
  | SystemExit | KeyboardInterrupt | GeneratorExit => false
  | _ => true
  end.

(** [isinstance(e, BadArgument)]. *)
Definition isinstance_BadArgument (e : exn) : bool :=
  match e with
  | BadArgument _ => true
  | _ => false
  end.

(** A computation that returns a value or raises. *)
Definition result (A : Type) : Type := exn + A.

Definition raise {A : Type} (e : exn) : result A := inl e.
Definition ok {A : Type} (a : A) : result A := inr a.

Definition rbind {A B : Type} (r : result A) (k : A -> result B) : result B :=
  match r with
  | inl e => inl e
  | inr a => k a
  end.

Notation "'try!' x := r 'in' k" := (rbind r (fun x => k))
  (at level 10, x pattern, r at level 100, k at level 200).

(** ** JSON values *)

Inductive json : Type :=
| JNull
| JBool (b : bool)
| JInt (n : Z)
| JStr (s : string)
| JList (l : list json)
| JDict (d : list (string * json)).

(** The double quote, for messages that contain one. *)
Definition dquote : string := String (ascii_of_nat 34) EmptyString.
Definition squote : string := String (ascii_of_nat 39) EmptyString.

Definition str_of_Z (n : Z) : string := NilZero.string_of_int (Z.to_int n).

(** [repr(j)] for a JSON value (string escapes are not rendered). *)
Fixpoint py_repr (j : json) : string :=
  match j with
  | JNull => "None"
  | JBool true => "True"
  | JBool false => "False"
  | JInt n => str_of_Z n
  | JStr s => squote +:+ s +:+ squote
  | JList l =>
      "[" +:+ (fix items (xs : list json) : string :=
                 match xs with
                 | [] => EmptyString
                 | [x] => py_repr x
                 | x :: rest => py_repr x +:+ ", " +:+ items rest
                 end) l +:+ "]"
  | JDict d =>
      "{" +:+ (fix items (xs : list (string * json)) : string :=
                 match xs with
                 | [] => EmptyString
                 | [(k, x)] => squote +:+ k +:+ squote +:+ ": " +:+ py_repr x
                 | (k, x) :: rest =>
                     squote +:+ k +:+ squote +:+ ": " +:+ py_repr x +:+ ", " +:+ items rest
                 end) d +:+ "}"
  end.

(** [str(j)], as an f-string renders it. *)
Definition py_str (j : json) : string :=
  match j with
  | JStr s => s
  | _ => py_repr j
  end.

(** Truth value of a JSON value ([if x:], [not x]). *)
Definition truthy (j : json) : bool :=
  match j with
  | JNull => false
  | JBool b => b
  | JInt n => negb (n =? 0)%Z
  | JStr s => negb (String.eqb s EmptyString)
  | JList l => match l with [] => false | _ => true end
  | JDict d => match d with [] => false | _ => true end
  end.

(** *** Dictionaries

    A Python dict keeps insertion order; assignment to an existing key keeps
    its position. *)
Section Assoc.
Context {A : Type}.

Fixpoint assoc_get (k : string) (d : list (string * A)) : option A :=
  match d with
  | [] => None
  | (k', v) :: rest => if String.eqb k k' then Some v else assoc_get k rest
  end.

Fixpoint assoc_set (k : string) (v : A) (d : list (string * A)) : list (string * A) :=
  match d with
  | [] => [(k, v)]
  | (k', v') :: rest =>
      if String.eqb k k' then (k, v) :: rest else (k', v') :: assoc_set k v rest
  end.
End Assoc.

(** The key a JSON value denotes when it indexes a dict whose keys are
    strings: a string is itself, another hashable value matches no key, a
    list or dict is unhashable. *)
Inductive dict_key : Type :=
| KeyStr (s : string)
| KeyOther
| KeyUnhashable.

Definition as_key (j : json) : dict_key :=
  match j with
  | JStr s => KeyStr s
  | JList _ | JDict _ => KeyUnhashable
  | _ => KeyOther
  end.

(** [j[k]] with a string literal [k]. *)
Definition getitem (j : json) (k : string) : result json :=
  match j with
  | JDict d =>
      match assoc_get k d with
      | Some v => ok v
      | None => raise (KeyError k)
      end
  | JList _ => raise (TypeError "list indices must be integers or slices, not str")
  | JStr _ => raise (TypeError "string indices must be integers")
  | _ => raise (TypeError "object is not subscriptable")
  end.

(** [j[key]] where [key] is itself a run-time value. *)
Definition getitem_dyn (j key : json) : result json :=
  match j with
  | JDict d =>
      match as_key key with
      | KeyStr k =>
          match assoc_get k d with
          | Some v => ok v
          | None => raise (KeyError k)
          end
      | KeyOther => raise (KeyError (py_repr key))
      | KeyUnhashable => raise (TypeError "unhashable type")
      end
  | _ => raise (TypeError "object is not subscriptable")
  end.

(** [j.get(k)] and [j.get(k, default)] with a string literal [k]. *)
Definition dict_get (j : json) (k : string) (default : json) : result json :=
  match j with
  | JDict d =>
      match assoc_get k d with
      | Some v => ok v
      | None => ok default
      end
  | _ => raise (AttributeError "object has no attribute 'get'")
  end.

(** [j.get(key)] where [key] is a run-time value. *)
Definition dict_get_dyn (j key : json) : result json :=
  match j with
  | JDict d =>
      match as_key key with
      | KeyStr k =>
          match assoc_get k d with
          | Some v => ok v
          | None => ok JNull
          end
      | KeyOther => ok JNull
      | KeyUnhashable => raise (TypeError "unhashable type")
      end
  | _ => raise (AttributeError "object has no attribute 'get'")
  end.

(** [j[k] = v] with a string literal [k]. *)
Definition setitem (j : json) (k : string) (v : json) : result json :=
  match j with
  | JDict d => ok (JDict (assoc_set k v d))
  | JList _ => raise (TypeError "list indices must be integers or slices, not str")
  | _ => raise (TypeError "object does not support item assignment")
  end.

(** [len(j)]. *)
Definition py_len (j : json) : result nat :=
  match j with
  | JList l => ok (length l)
  | JDict d => ok (length d)
  | JStr s => ok (String.length s)
  | _ => raise (TypeError "object has no len()")
  end.

(** [j[i]] with an integer position [i >= 0]. *)
Definition getindex (j : json) (i : nat) : result json :=
  match j with
  | JList l =>
      match nth_error l i with
      | Some v => ok v
      | None => raise (IndexError "list index out of range")
      end
  | JStr s =>
      match String.get i s with
      | Some c => ok (JStr (String c EmptyString))
      | None => raise (IndexError "string index out of range")
      end
  | JDict _ => raise (KeyError (str_of_Z (Z.of_nat i)))
  | _ => raise (TypeError "object is not subscriptable")
  end.

(** Python's [==] on JSON values: [True == 1], lists position by position,
    dicts key by key whatever the order. *)
Fixpoint py_eq (a b : json) : bool :=
  match a, b with
  | JNull, JNull => true
  | JBool x, JBool y => Bool.eqb x y
  | JInt x, JInt y => (x =? y)%Z
  | JBool x, JInt y => ((if x then 1 else 0) =? y)%Z
  | JInt x, JBool y => (x =? (if y then 1 else 0))%Z
  | JStr x, JStr y => String.eqb x y
  | JList l1, JList l2 =>
      (fix go (xs ys : list json) : bool :=
         match xs, ys with
         | [], [] => true
         | x :: xs', y :: ys' => py_eq x y && go xs' ys'
         | _, _ => false
         end) l1 l2
  | JDict d1, JDict d2 =>
      (length d1 =? length d2)%nat &&
      (fix go (xs : list (string * json)) : bool :=
         match xs with
         | [] => true
         | (k, v) :: xs' =>
             match assoc_get k d2 with
             | Some v2 => py_eq v v2
             | None => false
             end && go xs'
         end) d1
  | _, _ => false
  end.

(** *** [int(x)] *)

Definition is_space (c : ascii) : bool :=
  let n := nat_of_ascii c in
  (n =? 32)%nat || ((9 <=? n)%nat && (n <=? 13)%nat).

Fixpoint lstrip (s : string) : string :=
  match s with
  | String c rest => if is_space c then lstrip rest else s
  | EmptyString => EmptyString
  end.

Fixpoint rev_string (s acc : string) : string :=
  match s with
  | EmptyString => acc
  | String c rest => rev_string rest (String c acc)
  end.

Definition strip (s : string) : string :=
  rev_string (lstrip (rev_string (lstrip s) EmptyString)) EmptyString.

Fixpoint all_digits (s : string) : bool :=
  match s with
  | EmptyString => true
  | String c rest =>
      let n := nat_of_ascii c in
      (48 <=? n)%nat && (n <=? 57)%nat && all_digits rest
  end.

(** Decimal literals: surrounding white space, an optional sign, ASCII
    digits.  (Digit grouping with underscores and non-ASCII digits, which
    [int] also accepts, are answered with [ValueError] here.) *)
Definition parse_int (s : string) : option Z :=
  let body := strip s in
  let '(neg, digits) :=
    match body with
    | String c rest =>
        if Ascii.eqb c "-"%char then (true, rest)
        else if Ascii.eqb c "+"%char then (false, rest)
        else (false, body)
    | EmptyString => (false, body)
    end in
  match digits with
  | EmptyString => None
  | _ =>
      if all_digits digits then
        match NilZero.uint_of_string digits with
        | Some u => Some (if neg then (- Z.of_uint u)%Z else Z.of_uint u)
        | None => None
        end
      else None
  end.

Definition py_int (j : json) : result Z :=
  match j with
  | JInt n => ok n
  | JBool b => ok (if b then 1%Z else 0%Z)
  | JStr s =>
      match parse_int s with
      | Some n => ok n
      | None => raise (ValueError "invalid literal for int() with base 10")
      end
  | _ => raise (TypeError "int() argument must be a string, a bytes-like object or a number")
  end.

(** ** Values handed to application code *)

(** What a converter returns: the raw JSON value, or a [discord] object
    built from resolved data.  A guild is named by its id
    ([bot.get_guild(int(ctx["guild_id"]))]).  [VCoroutine] is a coroutine
    object that was created and not awaited. *)
Inductive value : Type :=
| VJson (j : json)
| VUser (data : json)
| VMember (guild : Z) (data : json)
| VTextChannel (guild : Z) (data : json)
| VCategoryChannel (guild : Z) (data : json)
| VRole (guild : Z) (data : json)
| VObject (id : Z)
| VCoroutine (origin : string).

Definition value_truthy (v : value) : bool :=
  match v with
  | VJson j => truthy j
  | _ => true
  end.

(** ** [CommandsMessage] and [CommandsContext] *)

(** [CommandsMessage._create_message_payload]. *)
Definition _create_message_payload (ctx_data : json) : result json :=
  try! member := dict_get ctx_data "member" JNull in
  try! id := getitem ctx_data "id" in
  try! channel_id := getitem ctx_data "channel_id" in
  try! guild_id := getitem ctx_data "guild_id" in
  try! author :=
    (if truthy member then getitem member "user"
     else dict_get ctx_data "user" JNull) in
  ok (JDict [ ("id", id);
              ("channel_id", channel_id);
              ("guild_id", guild_id);
              ("member", member);
              ("author", author);
              ("content", JStr EmptyString);
              ("tts", JBool false);
              ("mention_everyone", JBool false);
              ("mentions", JList []);
              ("mention_roles", JList []);
              ("mention_channels", JList []);
              ("attachments", JList []);
              ("embeds", JList []);
              ("reactions", JList []);
              ("pinned", JBool false);
              ("type", JInt 0);
              ("edited_timestamp", JNull) ]).

(** [CommandsMessage._create_text_channel]: the channel is named by the id
    handed to [bot.get_channel]. *)
Definition _create_text_channel (ctx_data : json) : result Z :=
  try! channel_id := getitem ctx_data "channel_id" in
  py_int channel_id.

Record CommandsMessage : Type := {
  msg_channel : Z;
  msg_data : json
}.

(** [CommandsContext].  [_ctx_data] is a reference to the event payload, the
    very object the router holds: it is not copied into the record, and
    every operation that reads it takes the payload from the store. *)
Record CommandsContext : Type := {
  message : CommandsMessage;
  _first_reply : bool;
  ephemeral : bool
}.

(** ** The store and the routing monad *)

(** An HTTP route as [Route(method, path, channel_id=..., guild_id=...)]
    receives it. *)
Record Route : Type := {
  route_method : string;
  route_path : string;
  route_channel_id : json;
  route_guild_id : json
}.

(** What the code does to the world outside: calls into application code
    and into the bot. *)
Inductive event : Type :=
| EvCheck (name : string)
| EvInvoke (command : string) (ctx : CommandsContext) (args : list value)
| EvDispatch (event_name : string) (ctx : CommandsContext) (error : exn)
| EvRequest (route : Route) (body : json)
| EvSend (content : json) (kwargs : list (string * json)).

Record world : Type := {
  payload : json;
  trace : list event
}.

(** State and exceptions over a store [S]: a raise keeps the mutations made
    before it. *)
Definition SE (S A : Type) : Type := S -> result A * S.

Definition ret {S A : Type} (a : A) : SE S A := fun s => (inr a, s).

Definition throw {S A : Type} (e : exn) : SE S A := fun s => (inl e, s).

Definition bind {S A B : Type} (m : SE S A) (k : A -> SE S B) : SE S B :=
  fun s =>
    match m s with
    | (inl e, s') => (inl e, s')
    | (inr a, s') => k a s'
    end.

Definition lift {S A : Type} (r : result A) : SE S A := fun s => (r, s).

(** [try: m  except <matching> as e: h e]. *)
Definition try_except {S A : Type} (m : SE S A) (matches : exn -> bool) (h : exn -> SE S A)
    : SE S A :=
  fun s =>
    match m s with
    | (inl e, s') => if matches e then h e s' else (inl e, s')
    | (inr a, s') => (inr a, s')
    end.

Notation "'do!' x := m 'in' k" := (bind m (fun x => k))
  (at level 10, x pattern, m at level 100, k at level 200).

Notation "m ';;;' k" := (bind m (fun _ => k))
  (at level 100, k at level 200, right associativity).

(** Code that sees the payload only: converters, checks, handlers. *)
Definition P (A : Type) : Type := SE json A.

(** Code that also calls out: the router and the command tree. *)
Definition M (A : Type) : Type := SE world A.

Definition get : P json := fun p => (inr p, p).

Definition put (p : json) : P unit := fun _ => (inr tt, p).

(** Running payload-only code inside the router. *)
Definition lift_app {A : Type} (f : P A) : M A :=
  fun w =>
    let '(r, p) := f (payload w) in
    (r, {| payload := p; trace := trace w |}).

Definition get_payload : M json := lift_app get.

Definition log (ev : event) : M unit :=
  fun w => (inr tt, {| payload := payload w; trace := trace w ++ [ev] |}).

(** ** What the constructors of discord.py read

    The two modules instantiate classes of discord.py; the release is 1.7,
    the one whose [Client._get_state], keyword-only [Context] and API-v7 routes
    the source relies on.  What follows is what those constructors read from
    the dicts they are handed, in the order they read it.  [bot._get_state()]
    builds a new connection state at every call, so no user is ever found in
    its cache.  The bot's own caches are taken as follows: the guild of the
    interaction is known to [bot.get_guild], and the member cache does not
    hold the author of the interaction.  Timestamps are taken to parse. *)

(** [BaseUser._update], which [discord.User(state=..., data=...)] runs; the
    result is the dict that [_to_minimal_user_json] returns for the user. *)
Definition User_init (data : json) : result json :=
  try! username := getitem data "username" in
  try! id := getitem data "id" in
  try! n := py_int id in
  try! discriminator := getitem data "discriminator" in
  try! avatar := getitem data "avatar" in
  try! is_bot := dict_get data "bot" (JBool false) in
  ok (JDict [ ("username", username);
              ("id", JInt n);
              ("avatar", avatar);
              ("discriminator", discriminator);
              ("bot", is_bot) ]).

(** [ConnectionState.store_user] on a state without cached users:
    [int(data['id'])], then the constructor. *)
Definition store_user (data : json) : result json :=
  try! id := getitem data "id" in
  try! _ := py_int id in
  User_init data.

(** [int(x)] for every [x] that iterating over [j] yields. *)
Fixpoint ints (l : list json) : result unit :=
  match l with
  | [] => ok tt
  | x :: rest =>
      try! _ := py_int x in
      ints rest
  end.

Definition characters (s : string) : list json :=
  map (fun c => JStr (String c EmptyString)) (list_ascii_of_string s).

Definition snowflakes (j : json) : result unit :=
  match j with
  | JList l => ints l
  | JDict d => ints (map (fun kv => JStr (fst kv)) d)
  | JStr s => ints (characters s)
  | _ => raise (TypeError "object is not iterable")
  end.

(** [Member.__init__]: the user, then the roles. *)
Definition Member_init (data : json) : result unit :=
  try! user := getitem data "user" in
  try! _ := store_user user in
  try! roles := getitem data "roles" in
  snowflakes roles.

(** [utils._get_as_snowflake(data, key)]. *)
Definition _get_as_snowflake (data : json) (key : string) : result unit :=
  try! value := dict_get data key JNull in
  if truthy value then try! _ := py_int value in ok tt else ok tt.

(** [TextChannel.__init__] and [CategoryChannel.__init__] read the same
    required keys in the same order: [int(id)], [name], the optional
    [parent_id], [position]. *)
Definition Channel_init (data : json) : result unit :=
  try! id := getitem data "id" in
  try! _ := py_int id in
  try! _ := getitem data "name" in
  try! _ := _get_as_snowflake data "parent_id" in
  try! _ := getitem data "position" in
  ok tt.

(** [discord.Message.__init__] on the dict that [_create_message_payload]
    built.  After [int(data['id'])] it runs [_handle_author] and
    [_handle_member], each inside [try: ... except KeyError: continue].

    [_handle_author] stores the author; if that raises [KeyError] the
    attribute [author] stays unset, and [_handle_member], which starts by
    reading it, raises [AttributeError].

    [_handle_member] finds a plain user in [author] and calls
    [Member._from_message], which assigns [data['user']] in the member dict
    and builds the member.  The member dict is the object stored under
    [ctx_data["member"]], so the assignment shows in the payload.  A
    [KeyError] out of [Member.__init__] is swallowed by the loop.

    The result is the message dict as the constructor leaves it. *)
Definition Message_init (data : json) : P json :=
  do! id := lift (getitem data "id") in
  do! _ := lift (py_int id) in
  do! author := lift (getitem data "author") in
  do! member := lift (getitem data "member") in
  match store_user author with
  | inl (KeyError _) => throw (AttributeError "author")
  | inl e => throw e
  | inr user =>
      do! member' := lift (setitem member "user" user) in
      do! ctx_data := get in
      do! ctx_data' := lift (setitem ctx_data "member" member') in
      put ctx_data' ;;;
      do! data' := lift (setitem data "member" member') in
      match Member_init member' with
      | inl (KeyError _) => ret data'
      | inl e => throw e
      | inr _ => ret data'
      end
  end.

(** [CommandsMessage.__init__], on the payload held in the store: the
    keyword arguments of the base constructor are evaluated in the order
    written, channel before data, and then the base constructor runs. *)
Definition CommandsMessage_init : P CommandsMessage :=
  do! ctx_data := get in
  do! channel := lift (_create_text_channel ctx_data) in
  do! data := lift (_create_message_payload ctx_data) in
  do! data' := Message_init data in
  ret {| msg_channel := channel; msg_data := data' |}.

(** [CommandsContext.__init__].  At every call site the first argument is
    the payload object that the router holds; it is read from the store and
    written there. *)
Definition CommandsContext_init : P CommandsContext :=
  do! msg := CommandsMessage_init in
  ret {| message := msg; _first_reply := true; ephemeral := false |}.

(** ** Converters ([_arg_types]) *)

(** A converter is called as [f(bot, ctx, arg)]; [ctx] is the payload. *)
Definition converter : Type := json -> P value.

Definition _nothing_converter : converter :=
  fun arg => ret (VJson arg).

Definition resolved_of : P json :=
  do! ctx := get in
  do! data := lift (getitem ctx "data") in
  lift (getitem data "resolved").

Definition guild_of : P Z :=
  do! ctx := get in
  do! guild_id := lift (getitem ctx "guild_id") in
  lift (py_int guild_id).

Definition _user_converter : converter :=
  fun arg =>
    do! resolved := resolved_of in
    do! users := lift (dict_get resolved "users" (JDict [])) in
    do! user := lift (dict_get_dyn users arg) in
    if negb (truthy user)
    then throw (BadArgument "User specified is not someone the bot can see.")
    else
      do! _ := lift (User_init user) in
      ret (VUser user).

(** The three assignments into [member] write into the payload: [member] is
    the dict stored under [resolved["members"][arg]]. *)
Definition store_member (arg : string) (member : json) : P unit :=
  do! ctx := get in
  do! data := lift (getitem ctx "data") in
  do! resolved := lift (getitem data "resolved") in
  do! members := lift (getitem resolved "members") in
  do! members' := lift (setitem members arg member) in
  do! resolved' := lift (setitem resolved "members" members') in
  do! data' := lift (setitem data "resolved" resolved') in
  do! ctx' := lift (setitem ctx "data" data') in
  put ctx'.

Definition _member_converter : converter :=
  fun arg =>
    do! resolved := resolved_of in
    do! members := lift (dict_get resolved "members" (JDict [])) in
    do! member := lift (dict_get_dyn members arg) in
    if negb (truthy member)
    then throw (BadArgument "User specified is not a member.")
    else
      do! users := lift (getitem resolved "users") in
      do! user := lift (getitem_dyn users arg) in
      do! member1 := lift (setitem member "user" user) in
      store_member (py_str arg) member1 ;;;
      do! member2 := lift (setitem member1 "deaf" (JBool false)) in
      store_member (py_str arg) member2 ;;;
      do! member3 := lift (setitem member2 "mute" (JBool false)) in
      store_member (py_str arg) member3 ;;;
      do! guild := guild_of in
      do! _ := lift (Member_init member3) in
      ret (VMember guild member3).

Definition channel_of_kind (kind : Z) (wrong_kind : string)
    (build : Z -> json -> value) : converter :=
  fun arg =>
    do! resolved := resolved_of in
    do! channels := lift (dict_get resolved "channels" (JDict [])) in
    do! channel_obj := lift (dict_get_dyn channels arg) in
    do! foreign :=
      (if negb (truthy channel_obj) then ret true
       else
         do! theirs := lift (dict_get channel_obj "guild_id" JNull) in
         do! ctx := get in
         do! ours := lift (getitem ctx "guild_id") in
         ret (negb (py_eq theirs ours))) in
    if (foreign : bool) then throw (BadArgument "Channel not in this guild.")
    else
      do! ty := lift (getitem channel_obj "type") in
      if negb (py_eq ty (JInt kind)) then throw (BadArgument wrong_kind)
      else
        do! guild := guild_of in
        do! _ := lift (Channel_init channel_obj) in
        ret (build guild channel_obj).

Definition _text_channel_converter : converter :=
  channel_of_kind 0 "This is not a text channel." VTextChannel.

Definition _category_channel_converter : converter :=
  channel_of_kind 4 "This is not a category channel." VCategoryChannel.

Definition _role_converter : converter :=
  fun arg =>
    do! resolved := resolved_of in
    do! guild := guild_of in
    do! roles := lift (getitem resolved "roles") in
    do! role := lift (getitem_dyn roles arg) in
    ret (VRole guild role).

Definition _mentionable_converter : converter :=
  fun arg =>
    do! id := lift (py_int arg) in
    ret (VObject id).

(** ** Annotations and [_get_converter_function] *)

(** The objects that appear as parameter annotations.  A subscripted form
    such as [Union[int, str]] carries [__origin__] and [__args__];
    [typing] stores [Optional[T]] as [Union[T, None]], with [None] replaced
    by its class. *)
Inductive pytype : Type :=
| T_str
| T_int
| T_bool
| T_User
| T_Member
| T_TextChannel
| T_CategoryChannel
| T_Role
| T_Object
| T_NoneType
| T_None
| T_Context
| T_CommandsContext
| Typing_Optional
| Typing_Union
| Greedy
| Subscript (origin : pytype) (args : list pytype)
| T_Converter (class_name : string)
    (convert : CommandsContext -> json -> P value)
| T_Other (class_name : string).

Definition Union_ (args : list pytype) : pytype := Subscript Typing_Union args.
Definition Optional_ (t : pytype) : pytype := Subscript Typing_Union [t; T_NoneType].

(** [_SlashCommandArg]. *)
Record _SlashCommandArg : Type := {
  arg_type : Z;
  func : converter
}.

(** The table [_arg_types], as [_arg_types.get(converter_type)]. *)
Definition _arg_types (converter_type : pytype) : option _SlashCommandArg :=
  match converter_type with
  | T_str => Some {| arg_type := 3; func := _nothing_converter |}
  | T_int => Some {| arg_type := 4; func := _nothing_converter |}
  | T_bool => Some {| arg_type := 5; func := _nothing_converter |}
  | T_User => Some {| arg_type := 6; func := _user_converter |}
  | T_Member => Some {| arg_type := 6; func := _member_converter |}
  | T_TextChannel => Some {| arg_type := 7; func := _text_channel_converter |}
  | T_CategoryChannel => Some {| arg_type := 7; func := _category_channel_converter |}
  | T_Role => Some {| arg_type := 8; func := _role_converter |}
  | T_Object => Some {| arg_type := 9; func := _mentionable_converter |}
  | _ => None
  end.

(** What [_get_converter_function] hands back as the platform type id: a
    number, or (out of [parse_single_type]) the set object itself. *)
Inductive type_id : Type :=
| TypeId (n : Z)
| TypeIdSet (s : list Z).

(** What it hands back as the converter: an async function, the coroutine
    object that calling the [async def _is_typing_optional] produces, or
    the pair that [parse_single_type] returns. *)
Inductive conv_obj : Type :=
| ConvFn (f : converter)
| ConvCoroutine
| ConvTuple (c : conv_obj) (t : type_id).

(** [await c(bot, ctx, arg)]. *)
Definition call_conv (c : conv_obj) (arg : json) : P value :=
  match c with
  | ConvFn f => f arg
  | ConvCoroutine => throw (TypeError "'coroutine' object is not callable")
  | ConvTuple _ _ => throw (TypeError "'tuple' object is not callable")
  end.

(** [getattr(c, "_required", True)].  The only assignment to [_required]
    sits in the body of [_is_typing_optional], which is never awaited, so no
    object carries the attribute. *)
Definition attr_required (c : conv_obj) : bool := true.

Definition _wrap_arg_handler_async (f : converter) : converter :=
  fun arg => f arg.

(** Calling [_is_typing_optional(f)] without [await]. *)
Definition _is_typing_optional (f : conv_obj) : conv_obj := ConvCoroutine.

(** [isinstance(arg, type(None))]. *)
Definition isinstance_NoneType (arg : pytype) : bool :=
  match arg with
  | T_None => true
  | _ => false
  end.

Definition is_T_Object (arg : pytype) : bool :=
  match arg with
  | T_Object => true
  | _ => false
  end.

(** Sets of type ids. *)
Definition Zset_add (n : Z) (s : list Z) : list Z :=
  if existsb (Z.eqb n) s then s else s ++ [n].

Definition Zset_eq (s t : list Z) : bool :=
  forallb (fun n => existsb (Z.eqb n) t) s && forallb (fun n => existsb (Z.eqb n) s) t.

(** The state of the loop over [converter_type.__args__]. *)
Record union_state : Type := {
  u_required : bool;
  u_discord_obj_fallback : bool;
  u_arg_type : list Z;
  u_converters : list (conv_obj * type_id)
}.

(** The loop.  [recurse] is the call [_get_converter_function(x)], where [x]
    is the form's [__origin__]. *)
Fixpoint union_loop (recurse : unit -> result (conv_obj * type_id))
    (args : list pytype) (st : union_state) : result union_state :=
  match args with
  | [] => ok st
  | arg :: rest =>
      if isinstance_NoneType arg then
        union_loop recurse rest
          {| u_required := false;
             u_discord_obj_fallback := u_discord_obj_fallback st;
             u_arg_type := u_arg_type st;
             u_converters := u_converters st |}
      else if is_T_Object arg then
        union_loop recurse rest
          {| u_required := u_required st;
             u_discord_obj_fallback := true;
             u_arg_type := u_arg_type st;
             u_converters := u_converters st |}
      else
        try! (converter_function, param_type_id) := recurse tt in
        match param_type_id with
        | TypeIdSet _ => raise (TypeError "unhashable type: 'set'")
        | TypeId n =>
            union_loop recurse rest
              {| u_required := u_required st;
                 u_discord_obj_fallback := u_discord_obj_fallback st;
                 u_arg_type := Zset_add n (u_arg_type st);
                 u_converters := u_converters st ++ [(converter_function, param_type_id)] |}
        end
  end.

(** [single_type_processor], over the list [converters] and the cell [last]
    as they stand when it is called. *)
Definition single_type_processor (converters : list (conv_obj * type_id))
    (last : conv_obj) : converter :=
  fun arg =>
    (fix go (cs : list (conv_obj * type_id)) : P value :=
       match cs with
       | [] => call_conv last arg
       | conv :: rest =>
           try_except (call_conv (fst conv) arg) isinstance_BadArgument (fun _ => go rest)
       end) converters.

(** [parse_single_type]: [arg_type] is the set as it is at the return. *)
Definition parse_single_type (discord_obj_fallback : bool)
    (converters : list (conv_obj * type_id)) (arg_type : list Z)
    (arg_type_popped : Z) : result (conv_obj * type_id) :=
  if discord_obj_fallback then
    if existsb (Z.eqb arg_type_popped) [3; 4; 5]%Z
    then raise (TypeError "Argument type not ID'able.")
    else ok (ConvFn (single_type_processor converters
                       (ConvFn (_wrap_arg_handler_async _mentionable_converter))),
             TypeIdSet arg_type)
  else
    match last converters with
    | None => raise (IndexError "pop from empty list")
    | Some l =>
        ok (ConvFn (single_type_processor (removelast converters) (fst l)),
            TypeIdSet arg_type)
    end.

(** [transform_int], closed over the cell [origin]. *)
Definition transform_int (origin : conv_obj) : converter :=
  fun arg =>
    match py_int arg with
    | inr y => call_conv origin (JInt y)
    | inl (ValueError _) => throw (BadArgument "Unable to parse int.")
    | inl e => throw e
    end.

Definition is_type_4 (t : type_id) : bool :=
  match t with
  | TypeId 4 => true
  | _ => false
  end.

(** The [{3, 4}] rewrite of [converters]: every integer entry becomes
    [transform_int]; all of them read [origin] when called, which by then
    holds the last integer entry. *)
Definition transform_int_fallbacks (converters : list (conv_obj * type_id))
    : list (conv_obj * type_id) :=
  match last (List.filter (fun c => is_type_4 (snd c)) converters) with
  | None => converters
  | Some final =>
      map (fun c => if is_type_4 (snd c)
                    then (ConvFn (transform_int (fst final)), snd c)
                    else c) converters
  end.

(** What follows the loop in the [typing.Union] branch. *)
Definition union_finish (st : union_state) : result (conv_obj * type_id) :=
  let converters := u_converters st in
  match converters with
  | [] => raise (TypeError "No converters in union.")
  | [c] =>
      if negb (u_required st) then ok (_is_typing_optional (fst c), snd c)
      else ok c
  | _ =>
      match u_arg_type st with
      | [n] => parse_single_type (u_discord_obj_fallback st) converters [] n
      | _ =>
          if Zset_eq (u_arg_type st) [3; 4]%Z then
            try! inner :=
              parse_single_type (u_discord_obj_fallback st)
                (transform_int_fallbacks converters) (u_arg_type st) 3 in
            ok (ConvTuple (fst inner) (snd inner), TypeId 3)
          else raise (TypeError "Unsupported fallback")
      end
  end.

(** The compatibility layer for classes that expose [convert]. *)
Definition compat_layer (converter_type : pytype) : result (conv_obj * type_id) :=
  match converter_type with
  | T_Converter _ x =>
      ok (ConvFn (fun arg =>
                    do! context := CommandsContext_init in
                    x context arg),
          TypeId 3)
  | _ => raise (TypeError "The argument type is not discord.ext.commands compatible.")
  end.

(** [_get_converter_function].  In the [typing.Union] branch the recursive
    call is on [x], the bare form [typing.Union] that the annotation carries
    as [__origin__], as the source writes it. *)
Fixpoint _get_converter_function (converter_type : pytype) : result (conv_obj * type_id) :=
  match _arg_types converter_type with
  | Some x => ok (ConvFn (_wrap_arg_handler_async (func x)), TypeId (arg_type x))
  | None =>
      match converter_type with
      | Subscript x args =>
          match x with
          | Typing_Optional =>
              match args with
              | [] => raise (IndexError "tuple index out of range")
              | a :: _ =>
                  try! (converter_function, param_type_id) := _get_converter_function a in
                  ok (_is_typing_optional converter_function, param_type_id)
              end
          | Typing_Union =>
              try! st :=
                union_loop (fun _ => _get_converter_function x) args
                  {| u_required := true;
                     u_discord_obj_fallback := false;
                     u_arg_type := [];
                     u_converters := [] |} in
              union_finish st
          | Greedy =>
              raise (TypeError "commands.Greedy is not supported with slash commands.")
          | _ => compat_layer converter_type
          end
      | _ => compat_layer converter_type
      end
  end.

(** ** Handlers, checks and the bot *)

(** One entry of [inspect.signature(handler).parameters]; [None] stands for
    [Parameter.empty]. *)
Record SigParameter : Type := {
  param_name : string;
  annotation : option pytype;
  param_default : option value
}.

(** A check predicate, sync or async.  Its body may read and mutate the
    payload through the context. *)
Record check_fn : Type := {
  check_name : string;
  iscoroutinefunction : bool;
  check_body : CommandsContext -> P value
}.

(** An [async def] handler: its signature, the list that the [check]
    decorators left on it, and what awaiting it does. *)
Record Handler : Type := {
  parameters : list SigParameter;
  __commands_checks__ : option (list check_fn);
  handler_body : CommandsContext -> list value -> P unit
}.

(** The parts of the bot that the two modules touch.  [http_request] and
    [send] answer for the network: the request either returns or raises. *)
Record Bot : Type := {
  _checks : list check_fn;
  _check_once : list check_fn;
  http_request : Route -> json -> result unit;
  send : json -> list (string * json) -> result unit
}.

(** One entry of [SlashCommand.args]. *)
Record ArgSpec : Type := {
  spec_type : type_id;
  spec_name : string;
  spec_description : string;
  spec_required : bool
}.

(** ** [SlashCommand._process_args] *)

(** The local variables of [_process_args] that [conversion_entrypoint]
    refers to.  A Python closure holds the variables, not their values at
    definition time: every entry point built in the loop reads these three
    as they stand when it is called. *)
Record cells : Type := {
  required : bool;
  param : SigParameter;
  converter_function : conv_obj
}.

Definition processor : Type := json -> P value.

(** [conversion_entrypoint(bot, ctx, arg)], given the cells. *)
Definition conversion_entrypoint (c : cells) : processor :=
  fun arg =>
    do! arg := lift (dict_get arg "value" JNull) in
    match arg with
    | JNull =>
        if required c
        then throw (BadArgument "Received optional param from Discord but no option is set.")
        else
          match param_default (param c) with
          | None => ret (VJson JNull)
          | Some default => ret default
          end
    | _ => call_conv (converter_function c) arg
    end.

(** The loop over the parameters after the first.  It carries the cells, the
    closures appended to [processors] and the entries appended to
    [self.args]. *)
Fixpoint _process_args_loop (params : list SigParameter) (frame : option cells)
    (processors : list (cells -> processor)) (args : list ArgSpec)
    : result (option cells * list (cells -> processor) * list ArgSpec) :=
  match params with
  | [] => ok (frame, processors, args)
  | p :: rest =>
      let converter_type :=
        match annotation p with
        | None => T_str
        | Some t => t
        end in
      let required0 :=
        match param_default p with
        | None => true
        | Some _ => false
        end in
      try! (converter_function, param_type_id) := _get_converter_function converter_type in
      let required1 :=
        if required0 then attr_required converter_function else required0 in
      let frame' :=
        {| required := required1; param := p; converter_function := converter_function |} in
      let description :=
        if required1 then "Required input" else "Optional input" in
      _process_args_loop rest (Some frame')
        (processors ++ [conversion_entrypoint])
        (args ++ [ {| spec_type := param_type_id;
                      spec_name := param_name p;
                      spec_description := description;
                      spec_required := required1 |} ])
  end.

Definition valid_context_annotation (a : option pytype) : bool :=
  match a with
  | None => true
  | Some T_Context => true
  | Some T_CommandsContext => true
  | Some _ => false
  end.

(** [_process_args]: returns the processors, and [self.args] as it leaves
    it.  The closures are called after the loop has ended, so each one sees
    the cells of the last iteration. *)
Definition _process_args (h : Handler) : result (list processor * list ArgSpec) :=
  match parameters h with
  | [] => raise (TypeError "Expected context")
  | possible_ctx :: params =>
      if negb (valid_context_annotation (annotation possible_ctx))
      then raise (TypeError "Context type is invalid")
      else
        try! (frame, processors, args) := _process_args_loop params None [] [] in
        match frame with
        | None => ok ([], args)
        | Some final => ok (map (fun closure => closure final) processors, args)
        end
  end.

(** ** [SlashCommand._get_checks] *)

(** An element of [self.checks]: an async check as it was given, or the
    [wrapper] that replaced a sync one.  The wrapper is a closure over the
    local variable [c] of [_get_checks]; it is kept together with what [c]
    holds when [_get_checks] returns, which is what it reads when called. *)
Inductive awaitable_check : Type :=
| AsyncCheck (c : check_fn)
| Wrapper (c : check_fn).

(** Running the body of a check. *)
Definition run_check_body (c : check_fn) (ctx : CommandsContext) : M value :=
  log (EvCheck (check_name c)) ;;; lift_app (check_body c ctx).

(** [await check(ctx)].  Inside [wrapper], [c(ctx)] runs a sync [c]; for an
    async [c] it only creates a coroutine object, which [wrapper] returns. *)
Definition await_check (check : awaitable_check) (ctx : CommandsContext) : M value :=
  match check with
  | AsyncCheck c => run_check_body c ctx
  | Wrapper c =>
      if iscoroutinefunction c then ret (VCoroutine (check_name c))
      else run_check_body c ctx
  end.

(** The checks collected in order, the handler's own list reversed. *)
Definition collect_checks (bot : Bot) (handler : option Handler) : list check_fn :=
  _checks bot ++ _check_once bot ++
  match handler with
  | Some h =>
      match __commands_checks__ h with
      | Some x => rev x
      | None => []
      end
  | None => []
  end.

(** [_get_checks].  The last loop leaves in [c] the last element of
    [checks]; every [wrapper] reads it from there. *)
Definition _get_checks (bot : Bot) (handler : option Handler) : list awaitable_check :=
  let checks := collect_checks bot handler in
  match last checks with
  | None => []
  | Some c_final =>
      map (fun c => if iscoroutinefunction c then AsyncCheck c else Wrapper c_final) checks
  end.

(** [x.reverse()] reverses the handler's own list in place. *)
Definition reverse_checks_in_place (h : Handler) : Handler :=
  {| parameters := parameters h;
     __commands_checks__ := option_map (@rev check_fn) (__commands_checks__ h);
     handler_body := handler_body h |}.

(** ** [SlashCommand] *)

Inductive SlashCommand : Type := mkSlashCommand {
  name : string;
  description : string;
  handler : option Handler;
  args : list ArgSpec;
  _processors : option (list processor);
  private : bool;
  children : list (string * SlashCommand);
  checks : list awaitable_check
}.

(** [SlashCommand.__init__]. *)
Definition SlashCommand_init (bot : Bot) (name : string) (description : string)
    (handler : option Handler) (private : bool) : result SlashCommand :=
  try! (processors, args) :=
    match handler with
    | Some h =>
        try! (ps, args) := _process_args h in ok (Some ps, args)
    | None => ok (None, [])
    end in
  ok {| name := name;
        description := description;
        handler := option_map reverse_checks_in_place handler;
        args := args;
        _processors := processors;
        private := private;
        children := [];
        checks := _get_checks bot handler |}.

(** [SlashCommand._add_child]. *)
Definition _add_child (self child : SlashCommand) : result SlashCommand :=
  match handler self with
  | Some _ => raise (RecursionError "Async command cannot have children.")
  | None =>
      ok {| name := name self;
            description := description self;
            handler := handler self;
            args := args self;
            _processors := _processors self;
            private := private self;
            children := assoc_set (name child) child (children self);
            checks := checks self |}
  end.

(** ** [_CommandsProcessor] *)

(** What [_create_command] is given: a decorated coroutine function, or any
    other object with attributes.  [attributes] lists [getattr(item, key)]
    for [key] in [item.__dir__()], in that order. *)
Inductive item : Type := mkItem {
  _slash : option string;
  __doc__ : option string;
  _private : bool;
  coroutine : option Handler;
  attributes : list (string * item)
}.

(** Truth value of an optional string attribute ([getattr(x, a, False)]). *)
Definition attr_truthy (a : option string) : option string :=
  match a with
  | Some s => if String.eqb s EmptyString then None else Some s
  | None => None
  end.

Section Processor.
Variable bot : Bot.

(** The loop [for key in item.__dir__()]; [create] is the recursive call
    [self._create_command(command_name, attr, nested + 1)]. *)
Definition scan_attrs (create : string -> item -> result SlashCommand)
    : list (string * item) -> SlashCommand -> result SlashCommand :=
  fix scan (keys : list (string * item)) (command : SlashCommand) : result SlashCommand :=
    match keys with
    | [] => ok command
    | (_, attr) :: rest =>
        match attr_truthy (_slash attr) with
        | Some command_name =>
            try! subcommand := create command_name attr in
            try! command := _add_child command subcommand in
            scan rest command
        | None => scan rest command
        end
    end.

(** [_CommandsProcessor._create_command]. *)
Fixpoint _create_command (name : string) (it : item) (nested : nat) {struct it}
    : result SlashCommand :=
  match it with
  | mkItem _ doc is_private is_async attrs =>
      let description :=
        match attr_truthy doc with
        | Some d => d
        | None => EmptyString
        end in
      try! handler :=
        match is_async with
        | Some h => ok (Some h)
        | None =>
            if (1 <? nested)%nat
            then raise (RecursionError "Command is nested too deep.")
            else ok None
        end in
      try! command := SlashCommand_init bot name description handler is_private in
      match is_async with
      | Some _ => ok command
      | None =>
          try! command :=
            scan_attrs
              (fun command_name attr => _create_command command_name attr (S nested))
              attrs command in
          if (length (children command) =? 0)%nat
          then raise (TypeError "A sub-command class requires children.")
          else ok command
      end
  end.

(** [_CommandsProcessor.load_command]: the registry is only assigned if
    the construction returned. *)
Definition load_command (commands : gmap string SlashCommand) (it : item)
    : result unit * gmap string SlashCommand :=
  match _slash it with
  | None => (raise (AttributeError "object has no attribute '_slash'"), commands)
  | Some key =>
      match _create_command key it 0 with
      | inl e => (inl e, commands)
      | inr command => (ok tt, <[key := command]> commands)
      end
  end.

(** [_CommandsProcessor.unload_command]: [del self.commands[name]]. *)
Definition unload_command (commands : gmap string SlashCommand) (name : string)
    : result unit * gmap string SlashCommand :=
  match commands !! name with
  | Some _ => (ok tt, delete name commands)
  | None => (raise (KeyError name), commands)
  end.

(** ** [SlashCommand.execute] *)

(** [x in {1, 2}]. *)
Definition in_1_2 (x : json) : result bool :=
  match x with
  | JInt n => ok ((n =? 1)%Z || (n =? 2)%Z)
  | JBool b => ok b
  | JList _ | JDict _ => raise (TypeError "unhashable type")
  | _ => ok false
  end.

(** [ctx_data["data"]["options"] = v]. *)
Definition set_options (v : json) : M unit :=
  do! ctx_data := get_payload in
  do! data := lift (getitem ctx_data "data") in
  do! data' := lift (setitem data "options" v) in
  do! ctx_data' := lift (setitem ctx_data "data" data') in
  lift_app (put ctx_data').

(** [self.children.get(name)] followed by what is done with the child. *)
Definition with_child {B : Type} (k : string) (found : SlashCommand -> B) (missing : B)
    : list (string * SlashCommand) -> B :=
  fix lookup_in (children : list (string * SlashCommand)) : B :=
    match children with
    | [] => missing
    | (k', child) :: rest =>
        if String.eqb k k' then found child else lookup_in rest
    end.

(** The loop over the checks. *)
Fixpoint run_checks (name : string) (checks : list awaitable_check)
    (ctx : CommandsContext) : M unit :=
  match checks with
  | [] => ret tt
  | check :: rest =>
      do! verdict := await_check check ctx in
      if negb (value_truthy verdict)
      then throw (CheckFailure ("The check functions for command " +:+ name +:+ " failed."))
      else run_checks name rest ctx
  end.

(** The loop [for index, arg in enumerate(self._processors)]. *)
Fixpoint convert_args (processors : list processor) (params : json) (index : nat)
    (args : list value) : M (list value) :=
  match processors with
  | [] => ret args
  | arg :: rest =>
      do! option_ := lift (getindex params index) in
      do! converted := lift_app (arg option_) in
      convert_args rest params (S index) (args ++ [converted])
  end.

Definition unknown_subcommand : exn :=
  BadArgument ("Unknown subcommand " +:+ dquote +:+ "None" +:+ dquote).

Fixpoint execute (self : SlashCommand) {struct self} : M unit :=
  match self with
  | mkSlashCommand self_name _ self_handler _ self_processors _ self_children self_checks =>
      match self_handler with
      | None =>
          do! ctx_data := get_payload in
          do! data := lift (getitem ctx_data "data") in
          do! options := lift (getitem data "options") in
          do! n := lift (py_len options) in
          if negb (n =? 1)%nat
          then throw (BadArgument "Expected type option, found weird argument set.")
          else
            do! base_option := lift (getindex options 0) in
            do! ty := lift (getitem base_option "type") in
            do! is_sub := lift (in_1_2 ty) in
            if negb is_sub
            then throw (BadArgument "First argument is not a sub-command type.")
            else
              do! child_name := lift (getitem base_option "name") in
              match as_key child_name with
              | KeyUnhashable => throw (TypeError "unhashable type")
              | KeyOther => throw unknown_subcommand
              | KeyStr k =>
                  with_child k
                    (fun subcommand =>
                       do! nested := lift (getitem base_option "options") in
                       set_options nested ;;;
                       execute subcommand)
                    (throw unknown_subcommand)
                    self_children
              end
      | Some h =>
          do! ctx := lift_app CommandsContext_init in
          run_checks self_name self_checks ctx ;;;
          do! ctx_data := get_payload in
          do! data := lift (getitem ctx_data "data") in
          do! params := lift (getitem data "options") in
          do! args :=
            match self_processors with
            | Some processors => convert_args processors params 0 []
            | None => throw (TypeError "'NoneType' object is not iterable")
            end in
          log (EvInvoke self_name ctx args) ;;;
          lift_app (handler_body h ctx args)
      end
  end.

(** ** [_CommandsPatcher._process_interaction] *)

Definition root_not_found (command_name : json) : exn :=
  CommandNotFound ("The root command " +:+ dquote +:+ py_str command_name +:+ dquote
                   +:+ " was not found.").

(** [self.processor.commands[command_name]] inside its [try]. *)
Definition lookup_root (commands : gmap string SlashCommand) (command_name : json)
    : M SlashCommand :=
  match as_key command_name with
  | KeyUnhashable => throw (TypeError "unhashable type")
  | KeyOther => throw (root_not_found command_name)
  | KeyStr k =>
      match commands !! k with
      | Some cmd => ret cmd
      | None => throw (root_not_found command_name)
      end
  end.

(** The [except Exception as e] clause. *)
Definition report_error (e : exn) : M unit :=
  do! ctx := lift_app CommandsContext_init in
  log (EvDispatch "command_error" ctx e).

(** The body of the outer [try]. *)
Definition resolve_and_execute (commands : gmap string SlashCommand) (command_name : json)
    : M unit :=
  do! cmd := lookup_root commands command_name in
  execute cmd.

Definition _process_interaction (commands : gmap string SlashCommand) : M unit :=
  do! data := get_payload in
  do! ty := lift (getitem data "type") in
  if py_eq ty (JInt 2) then
    do! inner := lift (getitem data "data") in
    do! command_name := lift (getitem inner "name") in
    try_except (resolve_and_execute commands command_name) isinstance_Exception report_error
  else ret tt.
End Processor.

(** ** [CommandsContext.reply] and [CommandsContext.reinvoke] *)


(** [[e.to_dict() for e in embeds]]: an embed is held in its dict form. *)
Definition embeds_to_dicts (embeds : json) : result json :=
  match embeds with
  | JList l => ok (JList l)
  | _ => raise (TypeError "object is not iterable")
  end.

(** [kwargs.get(k)]. *)
Definition kwargs_get (kwargs : list (string * json)) (k : string) : json :=
  match assoc_get k kwargs with
  | Some v => v
  | None => JNull
  end.

(** The dict [data] of the callback body. *)
Definition reply_data (self : CommandsContext) (content : json)
    (kwargs : list (string * json)) : result (list (string * json)) :=
  let data := [("tts", JBool (truthy (kwargs_get kwargs "tts")))] in
  let data := if ephemeral self then assoc_set "flags" (JInt 64) data else data in
  let data := if truthy content then assoc_set "content" content data else data in
  let embeds := kwargs_get kwargs "embeds" in
  try! data :=
    (if truthy embeds
     then try! dicts := embeds_to_dicts embeds in ok (assoc_set "embeds" dicts data)
     else ok data) in
  let embed := kwargs_get kwargs "embed" in
  let data := if truthy embed then assoc_set "embeds" (JList [embed]) data else data in
  let allowed_mentions := kwargs_get kwargs "allowed_mentions" in
  let data :=
    if truthy allowed_mentions then assoc_set "allowed_mentions" allowed_mentions data
    else data in
  ok data.







(** [ctx.ephemeral = b]. *)
Definition set_ephemeral (self : CommandsContext) (b : bool) : CommandsContext :=
  {| message := message self; _first_reply := _first_reply self; ephemeral := b |}.

(** ** [_CommandsPatcher.on_socket_response] *)

(** [x in (2, 3)]. *)
Definition in_2_3 (x : json) : bool :=
  py_eq x (JInt 2) || py_eq x (JInt 3).

(** The listener is given the gateway message; the payload that the router
    works on is the object under [message["d"]], so what the router writes
    into it shows in the message.  The result carries the message and the
    trace as the call leaves them. *)
Definition on_socket_response (commands : gmap string SlashCommand) (message : json)
    (events : list event) : result unit * json * list event :=
  match getitem message "t" with
  | inl e => (inl e, message, events)
  | inr t =>
      if negb (py_eq t (JStr "INTERACTION_CREATE")) then (ok tt, message, events)
      else
        match getitem message "d" with
        | inl e => (inl e, message, events)
        | inr data =>
            match getitem data "type" with
            | inl e => (inl e, message, events)
            | inr ty =>
                if in_2_3 ty then
                  let '(r, w) :=
                    _process_interaction commands {| payload := data; trace := events |} in
                  match setitem message "d" (payload w) with
                  | inr message' => (r, message', trace w)
                  | inl _ => (r, message, trace w)
                  end
                else (ok tt, message, events)
            end
        end
  end.

(** ** Cog loading and unloading ([_CommandsPatcher.patch]) *)

(** The loop of [patched_load_cog] over [cog.__dir__()]. *)
Fixpoint load_tagged (bot : Bot) (commands : gmap string SlashCommand)
    (attrs : list (string * item)) : result unit * gmap string SlashCommand :=
  match attrs with
  | [] => (ok tt, commands)
  | (_, attr) :: rest =>
      match attr_truthy (_slash attr) with
      | Some _ =>
          match load_command bot commands attr with
          | (inl e, commands') => (inl e, commands')
          | (inr _, commands') => load_tagged bot commands' rest
          end
      | None => load_tagged bot commands rest
      end
  end.

(** [patched_load_cog].  The last component tells whether the original
    [Bot.add_cog] was reached. *)
Definition patched_load_cog (bot : Bot) (commands : gmap string SlashCommand) (cog : item)
    : result unit * gmap string SlashCommand * bool :=
  let '(r, commands') :=
    match attr_truthy (_slash cog) with
    | Some _ => load_command bot commands cog
    | None => load_tagged bot commands (attributes cog)
    end in
  match r with
  | inl e => (inl e, commands', false)
  | inr _ => (ok tt, commands', true)
  end.

(** [getattr(attr, "_slash", False)] as a value. *)
Definition slash_value (attr : item) : json :=
  match _slash attr with
  | Some s => JStr s
  | None => JBool false
  end.

(** The loop of [patched_remove_cog]: it assigns the local [name] at every
    attribute, and carries it out of the loop. *)
Fixpoint unload_tagged (commands : gmap string SlashCommand) (name : json)
    (attrs : list (string * item)) : result unit * gmap string SlashCommand * json :=
  match attrs with
  | [] => (ok tt, commands, name)
  | (_, attr) :: rest =>
      let name := slash_value attr in
      match attr_truthy (_slash attr) with
      | Some tag =>
          match unload_command commands tag with
          | (inl e, commands') => (inl e, commands', name)
          | (inr _, commands') => unload_tagged commands' name rest
          end
      | None => unload_tagged commands name rest
      end
  end.

(** [patched_remove_cog], given what [bot.get_cog(name)] returned.  The last
    component is the name that the original [Bot.remove_cog] receives, when
    it is reached. *)
Definition patched_remove_cog (commands : gmap string SlashCommand) (name : string)
    (cog : option item) : result unit * gmap string SlashCommand * option json :=
  match cog with
  | None => (ok tt, commands, Some (JStr name))
  | Some c =>
      match attr_truthy (_slash c) with
      | Some _ =>
          match unload_command commands name with
          | (inl e, commands') => (inl e, commands', None)
          | (inr _, commands') => (ok tt, commands', Some (JStr name))
          end
      | None =>
          match unload_tagged commands (JStr name) (attributes c) with
          | (inl e, commands', _) => (inl e, commands', None)
          | (inr _, commands', name') => (ok tt, commands', Some name')
          end
      end
  end.

(** ** [_cmd_to_dict] and [update_commands_list] *)

Definition type_id_json (t : type_id) : json :=
  match t with
  | TypeId n => JInt n
  | TypeIdSet s => JList (map JInt s)
  end.

(** One entry of [cmd.args], the dict that [_process_args] appended. *)
Definition ArgSpec_dict (a : ArgSpec) : json :=
  JDict [ ("type", type_id_json (spec_type a));
          ("name", JStr (spec_name a));
          ("description", JStr (spec_description a));
          ("required", JBool (spec_required a)) ].

(** [_cmd_to_dict].  [enumerate(cmd.children)] runs over a dict: it yields
    each position with the key at that position, so [child] is the key, a
    [str], and the first thing the loop body does, [child.handler], raises.
    Without children the loop is not entered. *)
Definition _cmd_to_dict (cmd : SlashCommand) : result json :=
  match handler cmd with
  | Some _ =>
      ok (JDict [ ("name", JStr (name cmd));
                  ("description", JStr (description cmd));
                  ("options", JList (map ArgSpec_dict (args cmd))) ])
  | None =>
      match children cmd with
      | _ :: _ => raise (AttributeError "'str' object has no attribute 'handler'")
      | [] =>
          ok (JDict [ ("name", JStr (name cmd));
                      ("description", JStr (description cmd));
                      ("options", JList []) ])
      end
  end.



(** * Properties *)

(** ** Fixtures and measures *)

Module Fixtures.
(** A bot without checks whose network calls return. *)
Definition quiet_bot : Bot :=
  {| _checks := [];
     _check_once := [];
     http_request := fun _ _ => ok tt;
     send := fun _ _ => ok tt |}.


Definition ctx_param : SigParameter :=
  {| param_name := "ctx"; annotation := None; param_default := None |}.

Definition returns_normally : CommandsContext -> list value -> P unit :=
  fun _ _ => ret tt.

(** [async def name(ctx, <params>)], decorated with the given checks. *)
Definition handler_of (params : list SigParameter) (checks : option (list check_fn))
    (body : CommandsContext -> list value -> P unit) : Handler :=
  {| parameters := ctx_param :: params;
     __commands_checks__ := checks;
     handler_body := body |}.

(** The object [slash_command_wrapper(name)] returns for a handler. *)
Definition command_item (name : string) (h : Handler) : item :=
  {| _slash := Some name;
     __doc__ := None;
     _private := false;
     coroutine := Some h;
     attributes := [] |}.

(** The object [slash_command_parent(name)] returns, with its children. *)
Definition parent_item (name : string) (members : list (string * item)) : item :=
  {| _slash := Some name;
     __doc__ := Some EmptyString;
     _private := false;
     coroutine := None;
     attributes := members |}.

(** The user who sends the commands, as the platform describes them. *)
Definition ada_user : json :=
  JDict [ ("id", JStr "123");
          ("username", JStr "ada");
          ("avatar", JNull);
          ("discriminator", JStr "1815") ].

(** The [member] object of an event sent from a guild. *)
Definition caller : json :=
  JDict [("user", ada_user); ("roles", JList []); ("nick", JNull)].

(** The same object once a context has been built from the event: its
    [user] is what [_to_minimal_user_json] returned. *)
Definition caller_seen : json :=
  JDict [ ("user", JDict [ ("username", JStr "ada");
                           ("id", JInt 123);
                           ("avatar", JNull);
                           ("discriminator", JStr "1815");
                           ("bot", JBool false) ]);
          ("roles", JList []);
          ("nick", JNull) ].

(** An application-command event naming [command] with [options], sent by
    [member] from guild 20. *)
Definition event_of (member : json) (command : string) (options : json) : json :=
  JDict [ ("type", JInt 2);
          ("id", JStr "900");
          ("token", JStr "aW50ZXJhY3Rpb24");
          ("channel_id", JStr "10");
          ("guild_id", JStr "20");
          ("member", member);
          ("data", JDict [("name", JStr command); ("options", options)]) ].

Definition interaction (command : string) (options : json) : json :=
  event_of caller command options.

(** The event once a context has been built from it. *)
Definition interaction_seen (command : string) (options : json) : json :=
  event_of caller_seen command options.

Definition option_with (name : string) (v : json) : json :=
  JDict [("name", JStr name); ("value", v)].

Definition fresh (p : json) : world := {| payload := p; trace := [] |}.

(** A node with nothing in it, for lookups that cannot fail. *)
Definition blank_node : SlashCommand :=
  {| name := EmptyString;
     description := EmptyString;
     handler := None;
     args := [];
     _processors := None;
     private := false;
     children := [];
     checks := [] |}.

(** The registry after loading one item into an empty one. *)
Definition registry_of (bot : Bot) (it : item) : gmap string SlashCommand :=
  snd (load_command bot ∅ it).


Definition dispatched (ev : event) : option (string * exn) :=
  match ev with
  | EvDispatch event_name _ e => Some (event_name, e)
  | _ => None
  end.

Definition invoked (ev : event) : option (string * list value) :=
  match ev with
  | EvInvoke command _ args => Some (command, args)
  | _ => None
  end.

Definition checked (ev : event) : option string :=
  match ev with
  | EvCheck n => Some n
  | _ => None
  end.



(** The trace read through one of the views above. *)
Definition view {A : Type} (f : event -> option A) (w : world) : list A :=
  omap f (trace w).
End Fixtures.

(** Height of a command tree: 0 for a node without children. *)
Fixpoint height (c : SlashCommand) : nat :=
  match c with
  | mkSlashCommand _ _ _ _ _ _ kids _ =>
      (fix over (l : list (string * SlashCommand)) : nat :=
         match l with
         | [] => 0
         | (_, child) :: rest => Nat.max (S (height child)) (over rest)
         end) kids
  end.

(** Every node of a tree with its depth, the root at [depth]. *)
Fixpoint nodes_at (depth : nat) (c : SlashCommand) : list (nat * SlashCommand) :=
  match c with
  | mkSlashCommand _ _ _ _ _ _ kids _ =>
      (depth, c) ::
      (fix over (l : list (string * SlashCommand)) : list (nat * SlashCommand) :=
         match l with
         | [] => []
         | (_, child) :: rest => nodes_at (S depth) child ++ over rest
         end) kids
  end.

(** Every node of a tree. *)
Fixpoint nodes (c : SlashCommand) : list SlashCommand :=
  match c with
  | mkSlashCommand _ _ _ _ _ _ kids _ =>
      c ::
      (fix over (l : list (string * SlashCommand)) : list SlashCommand :=
         match l with
         | [] => []
         | (_, child) :: rest => nodes child ++ over rest
         end) kids
  end.

Definition has_handler (c : SlashCommand) : bool :=
  match handler c with
  | Some _ => true
  | None => false
  end.

Definition has_children (c : SlashCommand) : bool :=
  match children c with
  | [] => false
  | _ :: _ => true
  end.

(** Exactly one of: a handler, at least one child. *)
Definition handler_xor_children (c : SlashCommand) : Prop :=
  xorb (has_handler c) (has_children c) = true.

(** How deep the tree that an item describes would reach: a coroutine
    function is a leaf; another object is one level above the deepest of its
    tagged attributes. *)
Fixpoint nesting (it : item) : nat :=
  match it with
  | mkItem _ _ _ is_async attrs =>
      match is_async with
      | Some _ => 0
      | None =>
          (fix over (l : list (string * item)) : nat :=
             match l with
             | [] => 0
             | (_, attr) :: rest =>
                 match attr_truthy (_slash attr) with
                 | Some _ => Nat.max (S (nesting attr)) (over rest)
                 | None => over rest
                 end
             end) attrs
      end
  end.

(** Size of a JSON value. *)
Fixpoint json_size (j : json) : nat :=
  match j with
  | JList l =>
      S ((fix over (xs : list json) : nat :=
            match xs with
            | [] => 0
            | x :: rest => json_size x + over rest
            end) l)
  | JDict d =>
      S ((fix over (xs : list (string * json)) : nat :=
            match xs with
            | [] => 0
            | (_, x) :: rest => json_size x + over rest
            end) d)
  | _ => 1
  end.

Definition is_dispatch (ev : event) : bool :=
  match ev with
  | EvDispatch _ _ _ => true
  | _ => false
  end.

(** How many events the router has dispatched on the bot. *)
Definition dispatch_count (w : world) : nat :=
  length (List.filter is_dispatch (trace w)).



(** A routing step that only appends to the trace, and appends no
    dispatch. *)
Definition appends_no_dispatch {A : Type} (m : M A) : Prop :=
  forall w, exists evs,
    trace (snd (m w)) = trace w ++ evs /\ List.filter is_dispatch evs = [].

(** ** Scenarios *)

Module UnionIntStr.
Import Fixtures.

Definition value_param : SigParameter :=
  {| param_name := "value";
     annotation := Some (Union_ [T_int; T_str]);
     param_default := None |}.

(** [async def echo(ctx, value: Union[int, str])]. *)
Definition echo : Handler := handler_of [value_param] None returns_normally.
End UnionIntStr.

Module OptionalGreeting.
Import Fixtures.

Definition greeting_param : SigParameter :=
  {| param_name := "greeting";
     annotation := Some T_str;
     param_default := Some (VJson (JStr "hello")) |}.

(** [async def greet(ctx, greeting: str = "hello")]. *)
Definition greet : Handler := handler_of [greeting_param] None returns_normally.

Definition registry : gmap string SlashCommand :=
  registry_of quiet_bot (command_item "greet" greet).

(** The user left the option out: the platform sends no entry for it. *)
Definition omitted : json := interaction "greet" (JList []).

(** An entry for the option that carries no value. *)
Definition valueless : json :=
  interaction "greet" (JList [JDict [("name", JStr "greeting")]]).
End OptionalGreeting.

Module GuardedCommand.
Import Fixtures.

(** Two sync predicates, as [commands.check] and [bot.check] store them. *)
Definition deny : check_fn :=
  {| check_name := "deny";
     iscoroutinefunction := false;
     check_body := fun _ => ret (VJson (JBool false)) |}.

Definition allow : check_fn :=
  {| check_name := "allow";
     iscoroutinefunction := false;
     check_body := fun _ => ret (VJson (JBool true)) |}.

(** A bot with one global check that rejects everything. *)
Definition guarded_bot : Bot :=
  {| _checks := [deny];
     _check_once := [];
     http_request := fun _ _ => ok tt;
     send := fun _ _ => ok tt |}.

(** [@commands.check(allow)  async def secret(ctx)]. *)
Definition secret : Handler := handler_of [] (Some [allow]) returns_normally.

Definition registry : gmap string SlashCommand :=
  registry_of guarded_bot (command_item "secret" secret).

Definition event_ : json := interaction "secret" (JList []).
End GuardedCommand.

Module TwoParameters.
Import Fixtures.

Definition target_param : SigParameter :=
  {| param_name := "target"; annotation := Some T_Object; param_default := None |}.

Definition note_param : SigParameter :=
  {| param_name := "note"; annotation := Some T_str; param_default := None |}.

(** [async def tag(ctx, target: discord.Object, note: str)]. *)
Definition tag : Handler := handler_of [target_param; note_param] None returns_normally.

Definition registry : gmap string SlashCommand :=
  registry_of quiet_bot (command_item "tag" tag).

Definition event_ : json :=
  interaction "tag"
    (JList [option_with "target" (JStr "5"); option_with "note" (JStr "hi")]).

(** [self.args] of the command, as published. *)
Definition published_types : list type_id :=
  match registry !! "tag" with
  | Some cmd => map spec_type (args cmd)
  | None => []
  end.
End TwoParameters.

Module Shutdown.
Import Fixtures.

(** [async def stop(ctx): sys.exit()]. *)
Definition stop : Handler := handler_of [] None (fun _ _ => throw SystemExit).

Definition registry : gmap string SlashCommand :=
  registry_of quiet_bot (command_item "stop" stop).

Definition event_ : json := interaction "stop" (JList []).
End Shutdown.

Module Greet.
Import Fixtures.

Definition target_param : SigParameter :=
  {| param_name := "target"; annotation := Some T_User; param_default := None |}.

(** [async def user(ctx, target: discord.User)] under the parent [greet]. *)
Definition user : Handler := handler_of [target_param] None returns_normally.

Definition greet : item := parent_item "greet" [("user", command_item "user" user)].

Definition registry : gmap string SlashCommand := registry_of quiet_bot greet.

Definition target_option (id : string) : json :=
  JDict [("name", JStr "target"); ("value", JStr id)].

Definition user_option (id : string) : json :=
  JDict [ ("name", JStr "user"); ("type", JInt 1);
          ("options", JList [target_option id]) ].

Definition resolved : json := JDict [("users", JDict [("123", ada_user)])].

(** An event for [greet] sent by [member], with the given options. *)
Definition shaped (member : json) (options : json) : json :=
  JDict [ ("type", JInt 2);
          ("id", JStr "900");
          ("token", JStr "aW50ZXJhY3Rpb24");
          ("channel_id", JStr "10");
          ("guild_id", JStr "20");
          ("member", member);
          ("data", JDict [ ("name", JStr "greet");
                           ("options", options);
                           ("resolved", resolved) ]) ].

(** [greet user target:<id>]. *)
Definition event_ (id : string) : json := shaped caller (JList [user_option id]).

(** The root node and its one child, as registered. *)
Definition root_node : SlashCommand :=
  match registry !! "greet" with
  | Some cmd => cmd
  | None => blank_node
  end.

Definition child_node : SlashCommand :=
  match assoc_get "user" (children root_node) with
  | Some cmd => cmd
  | None => blank_node
  end.


End Greet.

Module Nested.
Import Fixtures.

Definition leaf : item := command_item "leaf" (handler_of [] None returns_normally).

Definition inner : item := parent_item "inner" [("leaf", leaf)].

(** root, group, subcommand: [outer inner leaf]. *)
Definition outer : item := parent_item "outer" [("inner", inner)].

(** One level more: [top outer inner leaf]. *)
Definition top : item := parent_item "top" [("outer", outer)].
End Nested.

Module Replies.
Import Fixtures.

Definition event_ : json := interaction "ping" (JList []).

Definition blank_message : CommandsMessage :=
  {| msg_channel := 0; msg_data := JNull |}.

(** The context that [CommandsContext(event_, bot)] builds. *)
Definition fresh_context : CommandsContext :=
  match CommandsContext_init event_ with
  | (inr ctx, _) => ctx
  | (inl _, _) => {| message := blank_message; _first_reply := true; ephemeral := false |}
  end.



End Replies.

(** ** Measures for the rest of the code *)

(** The annotation a parameter is converted by: [str] when it has none. *)
Definition converter_type_of (p : SigParameter) : pytype :=
  match annotation p with
  | None => T_str
  | Some t => t
  end.

(** [param.default is param.empty]. *)
Definition has_no_default (p : SigParameter) : bool :=
  match param_default p with
  | None => true
  | Some _ => false
  end.

(** The payload after a run of checks that all returned a truthy value, if
    they did. *)
Fixpoint passing (cs : list check_fn) (ctx : CommandsContext) (p : json) : option json :=
  match cs with
  | [] => Some p
  | c :: rest =>
      match check_body c ctx p with
      | (inr v, p') => if value_truthy v then passing rest ctx p' else None
      | (inl _, _) => None
      end
  end.

(** An interaction sent from a direct message: the payload is a dict with
    an id and a numeric channel id, and no guild id. *)
Definition direct_message (p : json) : Prop :=
  exists top id channel n,
    p = JDict top
    /\ assoc_get "guild_id" top = None
    /\ assoc_get "id" top = Some id
    /\ assoc_get "channel_id" top = Some channel
    /\ py_int channel = ok n.

(** Every child is stored under its own name, once. *)
Definition keyed (c : SlashCommand) : Prop :=
  NoDup (map fst (children c))
  /\ Forall (fun kc => fst kc = name (snd kc)) (children c).

(** The member entry after [_member_converter] has written into it. *)
Definition polyfilled (member : list (string * json)) (user : json) : list (string * json) :=
  assoc_set "mute" (JBool false)
    (assoc_set "deaf" (JBool false) (assoc_set "user" user member)).

(** The payload with [entry] stored under [resolved.members[id]]. *)
Definition write_member (top d r m : list (string * json)) (id : string) (entry : json)
    : json :=
  JDict (assoc_set "data"
           (JDict (assoc_set "resolved"
                     (JDict (assoc_set "members" (JDict (assoc_set id entry m)) r)) d))
           top).

(** [payload["data"]["resolved"][table][id]]. *)
Definition resolved_entry (p : json) (table id : string) : result json :=
  try! data := getitem p "data" in
  try! resolved := getitem data "resolved" in
  try! entries := getitem resolved table in
  getitem entries id.

(** The tags of the attributes that [patched_load_cog] and
    [patched_remove_cog] act on. *)
Definition tags (attrs : list (string * item)) : list string :=
  omap (fun ka => attr_truthy (_slash (snd ka))) attrs.

Module Guild.
Import Fixtures.

Definition ada : json := ada_user.

(** A user entry without discriminator and avatar. *)
Definition stub : json := JDict [("id", JStr "124"); ("username", JStr "bob")].

(** A resolved member entry: the platform leaves [user] out of it. *)
Definition ada_member : list (string * json) :=
  [("nick", JStr "countess"); ("roles", JList [JStr "8"])].

Definition general : json :=
  JDict [ ("id", JStr "7"); ("guild_id", JStr "20"); ("type", JInt 0);
          ("name", JStr "general"); ("position", JInt 0) ].

Definition lobby : json :=
  JDict [ ("id", JStr "9"); ("guild_id", JStr "20"); ("type", JInt 4);
          ("name", JStr "lobby"); ("position", JInt 1) ].

(** A channel of another guild. *)
Definition elsewhere : json :=
  JDict [ ("id", JStr "11"); ("guild_id", JStr "21"); ("type", JInt 0);
          ("name", JStr "general"); ("position", JInt 0) ].

Definition moderator : json := JDict [("id", JStr "8"); ("name", JStr "moderator")].

Definition channels : list (string * json) :=
  [("7", general); ("9", lobby); ("11", elsewhere)].

Definition tables : list (string * json) :=
  [ ("users", JDict [("123", ada); ("124", stub)]);
    ("members", JDict [("123", JDict ada_member)]);
    ("channels", JDict channels);
    ("roles", JDict [("8", moderator)]) ].

Definition inner : list (string * json) :=
  [("name", JStr "greet"); ("options", JList []); ("resolved", JDict tables)].

Definition fields : list (string * json) :=
  [ ("type", JInt 2);
    ("id", JStr "900");
    ("token", JStr "aW50ZXJhY3Rpb24");
    ("channel_id", JStr "10");
    ("guild_id", JStr "20");
    ("member", caller);
    ("data", JDict inner) ].

(** An interaction in guild 20 with entries in each resolved table. *)
Definition event_ : json := JDict fields.
End Guild.

(** What [_process_args] publishes in [self.args] for a parameter. *)
Definition publishes (p : SigParameter) (s : ArgSpec) : Prop :=
  spec_name s = param_name p
  /\ spec_required s = has_no_default p
  /\ spec_description s
     = (if has_no_default p then "Required input" else "Optional input")
  /\ exists c, _get_converter_function (converter_type_of p) = ok (c, spec_type s).

(** The cells of [_process_args] after the iteration for [p]. *)
Definition cells_after (p : SigParameter) (c : conv_obj) : cells :=
  {| required := has_no_default p; param := p; converter_function := c |}.

(** A parameter whose annotation has a converter. *)
Definition convertible (p : SigParameter) : Prop :=
  exists r, _get_converter_function (converter_type_of p) = ok r.

Module Membership.
Import Fixtures.

(** Three async predicates. *)
Definition is_member : check_fn :=
  {| check_name := "is_member";
     iscoroutinefunction := true;
     check_body := fun _ => ret (VJson (JBool true)) |}.

Definition is_owner : check_fn :=
  {| check_name := "is_owner";
     iscoroutinefunction := true;
     check_body := fun _ => ret (VJson (JBool false)) |}.

Definition is_sober : check_fn :=
  {| check_name := "is_sober";
     iscoroutinefunction := true;
     check_body := fun _ => ret (VJson (JBool true)) |}.

Definition bot_ : Bot :=
  {| _checks := [is_member; is_owner];
     _check_once := [];
     http_request := fun _ _ => ok tt;
     send := fun _ _ => ok tt |}.

(** [@commands.check(is_sober)  async def purge(ctx)]. *)
Definition purge : Handler := handler_of [] (Some [is_sober]) returns_normally.

Definition node : SlashCommand :=
  match SlashCommand_init bot_ "purge" EmptyString (Some purge) false with
  | inr c => c
  | inl _ => blank_node
  end.

Definition event_ : json := interaction "purge" (JList []).

Definition context : CommandsContext :=
  match CommandsContext_init event_ with
  | (inr ctx, _) => ctx
  | (inl _, _) =>
      {| message := Replies.blank_message; _first_reply := true; ephemeral := false |}
  end.

(** [@commands.check(is_member)  @commands.check(is_sober)  async def
    vote(ctx)]: the decorators run bottom-up, so the list on the function
    starts with [is_sober]. *)
Definition vote : Handler := handler_of [] (Some [is_sober; is_member]) returns_normally.

(** A bot without checks of its own. *)
Definition plain_bot : Bot :=
  {| _checks := [];
     _check_once := [];
     http_request := fun _ _ => ok tt;
     send := fun _ _ => ok tt |}.
End Membership.

Module Ping.
Import Fixtures.

(** [async def ping(ctx)]. *)
Definition ping : Handler := handler_of [] None returns_normally.

Definition node : SlashCommand :=
  match SlashCommand_init quiet_bot "ping" EmptyString (Some ping) false with
  | inr c => c
  | inl _ => blank_node
  end.

Definition registry : gmap string SlashCommand :=
  registry_of quiet_bot (command_item "ping" ping).

Definition inner : list (string * json) := [("name", JStr "ping")].

(** The top level of an event for [ping] sent by [member]. *)
Definition fields_of (member : json) : list (string * json) :=
  [ ("type", JInt 2);
    ("id", JStr "900");
    ("token", JStr "aW50ZXJhY3Rpb24");
    ("channel_id", JStr "10");
    ("guild_id", JStr "20");
    ("member", member);
    ("data", JDict inner) ].

Definition fields : list (string * json) := fields_of caller.

(** [/ping] as the platform sends it for a command without options: the
    event has no [options] key. *)
Definition event_ : json := JDict fields.

(** The same event once a context has been built from it. *)
Definition event_seen : json := JDict (fields_of caller_seen).

Definition context : CommandsContext :=
  match CommandsContext_init event_ with
  | (inr ctx, _) => ctx
  | (inl _, _) =>
      {| message := Replies.blank_message; _first_reply := true; ephemeral := false |}
  end.

(** [/ping] sent from a direct message: [user] in place of [member], and no
    [guild_id]. *)
Definition from_dm : json :=
  JDict [ ("type", JInt 2);
          ("id", JStr "900");
          ("token", JStr "aW50ZXJhY3Rpb24");
          ("channel_id", JStr "10");
          ("user", JDict [("id", JStr "123"); ("username", JStr "ada")]);
          ("data", JDict [("name", JStr "ping"); ("options", JList [])]) ].

(** A gateway message that carries [d]. *)
Definition gateway (t : string) (d : json) : json :=
  JDict [("op", JInt 0); ("t", JStr t); ("s", JInt 42); ("d", d)].
End Ping.

(** A routing step that, run on [w], raises an [Exception] and leaves a
    direct-message payload and the trace of [w]. *)
Definition refused_in_dm {A : Type} (m : M A) (w : world) : Prop :=
  exists e w',
    m w = (raise e, w')
    /\ isinstance_Exception e = true
    /\ direct_message (payload w')
    /\ trace w' = trace w.

(** The entry of the published list for a parameter whose annotation has
    the type id [n]. *)
Definition option_dict (p : SigParameter) (n : Z) : json :=
  JDict [ ("type", JInt n);
          ("name", JStr (param_name p));
          ("description",
           JStr (if has_no_default p then "Required input" else "Optional input"));
          ("required", JBool (has_no_default p)) ].

(** What [_cmd_to_dict] returns for a command with a handler. *)
Definition leaf_dict (c : SlashCommand) : json :=
  JDict [ ("name", JStr (name c));
          ("description", JStr (description c));
          ("options", JList (map ArgSpec_dict (args c))) ].


(** A group: no handler, and at least one child. *)
Definition is_group (c : SlashCommand) : Prop :=
  handler c = None /\ children c <> [].

Module Toolbox.
Import Fixtures.

Definition ping_item : item := command_item "ping" Ping.ping.

Definition echo_item : item := command_item "echo" UnionIntStr.echo.

(** An attribute that is not a command. *)
Definition helper : item :=
  {| _slash := None; __doc__ := None; _private := false; coroutine := None;
     attributes := [] |}.

(** A cog object with the given attributes, in the order of [__dir__()]. *)
Definition cog_with (members : list (string * item)) : item :=
  {| _slash := None; __doc__ := None; _private := false; coroutine := None;
     attributes := members |}.

(** A cog with one command, listed before a plain attribute. *)
Definition cog : item := cog_with [("ping", ping_item); ("settings", helper)].

(** A cog whose second command has a signature that is refused. *)
Definition broken_cog : item := cog_with [("ping", ping_item); ("echo", echo_item)].

(** A cog that exposes the same command under two attribute names. *)
Definition aliased_cog : item := cog_with [("ping", ping_item); ("pong", ping_item)].

(** A cog class that is itself a command: it is registered under its tag
    and known to the bot under its class name. *)
Definition command_cog : item :=
  {| _slash := Some "ping"; __doc__ := None; _private := false;
     coroutine := Some Ping.ping; attributes := [] |}.
End Toolbox.

Module Anonymous.
Import Fixtures.

(** An event that names guild 20 but says nothing about who sent it. *)
Definition fields : list (string * json) :=
  [ ("type", JInt 2);
    ("id", JStr "900");
    ("token", JStr "aW50ZXJhY3Rpb24");
    ("channel_id", JStr "10");
    ("guild_id", JStr "20");
    ("data", JDict [("name", JStr "ping"); ("options", JList [])]) ].

Definition event_ : json := JDict fields.
End Anonymous.

(** ** Dictionaries and numbers *)

Section AssocFacts.
Context {A : Type}.
Implicit Types (d : list (string * A)) (k : string).

Lemma assoc_get_set_eq k (v : A) d : assoc_get k (assoc_set k v d) = Some v.
Proof.
  induction d as [|[k' v'] d IH]; simpl.
  - now rewrite String.eqb_refl.
  - destruct (String.eqb k k') eqn:E; simpl; rewrite ?String.eqb_refl, ?E; auto.
Qed.

Lemma assoc_get_set_ne k k' (v : A) d :
  k <> k' -> assoc_get k' (assoc_set k v d) = assoc_get k' d.
Proof.
  intros Hne. induction d as [|[k0 v0] d IH]; simpl.
  - destruct (String.eqb k' k) eqn:E; auto.
    apply String.eqb_eq in E. congruence.
  - destruct (String.eqb k k0) eqn:E; simpl.
    + apply String.eqb_eq in E. subst k0.
      destruct (String.eqb k' k) eqn:E'; auto.
      apply String.eqb_eq in E'. congruence.
    + destruct (String.eqb k' k0); auto.
Qed.

Lemma assoc_set_nonempty k (v : A) d : assoc_set k v d <> [].
Proof. destruct d as [|[k' v'] d]; simpl; [|destruct (String.eqb k k')]; discriminate. Qed.
End AssocFacts.

Example parse_int_42 : py_int (JStr "42") = ok 42%Z.
Proof. reflexivity. Qed.

Example parse_int_abc :
  py_int (JStr "abc") = raise (ValueError "invalid literal for int() with base 10").
Proof. reflexivity. Qed.

Example parse_int_neg : py_int (JStr " -7 ") = ok (-7)%Z.
Proof. reflexivity. Qed.

(** ** Union annotations *)

Lemma union_loop_no_converter recurse args st :
  (exists e, recurse tt = inl e) ->
  u_converters st = [] ->
  match union_loop recurse args st with
  | inl _ => True
  | inr st' => u_converters st' = []
  end.
Proof.
  intros [e He]. revert st.
  induction args as [|arg rest IH]; intros st Hst; simpl.
  - exact Hst.
  - destruct (isinstance_NoneType arg).
    + apply IH. exact Hst.
    + destruct (is_T_Object arg).
      * apply IH. exact Hst.
      * rewrite He. simpl. exact I.
Qed.

(** Whatever its arguments, a [typing.Union] annotation is refused: the
    loop either recurses on the bare form, which has no converter, or
    collects nothing. *)
Lemma union_annotation_raises args :
  exists e, _get_converter_function (Union_ args) = inl e.
Proof.
  unfold Union_. simpl.
  pose proof (union_loop_no_converter
                (fun _ => _get_converter_function Typing_Union) args
                {| u_required := true; u_discord_obj_fallback := false;
                   u_arg_type := []; u_converters := [] |}) as H.
  destruct (union_loop _ args _) as [e|st] eqn:E.
  - exists e. reflexivity.
  - simpl. unfold union_finish.
    rewrite H; [eexists; reflexivity | | reflexivity].
    eexists. reflexivity.
Qed.

(** C5, where the code departs from the claim: for a parameter declared [Union[int, str]] the claim
    promises a converter that sends "42" to 42 and "abc" to "abc".  The
    code builds no converter: [_get_converter_function] recurses on the
    origin [typing.Union] instead of the branch type and raises
    [TypeError], so the command is never constructed nor registered. *)
Theorem C5_union_int_str_is_refused :
  _get_converter_function (Union_ [T_int; T_str])
    = raise (TypeError "The argument type is not discord.ext.commands compatible.")
  /\ _create_command Fixtures.quiet_bot "echo"
       (Fixtures.command_item "echo" UnionIntStr.echo) 0
     = raise (TypeError "The argument type is not discord.ext.commands compatible.")
  /\ load_command Fixtures.quiet_bot ∅ (Fixtures.command_item "echo" UnionIntStr.echo)
     = (raise (TypeError "The argument type is not discord.ext.commands compatible."), ∅).
Proof. repeat split; reflexivity. Qed.

(** ** Optional parameters *)

(** C6, where the code departs from the claim: a parameter that is not required, whose option the
    payload leaves out, should reach the handler as its default.  When the
    entry is missing from the options list, [params[index]] raises
    [IndexError]: the handler is not invoked and the error is reported.
    (An entry that is there without a value does yield the default.)
    Both events are sent from a guild by a member, so that a context can be
    built from them. *)
Theorem C6_omitted_option_raises_IndexError :
  let w := snd (_process_interaction OptionalGreeting.registry
                  (Fixtures.fresh OptionalGreeting.omitted)) in
  let w' := snd (_process_interaction OptionalGreeting.registry
                   (Fixtures.fresh OptionalGreeting.valueless)) in
  Fixtures.view Fixtures.invoked w = []
  /\ Fixtures.view Fixtures.dispatched w
     = [("command_error", IndexError "list index out of range")]
  /\ Fixtures.view Fixtures.invoked w' = [("greet", [VJson (JStr "hello")])]
  /\ getitem OptionalGreeting.omitted "member" = ok Fixtures.caller
  /\ getitem OptionalGreeting.valueless "member" = ok Fixtures.caller.
Proof. repeat split; vm_compute; reflexivity. Qed.

(** ** Checks *)

(** The order in which [_get_checks] collects: global checks, check-once
    checks, then the handler's own list reversed. *)
Lemma collect_checks_order bot h x :
  __commands_checks__ h = Some x ->
  collect_checks bot (Some h) = _checks bot ++ _check_once bot ++ rev x.
Proof. intros H. unfold collect_checks. now rewrite H. Qed.

(** When every collected check is a coroutine function, [self.checks] is
    that list as collected. *)
Lemma _get_checks_async bot h :
  Forall (fun c => iscoroutinefunction c = true) (collect_checks bot h) ->
  _get_checks bot h = map AsyncCheck (collect_checks bot h).
Proof.
  unfold _get_checks. generalize (collect_checks bot h). intros checks Hall.
  destruct (last checks) as [c_final|] eqn:Hlast.
  - induction Hall as [|c rest Hc _ IH]; [reflexivity|]. simpl. rewrite Hc.
    f_equal. clear -IH Hlast.
    destruct rest as [|c' rest']; [reflexivity|].
    apply IH. simpl in Hlast. exact Hlast.
  - destruct checks as [|c rest]; [reflexivity|].
    exfalso. clear -Hlast. revert c Hlast.
    induction rest as [|c' rest IH]; intros c Hlast; [discriminate|].
    simpl in Hlast. eapply IH. exact Hlast.
Qed.

(** C7, where the code departs from the claim: the first check that returns a falsy value should stop
    the execution with [CheckFailure].  Every [wrapper] that replaces a
    sync check calls the last check of the list instead of its own: with
    the global sync check [deny] and the handler's sync check [allow], the
    code runs [allow] twice, never runs [deny], raises nothing and invokes
    the handler.  The event is sent from a guild by a member. *)
Theorem C7_sync_checks_all_run_the_last_one :
  let w := snd (_process_interaction GuardedCommand.registry
                  (Fixtures.fresh GuardedCommand.event_)) in
  collect_checks GuardedCommand.guarded_bot (Some GuardedCommand.secret)
    = [GuardedCommand.deny; GuardedCommand.allow]
  /\ Fixtures.view Fixtures.checked w = ["allow"; "allow"]
  /\ Fixtures.view Fixtures.dispatched w = []
  /\ Fixtures.view Fixtures.invoked w = [("secret", [])]
  /\ getitem GuardedCommand.event_ "member" = ok Fixtures.caller.
Proof. repeat split; vm_compute; reflexivity. Qed.

(** ** Argument conversion *)

(** C8, where the code departs from the claim: each option should go through the converter of the
    parameter at its own position.  Every [conversion_entrypoint] reads the
    variables of the last loop iteration: for
    [tag(ctx, target: discord.Object, note: str)] the published argument
    types are 9 and 3, yet [target] is converted as [note] would be and
    reaches the handler as the raw string, not as a [discord.Object].  The
    event is sent from a guild by a member. *)
Theorem C8_every_position_uses_the_last_converter :
  let w := snd (_process_interaction TwoParameters.registry
                  (Fixtures.fresh TwoParameters.event_)) in
  TwoParameters.published_types = [TypeId 9; TypeId 3]
  /\ Fixtures.view Fixtures.invoked w
     = [("tag", [VJson (JStr "5"); VJson (JStr "hi")])]
  /\ fst (_mentionable_converter (JStr "5") TwoParameters.event_) = ok (VObject 5)
  /\ getitem TwoParameters.event_ "member" = ok Fixtures.caller.
Proof. repeat split; vm_compute; reflexivity. Qed.

(** ** The registry *)

(** C9 (counterexample): unloading a name that is not registered raises
    [KeyError]; it does not fail silently. *)
Lemma C9_unload_absent_raises :
  (∅ : gmap string SlashCommand) !! "ping" = None
  /\ fst (unload_command ∅ "ping") = raise (KeyError "ping")
  /\ snd (unload_command ∅ "ping") = ∅.
Proof. repeat split. Qed.

(** C9 (amended): unloading a registered name removes it and leaves every
    other entry as it was; unloading a name that is absent raises
    [KeyError] and leaves the registry unchanged. *)
Theorem C9_unload_command (commands : gmap string SlashCommand) (name : string) :
  (is_Some (commands !! name) ->
     fst (unload_command commands name) = ok tt
     /\ snd (unload_command commands name) !! name = None
     /\ forall other, other <> name ->
          snd (unload_command commands name) !! other = commands !! other)
  /\ (commands !! name = None ->
        unload_command commands name = (raise (KeyError name), commands)).
Proof.
  unfold unload_command. split.
  - intros [c Hc]. rewrite Hc. simpl. repeat split.
    + apply lookup_delete_eq.
    + intros other Hne. apply lookup_delete_ne. congruence.
  - intros Hnone. now rewrite Hnone.
Qed.

Lemma C9_unload_command_witness :
  (is_Some (Shutdown.registry !! "stop")
   /\ fst (unload_command Shutdown.registry "stop") = ok tt
   /\ snd (unload_command Shutdown.registry "stop") !! "stop" = None)
  /\ ((∅ : gmap string SlashCommand) !! "ping" = None
      /\ unload_command ∅ "ping" = (raise (KeyError "ping"), ∅)).
Proof.
  destruct (C9_unload_command Shutdown.registry "stop") as [Hpresent _].
  destruct (C9_unload_command ∅ "ping") as [_ Habsent].
  assert (Hsome : is_Some (Shutdown.registry !! "stop")).
  { vm_compute. eexists. reflexivity. }
  destruct (Hpresent Hsome) as (Hok & Hgone & _).
  split.
  - split; [exact Hsome | split; [exact Hok | exact Hgone]].
  - split; [reflexivity | apply Habsent; reflexivity].
Defined.

(** ** The reply channel *)







(** ** What the tree walk writes to the trace *)

Section Quiet.
Context {A B : Type}.

Lemma quiet_ret (a : A) : appends_no_dispatch (ret a : M A).
Proof. intros w. exists []. simpl. now rewrite app_nil_r. Qed.

Lemma quiet_throw (e : exn) : appends_no_dispatch (throw e : M A).
Proof. intros w. exists []. simpl. now rewrite app_nil_r. Qed.

Lemma quiet_lift (r : result A) : appends_no_dispatch (lift r : M A).
Proof. intros w. exists []. simpl. now rewrite app_nil_r. Qed.

Lemma quiet_lift_app (f : P A) : appends_no_dispatch (lift_app f).
Proof.
  intros w. exists []. unfold lift_app. destruct (f (payload w)). simpl.
  now rewrite app_nil_r.
Qed.

Lemma quiet_bind (m : M A) (k : A -> M B) :
  appends_no_dispatch m -> (forall a, appends_no_dispatch (k a)) ->
  appends_no_dispatch (bind m k).
Proof.
  intros Hm Hk w. unfold bind.
  destruct (Hm w) as (evs & Ht & Hq).
  destruct (m w) as [[e|a] w1] eqn:E; simpl in *.
  - exists evs. auto.
  - destruct (Hk a w1) as (evs' & Ht' & Hq').
    exists (evs ++ evs'). rewrite Ht', Ht, <- app_assoc. split; [reflexivity|].
    rewrite List.filter_app, Hq, Hq'. reflexivity.
Qed.
End Quiet.

Lemma quiet_log (ev : event) : is_dispatch ev = false -> appends_no_dispatch (log ev).
Proof. intros H w. exists [ev]. simpl. now rewrite H. Qed.

Lemma quiet_get_payload : appends_no_dispatch get_payload.
Proof. apply quiet_lift_app. Qed.

Ltac quiet :=
  repeat first
    [ apply quiet_ret | apply quiet_throw | apply quiet_lift | apply quiet_lift_app
    | apply quiet_get_payload | apply quiet_log; reflexivity
    | apply quiet_bind; [|intros ?]
    | match goal with
      | |- appends_no_dispatch (if ?b then _ else _) => destruct b
      | |- appends_no_dispatch (match ?x with _ => _ end) => destruct x
      end ].

Lemma quiet_set_options v : appends_no_dispatch (set_options v).
Proof. unfold set_options. quiet. Qed.

Lemma quiet_await_check check ctx : appends_no_dispatch (await_check check ctx).
Proof. unfold await_check, run_check_body. quiet. Qed.

Lemma quiet_run_checks name checks ctx : appends_no_dispatch (run_checks name checks ctx).
Proof.
  induction checks as [|check rest IH]; simpl.
  - apply quiet_ret.
  - apply quiet_bind; [apply quiet_await_check|]. intros verdict.
    destruct (negb (value_truthy verdict)); [apply quiet_throw | exact IH].
Qed.

Lemma quiet_convert_args processors params index args :
  appends_no_dispatch (convert_args processors params index args).
Proof.
  revert index args. induction processors as [|arg rest IH]; intros index args; simpl.
  - apply quiet_ret.
  - quiet. apply IH.
Qed.

Lemma with_child_assoc {B : Type} k (found : SlashCommand -> B) missing kids :
  with_child k found missing kids
  = match assoc_get k kids with
    | Some child => found child
    | None => missing
    end.
Proof.
  induction kids as [|[k' child] rest IH]; simpl; [reflexivity|].
  destruct (String.eqb k k'); [reflexivity | exact IH].
Qed.

(** Induction on command trees: the property holds at a node when it
    holds at every child. *)
Lemma SlashCommand_tree_ind (Q : SlashCommand -> Prop) :
  (forall c, Forall (fun kc => Q (snd kc)) (children c) -> Q c) ->
  forall c, Q c.
Proof.
  intros step.
  fix IH 1. intros [n d h a ps pr kids cks].
  apply step. simpl.
  induction kids as [|[k child] rest IHkids]; constructor; [apply IH | exact IHkids].
Qed.

Lemma quiet_execute self : appends_no_dispatch (execute self).
Proof.
  induction self as [[n d h a ps pr kids cks] IHkids] using SlashCommand_tree_ind.
  simpl in IHkids. simpl.
  destruct h as [h|].
  - quiet; try apply quiet_run_checks; try apply quiet_convert_args.
  - quiet. rewrite with_child_assoc.
    destruct (assoc_get _ kids) as [child|] eqn:Hchild; [|apply quiet_throw].
    apply quiet_bind; [apply quiet_lift|]. intros nested.
    apply quiet_bind; [apply quiet_set_options|]. intros _.
    clear -Hchild IHkids.
    induction kids as [|[k' c] rest IH]; simpl in Hchild; [discriminate|].
    inversion IHkids; subst.
    destruct (String.eqb _ k'); [inversion Hchild; subst; assumption | auto].
Qed.

(** ** The router *)

Lemma quiet_resolve_and_execute commands command_name :
  appends_no_dispatch (resolve_and_execute commands command_name).
Proof.
  unfold resolve_and_execute, lookup_root.
  apply quiet_bind; [|intros cmd; apply quiet_execute].
  quiet.
Qed.

Lemma dispatch_count_app w evs :
  dispatch_count {| payload := payload w; trace := trace w ++ evs |}
  = dispatch_count w + length (List.filter is_dispatch evs).
Proof. unfold dispatch_count. simpl. now rewrite List.filter_app, length_app. Qed.

Lemma bind_get_payload {B : Type} (k : json -> M B) w :
  bind get_payload k w = k (payload w) w.
Proof. unfold bind, get_payload, lift_app, get. now destruct w. Qed.

Lemma bind_lift_ok {A B : Type} (r : result A) (a : A) (k : A -> M B) (w : world) :
  r = ok a -> bind (lift r) k w = k a w.
Proof. intros ->. reflexivity. Qed.

Lemma bind_lift_raise {A B : Type} (r : result A) (e : exn) (k : A -> M B) (w : world) :
  r = raise e -> bind (lift r) k w = (raise e, w).
Proof. intros ->. reflexivity. Qed.

(** The router once the event is known to be an application command that
    names [command_name]. *)
Lemma _process_interaction_application_command commands w ty inner command_name :
  getitem (payload w) "type" = ok ty ->
  py_eq ty (JInt 2) = true ->
  getitem (payload w) "data" = ok inner ->
  getitem inner "name" = ok command_name ->
  _process_interaction commands w
  = try_except (resolve_and_execute commands command_name) isinstance_Exception
      report_error w.
Proof.
  intros Hty H2 Hinner Hname.
  unfold _process_interaction. rewrite bind_get_payload.
  rewrite (bind_lift_ok _ _ _ _ Hty), H2.
  rewrite (bind_lift_ok _ _ _ _ Hinner), (bind_lift_ok _ _ _ _ Hname).
  reflexivity.
Qed.

Lemma run_lift_app {A : Type} (f : P A) (w : world) (r : result A) (p : json) :
  f (payload w) = (r, p) ->
  lift_app f w = (r, {| payload := p; trace := trace w |}).
Proof. unfold lift_app. now intros ->. Qed.

Lemma bind_lift_app_ok {A B : Type} (f : P A) (k : A -> M B) (w : world) (a : A) (p : json) :
  f (payload w) = (ok a, p) ->
  bind (lift_app f) k w = k a {| payload := p; trace := trace w |}.
Proof. intros H. unfold bind. now rewrite (run_lift_app f w _ _ H). Qed.

Lemma bind_lift_app_raise {A B : Type} (f : P A) (k : A -> M B) (w : world) (e : exn)
    (p : json) :
  f (payload w) = (raise e, p) ->
  bind (lift_app f) k w = (raise e, {| payload := p; trace := trace w |}).
Proof. intros H. unfold bind. now rewrite (run_lift_app f w _ _ H). Qed.






(** ** The tree walk and the payload *)

Lemma json_size_pos j : 0 < json_size j.
Proof. destruct j; simpl; lia. Qed.






(** ** Construction of command trees *)

(** Induction on items: the property holds of an object when it holds of
    each of its attributes. *)
Lemma item_tree_ind (Q : item -> Prop) :
  (forall it, Forall (fun ka => Q (snd ka)) (attributes it) -> Q it) ->
  forall it, Q it.
Proof.
  intros step.
  fix IH 1. intros [s d p h attrs].
  apply step. simpl.
  induction attrs as [|[k a] rest IHattrs]; constructor; [apply IH | exact IHattrs].
Qed.

Lemma height_children c :
  height c
  = fold_right (fun kc acc => Nat.max (S (height (snd kc))) acc) 0 (children c).
Proof.
  destruct c as [n d h a ps pr kids cks]. simpl.
  induction kids as [|[k child] rest IH]; simpl; [reflexivity | now rewrite IH].
Qed.

Lemma height_le c m :
  Forall (fun kc => height (snd kc) <= m) (children c) -> height c <= S m.
Proof.
  rewrite height_children. induction 1 as [|kc rest Hkc _ IH]; simpl; lia.
Qed.

Lemma height_leaf c : children c = [] -> height c = 0.
Proof. intros H. rewrite height_children, H. reflexivity. Qed.

Lemma nodes_at_children d c :
  nodes_at d c = (d, c) :: flat_map (fun kc => nodes_at (S d) (snd kc)) (children c).
Proof.
  destruct c as [n de h a ps pr kids cks]. simpl. f_equal.
  induction kids as [|[k child] rest IH]; simpl; [reflexivity | now rewrite IH].
Qed.

Lemma nodes_children c :
  nodes c = c :: flat_map (fun kc => nodes (snd kc)) (children c).
Proof.
  destruct c as [n de h a ps pr kids cks]. simpl. f_equal.
  induction kids as [|[k child] rest IH]; simpl; [reflexivity | now rewrite IH].
Qed.

(** No node lies deeper than the height of the tree. *)
Lemma nodes_at_within_height c :
  forall d, Forall (fun dn => fst dn <= d + height c) (nodes_at d c).
Proof.
  induction c as [c IH] using SlashCommand_tree_ind. intros d.
  rewrite nodes_at_children. constructor; [simpl; lia|].
  rewrite height_children.
  induction IH as [|kc rest Hkc _ IHrest]; simpl; [constructor|].
  apply Forall_app. split.
  - eapply Forall_impl; [apply (Hkc (S d))|]. simpl. intros dn Hdn. lia.
  - eapply Forall_impl; [apply IHrest|]. simpl. intros dn Hdn. lia.
Qed.

Section AssocForall.
Context {A : Type} (Q : A -> Prop).

Lemma Forall_assoc_set k (v : A) d :
  Q v -> Forall (fun kv => Q (snd kv)) d ->
  Forall (fun kv => Q (snd kv)) (assoc_set k v d).
Proof.
  intros Hv. induction 1 as [|[k' v'] rest Hkv Hrest IH]; simpl.
  - constructor; [exact Hv | constructor].
  - destruct (String.eqb k k'); constructor; simpl in *; auto.
Qed.
End AssocForall.

Lemma SlashCommand_init_ok bot n d h p c :
  SlashCommand_init bot n d h p = ok c ->
  children c = [] /\ has_handler c = match h with Some _ => true | None => false end.
Proof.
  unfold SlashCommand_init. destruct h as [h|]; simpl.
  - destruct (_process_args h) as [e|[ps a]]; simpl; [discriminate|].
    intros H. inversion H; subst. split; reflexivity.
  - intros H. inversion H; subst. split; reflexivity.
Qed.

Lemma SlashCommand_init_group bot n d p :
  exists c, SlashCommand_init bot n d None p = ok c.
Proof. eexists. reflexivity. Qed.

Lemma _add_child_ok self child c' :
  _add_child self child = ok c' ->
  has_handler self = false
  /\ has_handler c' = false
  /\ children c' = assoc_set (name child) child (children self).
Proof.
  unfold _add_child, has_handler. destruct (handler self) eqn:E; [discriminate|].
  intros H. inversion H; subst. simpl. repeat split.
Qed.

Lemma _add_child_refused self child :
  has_handler self = true ->
  _add_child self child = raise (RecursionError "Async command cannot have children.").
Proof. unfold _add_child, has_handler. destruct (handler self); [reflexivity | discriminate]. Qed.

(** The scan keeps a group a group, gives it only children that [create]
    returned, and gives it one for every tagged attribute. *)
Lemma scan_attrs_ok (Q : SlashCommand -> Prop) create keys :
  Forall (fun ka => forall n c, create n (snd ka) = ok c -> Q c) keys ->
  forall command c',
    scan_attrs create keys command = ok c' ->
    has_handler command = false ->
    Forall (fun kc => Q (snd kc)) (children command) ->
    has_handler c' = false
    /\ Forall (fun kc => Q (snd kc)) (children c')
    /\ (children command <> [] -> children c' <> []).
Proof.
  induction 1 as [|[k attr] rest Hattr _ IH]; intros command c' Hscan Hh Hkids; simpl in *.
  - inversion Hscan; subst. auto.
  - destruct (attr_truthy (_slash attr)) as [command_name|].
    + destruct (create command_name attr) as [e|sub] eqn:Hsub; simpl in Hscan; [discriminate|].
      destruct (_add_child command sub) as [e|command1] eqn:Hadd; simpl in Hscan;
        [discriminate|].
      apply _add_child_ok in Hadd. destruct Hadd as (_ & Hh1 & Hk1).
      destruct (IH command1 c' Hscan Hh1) as (H1 & H2 & H3).
      { rewrite Hk1. apply Forall_assoc_set; eauto. }
      repeat split; auto. intros _. apply H3. rewrite Hk1. apply assoc_set_nonempty.
    + eauto.
Qed.

(** The scan fails as soon as the construction of one tagged attribute
    fails. *)
Lemma scan_attrs_fails create keys :
  Exists (fun ka => exists n e, attr_truthy (_slash (snd ka)) = Some n
                                /\ create n (snd ka) = raise e) keys ->
  forall command, exists e, scan_attrs create keys command = raise e.
Proof.
  induction 1 as [[k attr] rest (n & e & Htag & Hfail)|[k attr] rest _ IH];
    intros command; simpl in *.
  - rewrite Htag, Hfail. simpl. eauto.
  - destruct (attr_truthy (_slash attr)) as [command_name|]; [|apply IH].
    destruct (create command_name attr) as [e|sub]; simpl; [eauto|].
    destruct (_add_child command sub) as [e|command1]; simpl; [eauto | apply IH].
Qed.

Lemma _create_command_eq bot name s doc pr h attrs nested :
  _create_command bot name (mkItem s doc pr h attrs) nested
  = try! handler :=
      match h with
      | Some h' => ok (Some h')
      | None =>
          if (1 <? nested)%nat
          then raise (RecursionError "Command is nested too deep.")
          else ok None
      end in
    try! command :=
      SlashCommand_init bot name
        match attr_truthy doc with
        | Some d => d
        | None => EmptyString
        end handler pr in
    match h with
    | Some _ => ok command
    | None =>
        try! command :=
          scan_attrs (fun command_name attr => _create_command bot command_name attr (S nested))
            attrs command in
        if (length (children command) =? 0)%nat
        then raise (TypeError "A sub-command class requires children.")
        else ok command
    end.
Proof. reflexivity. Qed.

Lemma nesting_attributes it :
  nesting it
  = match coroutine it with
    | Some _ => 0
    | None =>
        fold_right
          (fun ka acc =>
             match attr_truthy (_slash (snd ka)) with
             | Some _ => Nat.max (S (nesting (snd ka))) acc
             | None => acc
             end) 0 (attributes it)
    end.
Proof.
  destruct it as [s doc pr h attrs]. simpl. destruct h; [reflexivity|].
  induction attrs as [|[k a] rest IH]; simpl; [reflexivity|].
  now rewrite IH.
Qed.

(** What a successful construction returns: a tree that fits in the levels
    left below [nested], every node of which has a handler or children and
    not both. *)
Lemma _create_command_shape bot it :
  forall name nested c,
    _create_command bot name it nested = ok c ->
    height c <= 2 - nested /\ Forall handler_xor_children (nodes c).
Proof.
  induction it as [[s doc pr h attrs] IH] using item_tree_ind.
  simpl in IH. intros name nested c. rewrite _create_command_eq.
  destruct h as [h|]; cbn [rbind raise ok].
  - destruct (SlashCommand_init bot name _ (Some h) pr) as [e|c0] eqn:Hinit;
      cbn [rbind raise ok]; [discriminate|].
    intros Hc. inversion Hc; subst c0. apply SlashCommand_init_ok in Hinit.
    destruct Hinit as [Hkids Hh]. split.
    + rewrite (height_leaf c Hkids). lia.
    + rewrite nodes_children, Hkids. simpl. constructor; [|constructor].
      unfold handler_xor_children, has_children. now rewrite Hh, Hkids.
  - destruct (1 <? nested)%nat eqn:Hdeep; cbn [rbind raise ok]; [discriminate|].
    apply Nat.ltb_ge in Hdeep.
    destruct (SlashCommand_init bot name _ None pr) as [e|c0] eqn:Hinit;
      cbn [rbind raise ok]; [discriminate|].
    apply SlashCommand_init_ok in Hinit. destruct Hinit as [Hkids0 Hh0].
    destruct (scan_attrs _ attrs c0) as [e|c1] eqn:Hscan; cbn [rbind raise ok];
      [discriminate|].
    destruct (length (children c1) =? 0)%nat eqn:Hlen; [discriminate|].
    intros Hc. inversion Hc; subst c1. clear Hc.
    assert (Hh : has_handler c = false
                 /\ Forall (fun kc => height (snd kc) <= 2 - S nested
                                      /\ Forall handler_xor_children (nodes (snd kc)))
                      (children c)
                 /\ (children c0 <> [] -> children c <> [])).
    { eapply (scan_attrs_ok
                (fun sub => height sub <= 2 - S nested
                            /\ Forall handler_xor_children (nodes sub)));
        [|exact Hscan|exact Hh0|rewrite Hkids0; constructor].
      eapply Forall_impl; [exact IH|]. simpl. intros ka Hka n sub Hsub.
      exact (Hka n (S nested) sub Hsub). }
    destruct Hh as (Hh & Hsubs & _).
    split.
    + assert (height c <= S (2 - S nested)); [|lia].
      apply height_le. eapply Forall_impl; [exact Hsubs|]. simpl. tauto.
    + rewrite nodes_children. constructor.
      * unfold handler_xor_children, has_children. rewrite Hh.
        destruct (children c); [discriminate | reflexivity].
      * clear -Hsubs. induction Hsubs as [|kc rest [_ Hkc] _ IHrest]; simpl;
          [constructor | apply Forall_app; split; assumption].
Qed.

(** A construction that would need more than two levels below the root
    fails. *)
Lemma _create_command_too_deep bot it :
  forall name nested,
    nested <= 2 -> 2 < nested + nesting it ->
    exists e, _create_command bot name it nested = raise e.
Proof.
  induction it as [[s doc pr h attrs] IH] using item_tree_ind.
  simpl in IH. intros name nested Hle Hdeep.
  rewrite nesting_attributes in Hdeep. simpl in Hdeep.
  rewrite _create_command_eq.
  destruct h as [h|]; [lia|]. cbn [rbind raise ok].
  destruct (1 <? nested)%nat eqn:Hlt; cbn [rbind raise ok]; [eauto|].
  apply Nat.ltb_ge in Hlt.
  destruct (SlashCommand_init_group bot name
              match attr_truthy doc with Some d => d | None => EmptyString end pr)
    as [c0 Hinit].
  rewrite Hinit. cbn [rbind raise ok].
  assert (Hfails : exists e,
             scan_attrs
               (fun command_name attr => _create_command bot command_name attr (S nested))
               attrs c0 = raise e).
  { apply scan_attrs_fails.
    clear -IH Hdeep Hlt.
    induction IH as [|[k a] rest Ha _ IHrest]; simpl in *; [lia|].
    destruct (attr_truthy (_slash a)) as [n|] eqn:Htag.
    + destruct (Nat.le_gt_cases (S (nesting a)) (2 - nested)) as [Hsmall|Hbig].
      * right. apply IHrest. lia.
      * left. simpl. destruct (Ha n (S nested)) as [e He]; [lia | lia |].
        exists n, e. auto.
    + right. apply IHrest. exact Hdeep. }
  destruct Hfails as [e He]. rewrite He. cbn [rbind raise ok]. eauto.
Qed.

Lemma load_command_keeps (Q : SlashCommand -> Prop) bot commands it :
  (forall name c, _create_command bot name it 0 = ok c -> Q c) ->
  map_Forall (fun _ c => Q c) commands ->
  map_Forall (fun _ c => Q c) (snd (load_command bot commands it)).
Proof.
  intros Hnew Hold. unfold load_command.
  destruct (_slash it) as [key|]; [|exact Hold].
  destruct (_create_command bot key it 0) as [e|c] eqn:Hc; [exact Hold|].
  simpl. apply map_Forall_insert_2; [|exact Hold]. eapply Hnew. exact Hc.
Qed.

Lemma load_command_failed bot commands it :
  (forall name, exists e, _create_command bot name it 0 = raise e) ->
  snd (load_command bot commands it) = commands.
Proof.
  intros Hfail. unfold load_command.
  destruct (_slash it) as [key|]; [|reflexivity].
  destruct (Hfail key) as [e He]. now rewrite He.
Qed.

Lemma depth_within_two c :
  height c <= 2 -> Forall (fun dn => fst dn <= 2) (nodes_at 0 c).
Proof.
  intros H. eapply Forall_impl; [apply (nodes_at_within_height c 0)|].
  simpl. intros dn Hdn. lia.
Qed.

(** C3: every tree that a registration builds has its nodes, the
    handler-bearing ones among them, at most two levels below the root; an
    item that would need a third level makes the construction raise, and
    the registry is left as it was; so no registry reached by loading holds
    a deeper tree. *)
Theorem C3_nesting_depth_is_bounded (bot : Bot) (commands : gmap string SlashCommand)
    (it : item) :
  (forall name c,
     _create_command bot name it 0 = ok c ->
     Forall (fun dn => has_handler (snd dn) = true -> fst dn <= 2) (nodes_at 0 c))
  /\ (2 < nesting it ->
        (forall name, exists e, _create_command bot name it 0 = raise e)
        /\ snd (load_command bot commands it) = commands)
  /\ (map_Forall (fun _ c => Forall (fun dn => fst dn <= 2) (nodes_at 0 c)) commands ->
        map_Forall (fun _ c => Forall (fun dn => fst dn <= 2) (nodes_at 0 c))
          (snd (load_command bot commands it))).
Proof.
  split; [|split].
  - intros name c Hc. apply _create_command_shape in Hc. destruct Hc as [Hheight _].
    eapply Forall_impl; [apply depth_within_two; lia|]. auto.
  - intros Hdeep.
    assert (Hfail : forall name, exists e, _create_command bot name it 0 = raise e).
    { intros name. apply _create_command_too_deep; lia. }
    split; [exact Hfail | apply load_command_failed; exact Hfail].
  - apply (load_command_keeps (fun c => Forall (fun dn => fst dn <= 2) (nodes_at 0 c))).
    intros name c Hc. apply _create_command_shape in Hc. destruct Hc as [Hheight _].
    apply depth_within_two. lia.
Qed.

Lemma C3_nesting_depth_is_bounded_witness :
  2 < nesting Nested.top
  /\ _create_command Fixtures.quiet_bot "top" Nested.top 0
     = raise (RecursionError "Command is nested too deep.")
  /\ snd (load_command Fixtures.quiet_bot ∅ Nested.top) = ∅
  /\ exists c,
       _create_command Fixtures.quiet_bot "outer" Nested.outer 0 = ok c
       /\ Forall (fun dn => has_handler (snd dn) = true -> fst dn <= 2) (nodes_at 0 c).
Proof.
  assert (Hdeep : 2 < nesting Nested.top) by (vm_compute; lia).
  destruct (C3_nesting_depth_is_bounded Fixtures.quiet_bot ∅ Nested.top)
    as (_ & Hfails & _).
  destruct (C3_nesting_depth_is_bounded Fixtures.quiet_bot ∅ Nested.outer)
    as (Hbound & _ & _).
  destruct (Hfails Hdeep) as [_ Hsame].
  split; [exact Hdeep|]. split; [reflexivity|]. split; [exact Hsame|].
  destruct (_create_command Fixtures.quiet_bot "outer" Nested.outer 0) as [e|c] eqn:Hc;
    [vm_compute in Hc; discriminate|].
  exists c. split; [reflexivity | apply (Hbound "outer" c); exact Hc].
Defined.

(** C4: every node of a tree that a construction returns has a handler or
    at least one child, and not both.  Adding a child yields a node without
    handler that has children; it is refused on a node that has a handler.
    Loading keeps the invariant over the registry. *)
Theorem C4_handler_xor_children (bot : Bot) :
  (forall name it nested c,
     _create_command bot name it nested = ok c ->
     Forall handler_xor_children (nodes c))
  /\ (forall self child c',
        _add_child self child = ok c' ->
        has_handler self = false /\ has_handler c' = false /\ has_children c' = true)
  /\ (forall self child,
        has_handler self = true ->
        _add_child self child
        = raise (RecursionError "Async command cannot have children."))
  /\ (forall commands it,
        map_Forall (fun _ c => Forall handler_xor_children (nodes c)) commands ->
        map_Forall (fun _ c => Forall handler_xor_children (nodes c))
          (snd (load_command bot commands it))).
Proof.
  split; [|split; [|split]].
  - intros name it nested c Hc. apply _create_command_shape in Hc. tauto.
  - intros self child c' Hadd. apply _add_child_ok in Hadd.
    destruct Hadd as (Hself & Hh & Hkids). repeat split; try assumption.
    unfold has_children. rewrite Hkids.
    destruct (assoc_set _ _ _) eqn:E; [|reflexivity].
    now apply assoc_set_nonempty in E.
  - intros self child. apply _add_child_refused.
  - intros commands it.
    apply (load_command_keeps (fun c => Forall handler_xor_children (nodes c))).
    intros name c Hc. apply _create_command_shape in Hc. tauto.
Qed.

Lemma C4_handler_xor_children_witness :
  _create_command Fixtures.quiet_bot "greet" Greet.greet 0 = ok Greet.root_node
  /\ Forall handler_xor_children (nodes Greet.root_node)
  /\ map has_handler (nodes Greet.root_node) = [false; true]
  /\ map has_children (nodes Greet.root_node) = [true; false].
Proof.
  assert (Hc : _create_command Fixtures.quiet_bot "greet" Greet.greet 0
               = ok Greet.root_node) by (vm_compute; reflexivity).
  destruct (C4_handler_xor_children Fixtures.quiet_bot) as (Hcreate & _).
  split; [exact Hc|]. split; [exact (Hcreate _ _ _ _ Hc)|].
  split; vm_compute; reflexivity.
Defined.

(** * Further properties *)

(** ** Running payload code *)

Lemma run_bind_ok {S A B : Type} (m : SE S A) (k : A -> SE S B) (s s' : S) (a : A) :
  m s = (ok a, s') -> bind m k s = k a s'.
Proof. unfold bind. now intros ->. Qed.

Lemma run_bind_raise {S A B : Type} (m : SE S A) (k : A -> SE S B) (s s' : S) (e : exn) :
  m s = (raise e, s') -> bind m k s = (raise e, s').
Proof. unfold bind. now intros ->. Qed.

Lemma run_lift {S A : Type} (r : result A) (s : S) : lift r s = (r, s).
Proof. reflexivity. Qed.

Lemma run_get (p : json) : get p = (ok p, p).
Proof. reflexivity. Qed.

Section AssocMore.
Context {A : Type}.
Implicit Types (d : list (string * A)) (k : string).

Lemma assoc_set_same k (v : A) d : assoc_get k d = Some v -> assoc_set k v d = d.
Proof.
  induction d as [|[k' v'] rest IH]; simpl; [discriminate|].
  destruct (String.eqb k k') eqn:E.
  - intros H. inversion H; subst. apply String.eqb_eq in E. now subst.
  - intros H. now rewrite IH.
Qed.

Lemma assoc_set_set k (v1 v2 : A) d :
  assoc_set k v2 (assoc_set k v1 d) = assoc_set k v2 d.
Proof.
  induction d as [|[k' v'] rest IH]; simpl.
  - now rewrite String.eqb_refl.
  - destruct (String.eqb k k') eqn:E; simpl.
    + now rewrite String.eqb_refl.
    + now rewrite E, IH.
Qed.

Lemma assoc_set_keys_in k (v : A) d :
  assoc_get k d <> None -> map fst (assoc_set k v d) = map fst d.
Proof.
  induction d as [|[k' v'] rest IH]; simpl; [congruence|].
  destruct (String.eqb k k') eqn:E; simpl.
  - intros _. apply String.eqb_eq in E. now subst.
  - intros H. now rewrite IH.
Qed.

Lemma assoc_set_keys_new k (v : A) d :
  assoc_get k d = None -> map fst (assoc_set k v d) = map fst d ++ [k].
Proof.
  induction d as [|[k' v'] rest IH]; simpl; [reflexivity|].
  destruct (String.eqb k k') eqn:E; simpl; [discriminate|].
  intros H. now rewrite IH.
Qed.

Lemma assoc_get_None_notin k d : assoc_get k d = None -> ~ In k (map fst d).
Proof.
  induction d as [|[k' v'] rest IH]; simpl; [tauto|].
  destruct (String.eqb k k') eqn:E; [discriminate|].
  intros H [Heq|Hin]; [|now apply IH].
  subst. now rewrite String.eqb_refl in E.
Qed.
End AssocMore.

Lemma getitem_found d k v : assoc_get k d = Some v -> getitem (JDict d) k = ok v.
Proof. unfold getitem. now intros ->. Qed.

Lemma getitem_missing d k : assoc_get k d = None -> getitem (JDict d) k = raise (KeyError k).
Proof. unfold getitem. now intros ->. Qed.

Lemma dict_get_found d k v dflt : assoc_get k d = Some v -> dict_get (JDict d) k dflt = ok v.
Proof. unfold dict_get. now intros ->. Qed.

Lemma dict_get_default d k dflt : assoc_get k d = None -> dict_get (JDict d) k dflt = ok dflt.
Proof. unfold dict_get. now intros ->. Qed.

Lemma dict_get_dyn_found d k v :
  assoc_get k d = Some v -> dict_get_dyn (JDict d) (JStr k) = ok v.
Proof. unfold dict_get_dyn. simpl. now intros ->. Qed.

Lemma dict_get_dyn_missing d k :
  assoc_get k d = None -> dict_get_dyn (JDict d) (JStr k) = ok JNull.
Proof. unfold dict_get_dyn. simpl. now intros ->. Qed.

Lemma getitem_dyn_found d k v :
  assoc_get k d = Some v -> getitem_dyn (JDict d) (JStr k) = ok v.
Proof. unfold getitem_dyn. simpl. now intros ->. Qed.

Lemma getitem_dyn_missing d k :
  assoc_get k d = None -> getitem_dyn (JDict d) (JStr k) = raise (KeyError k).
Proof. unfold getitem_dyn. simpl. now intros ->. Qed.

(** One step of a run: a [lift] whose value is known. *)
Lemma run_bind_lift {S A B : Type} (r : result A) (a : A) (k : A -> SE S B) (s : S) :
  r = ok a -> bind (lift r) k s = k a s.
Proof. now intros ->. Qed.

Lemma run_bind_lift_raise {S A B : Type} (r : result A) (e : exn) (k : A -> SE S B) (s : S) :
  r = raise e -> bind (lift r) k s = (raise e, s).
Proof. now intros ->. Qed.

Lemma resolved_of_run (ctx : json) (top d : list (string * json)) (r : json) :
  ctx = JDict top ->
  assoc_get "data" top = Some (JDict d) ->
  assoc_get "resolved" d = Some r ->
  resolved_of ctx = (ok r, ctx).
Proof.
  intros -> Hd Hr. unfold resolved_of, bind, get, lift. simpl.
  rewrite Hd. simpl. now rewrite Hr.
Qed.

Lemma guild_of_run (ctx : json) (top : list (string * json)) (g : json) (n : Z) :
  ctx = JDict top ->
  assoc_get "guild_id" top = Some g ->
  py_int g = ok n ->
  guild_of ctx = (ok n, ctx).
Proof.
  intros -> Hg Hn. unfold guild_of.
  rewrite (run_bind_ok get _ _ _ _ (run_get _)).
  rewrite (run_bind_ok (lift (getitem (JDict top) "guild_id")) _ _ (JDict top) g).
  2:{ unfold lift, getitem. now rewrite Hg. }
  unfold lift. now rewrite Hn.
Qed.

(** ** The converters of the table *)

(** X1: [_user_converter] answers from [resolved.users] only.  An id whose
    (non-empty) entry [discord.User] accepts, that is an entry with
    [username], a numeric [id], [discriminator] and [avatar], gives the user
    built from that entry; an entry that the constructor refuses makes the
    converter raise what the constructor raises ([KeyError] for a missing
    key); an id without entry, or a payload without users table, gives
    [BadArgument].  The payload is never written. *)
Theorem X1_user_converter (ctx : json) (top d r : list (string * json)) (id : string) :
  ctx = JDict top ->
  assoc_get "data" top = Some (JDict d) ->
  assoc_get "resolved" d = Some (JDict r) ->
  (forall u user seen,
     assoc_get "users" r = Some (JDict u) -> assoc_get id u = Some user ->
     truthy user = true -> User_init user = ok seen ->
     _user_converter (JStr id) ctx = (ok (VUser user), ctx))
  /\ (forall u user e,
        assoc_get "users" r = Some (JDict u) -> assoc_get id u = Some user ->
        truthy user = true -> User_init user = raise e ->
        _user_converter (JStr id) ctx = (raise e, ctx))
  /\ (forall u,
        assoc_get "users" r = Some (JDict u) -> assoc_get id u = None ->
        _user_converter (JStr id) ctx
        = (raise (BadArgument "User specified is not someone the bot can see."), ctx))
  /\ (assoc_get "users" r = None ->
        _user_converter (JStr id) ctx
        = (raise (BadArgument "User specified is not someone the bot can see."), ctx)).
Proof.
  intros Hctx Hd Hr.
  pose proof (resolved_of_run ctx top d (JDict r) Hctx Hd Hr) as Hres.
  unfold _user_converter. rewrite (run_bind_ok _ _ _ _ _ Hres).
  split; [|split; [|split]].
  - intros u user seen Hu Hid Htruthy Hinit.
    rewrite (run_bind_lift _ _ _ _ (dict_get_found _ _ _ _ Hu)).
    rewrite (run_bind_lift _ _ _ _ (dict_get_dyn_found _ _ _ Hid)).
    rewrite Htruthy. cbn [negb].
    now rewrite (run_bind_lift _ _ _ _ Hinit).
  - intros u user e Hu Hid Htruthy Hinit.
    rewrite (run_bind_lift _ _ _ _ (dict_get_found _ _ _ _ Hu)).
    rewrite (run_bind_lift _ _ _ _ (dict_get_dyn_found _ _ _ Hid)).
    rewrite Htruthy. cbn [negb].
    now rewrite (run_bind_lift_raise _ _ _ _ Hinit).
  - intros u Hu Hid.
    rewrite (run_bind_lift _ _ _ _ (dict_get_found _ _ _ _ Hu)).
    rewrite (run_bind_lift _ _ _ _ (dict_get_dyn_missing _ _ Hid)).
    reflexivity.
  - intros Hu.
    rewrite (run_bind_lift _ _ _ _ (dict_get_default _ _ (JDict []) Hu)).
    rewrite (run_bind_lift _ _ _ _ (dict_get_dyn_missing [] id eq_refl)).
    reflexivity.
Qed.

Lemma X1_user_converter_witness :
  _user_converter (JStr "123") Guild.event_ = (ok (VUser Guild.ada), Guild.event_)
  /\ _user_converter (JStr "124") Guild.event_
     = (raise (KeyError "discriminator"), Guild.event_)
  /\ _user_converter (JStr "999") Guild.event_
     = (raise (BadArgument "User specified is not someone the bot can see."), Guild.event_).
Proof.
  destruct (X1_user_converter Guild.event_ Guild.fields Guild.inner Guild.tables "123"
              eq_refl eq_refl eq_refl) as (Hfound & _ & _ & _).
  destruct (X1_user_converter Guild.event_ Guild.fields Guild.inner Guild.tables "124"
              eq_refl eq_refl eq_refl) as (_ & Hrefused & _ & _).
  destruct (X1_user_converter Guild.event_ Guild.fields Guild.inner Guild.tables "999"
              eq_refl eq_refl eq_refl) as (_ & _ & Hmissing & _).
  split; [|split].
  - apply (Hfound [("123", Guild.ada); ("124", Guild.stub)] Guild.ada
             (JDict [ ("username", JStr "ada"); ("id", JInt 123); ("avatar", JNull);
                      ("discriminator", JStr "1815"); ("bot", JBool false) ]));
      reflexivity.
  - apply (Hrefused [("123", Guild.ada); ("124", Guild.stub)] Guild.stub); reflexivity.
  - apply (Hmissing [("123", Guild.ada); ("124", Guild.stub)]); reflexivity.
Defined.

Lemma store_member_run top d r m id entry :
  assoc_get "data" top = Some (JDict d) ->
  assoc_get "resolved" d = Some (JDict r) ->
  assoc_get "members" r = Some (JDict m) ->
  store_member id entry (JDict top) = (ok tt, write_member top d r m id entry).
Proof.
  intros Hd Hr Hm. unfold store_member.
  rewrite (run_bind_ok get _ _ _ _ (run_get _)).
  rewrite (run_bind_lift _ _ _ _ (getitem_found _ _ _ Hd)).
  rewrite (run_bind_lift _ _ _ _ (getitem_found _ _ _ Hr)).
  rewrite (run_bind_lift _ _ _ _ (getitem_found _ _ _ Hm)).
  reflexivity.
Qed.

Lemma store_member_again top d r m id entry1 entry2 :
  store_member id entry2 (write_member top d r m id entry1)
  = (ok tt, write_member top d r m id entry2).
Proof.
  unfold write_member at 1.
  erewrite store_member_run; try apply assoc_get_set_eq.
  unfold write_member. now rewrite !assoc_set_set.
Qed.

Lemma write_member_entry top d r m id entry :
  resolved_entry (write_member top d r m id entry) "members" id = ok entry.
Proof.
  unfold resolved_entry, write_member.
  rewrite (getitem_found _ _ _ (assoc_get_set_eq _ _ _)). cbn [rbind ok].
  rewrite (getitem_found _ _ _ (assoc_get_set_eq _ _ _)). cbn [rbind ok].
  rewrite (getitem_found _ _ _ (assoc_get_set_eq _ _ _)). cbn [rbind ok].
  apply getitem_found, assoc_get_set_eq.
Qed.

Lemma write_member_frame top d r m id entry key :
  key <> "data" ->
  getitem (write_member top d r m id entry) key = getitem (JDict top) key.
Proof.
  intros Hne. unfold write_member, getitem.
  rewrite assoc_get_set_ne by congruence. reflexivity.
Qed.

(** X2: [_member_converter] writes into the payload.  For an id that has a
    member entry and a user entry, it extends the entry with [user],
    [deaf = False] and [mute = False] and leaves the extended entry under
    [resolved.members[id]]; nothing outside [data] changes.  It then returns
    the member built from the extended entry if [discord.Member] accepts it
    (a user with [username], numeric [id], [discriminator] and [avatar], and
    a list of numeric [roles]); if the constructor refuses the entry, the
    converter raises what the constructor raises, after the writes.  For an
    id without member entry it raises [BadArgument] and writes nothing; for
    a member without user entry it raises [KeyError] and writes nothing. *)
Theorem X2_member_converter_polyfills (ctx : json) (top d r m : list (string * json))
    (id : string) :
  ctx = JDict top ->
  assoc_get "data" top = Some (JDict d) ->
  assoc_get "resolved" d = Some (JDict r) ->
  assoc_get "members" r = Some (JDict m) ->
  (forall member u user g guild,
     assoc_get id m = Some (JDict member) -> member <> [] ->
     assoc_get "users" r = Some (JDict u) -> assoc_get id u = Some user ->
     assoc_get "guild_id" top = Some g -> py_int g = ok guild ->
     let entry := JDict (polyfilled member user) in
     let ctx' := write_member top d r m id entry in
     (Member_init entry = ok tt ->
        _member_converter (JStr id) ctx = (ok (VMember guild entry), ctx'))
     /\ (forall e, Member_init entry = raise e ->
           _member_converter (JStr id) ctx = (raise e, ctx'))
     /\ resolved_entry ctx' "members" id = ok entry
     /\ getitem entry "user" = ok user
     /\ getitem entry "deaf" = ok (JBool false)
     /\ getitem entry "mute" = ok (JBool false)
     /\ forall key, key <> "data" -> getitem ctx' key = getitem ctx key)
  /\ (assoc_get id m = None ->
        _member_converter (JStr id) ctx
        = (raise (BadArgument "User specified is not a member."), ctx))
  /\ (forall member u,
        assoc_get id m = Some (JDict member) -> member <> [] ->
        assoc_get "users" r = Some (JDict u) -> assoc_get id u = None ->
        _member_converter (JStr id) ctx = (raise (KeyError id), ctx)).
Proof.
  intros Hctx Hd Hr Hm.
  pose proof (resolved_of_run ctx top d (JDict r) Hctx Hd Hr) as Hres.
  unfold _member_converter. rewrite (run_bind_ok _ _ _ _ _ Hres).
  rewrite (run_bind_lift _ _ _ _ (dict_get_found _ _ _ _ Hm)).
  split; [|split].
  - intros member u user g guild Hid Hne Hu Huid Hg Hguild. cbv zeta.
    rewrite (run_bind_lift _ _ _ _ (dict_get_dyn_found _ _ _ Hid)).
    replace (truthy (JDict member)) with true by (destruct member; [congruence | reflexivity]).
    cbn [negb].
    rewrite (run_bind_lift _ _ _ _ (getitem_found _ _ _ Hu)).
    rewrite (run_bind_lift _ _ _ _ (getitem_dyn_found _ _ _ Huid)).
    rewrite (run_bind_lift (setitem (JDict member) "user" user)
               (JDict (assoc_set "user" user member))) by reflexivity.
    cbn [py_str]. subst ctx.
    rewrite (run_bind_ok _ _ _ _ _
               (store_member_run top d r m id (JDict (assoc_set "user" user member))
                  Hd Hr Hm)).
    rewrite (run_bind_lift (setitem (JDict (assoc_set "user" user member)) "deaf" (JBool false))
               (JDict (assoc_set "deaf" (JBool false) (assoc_set "user" user member))))
      by reflexivity.
    rewrite (run_bind_ok _ _ _ _ _
               (store_member_again top d r m id (JDict (assoc_set "user" user member))
                  (JDict (assoc_set "deaf" (JBool false) (assoc_set "user" user member))))).
    rewrite (run_bind_lift
               (setitem (JDict (assoc_set "deaf" (JBool false) (assoc_set "user" user member)))
                  "mute" (JBool false))
               (JDict (polyfilled member user))) by reflexivity.
    rewrite (run_bind_ok _ _ _ _ _
               (store_member_again top d r m id
                  (JDict (assoc_set "deaf" (JBool false) (assoc_set "user" user member)))
                  (JDict (polyfilled member user)))).
    assert (Hgu : guild_of (write_member top d r m id (JDict (polyfilled member user)))
                  = (ok guild, write_member top d r m id (JDict (polyfilled member user)))).
    { unfold write_member. eapply guild_of_run; [reflexivity | | exact Hguild].
      rewrite assoc_get_set_ne by discriminate. exact Hg. }
    rewrite (run_bind_ok _ _ _ _ _ Hgu).
    split; [intros Hinit; now rewrite (run_bind_lift _ _ _ _ Hinit)|].
    split; [intros e Hinit; now rewrite (run_bind_lift_raise _ _ _ _ Hinit)|].
    split; [apply write_member_entry|].
    unfold polyfilled.
    split; [apply getitem_found; rewrite !assoc_get_set_ne by discriminate;
            apply assoc_get_set_eq|].
    split; [apply getitem_found; rewrite assoc_get_set_ne by discriminate;
            apply assoc_get_set_eq|].
    split; [apply getitem_found, assoc_get_set_eq|].
    intros key Hkey. now apply write_member_frame.
  - intros Hid.
    rewrite (run_bind_lift _ _ _ _ (dict_get_dyn_missing _ _ Hid)). reflexivity.
  - intros member u Hid Hne Hu Huid.
    rewrite (run_bind_lift _ _ _ _ (dict_get_dyn_found _ _ _ Hid)).
    replace (truthy (JDict member)) with true by (destruct member; [congruence | reflexivity]).
    cbn [negb].
    rewrite (run_bind_lift _ _ _ _ (getitem_found _ _ _ Hu)).
    rewrite (run_bind_lift_raise _ _ _ _ (getitem_dyn_missing _ _ Huid)). reflexivity.
Qed.

Lemma X2_member_converter_polyfills_witness :
  fst (_member_converter (JStr "123") Guild.event_)
    = ok (VMember 20 (JDict [ ("nick", JStr "countess");
                              ("roles", JList [JStr "8"]);
                              ("user", Guild.ada);
                              ("deaf", JBool false);
                              ("mute", JBool false) ]))
  /\ resolved_entry (snd (_member_converter (JStr "123") Guild.event_)) "members" "123"
     = ok (JDict [ ("nick", JStr "countess");
                   ("roles", JList [JStr "8"]);
                   ("user", Guild.ada);
                   ("deaf", JBool false);
                   ("mute", JBool false) ])
  /\ _member_converter (JStr "999") Guild.event_
     = (raise (BadArgument "User specified is not a member."), Guild.event_).
Proof.
  destruct (X2_member_converter_polyfills Guild.event_ Guild.fields Guild.inner Guild.tables
              [("123", JDict Guild.ada_member)] "123" eq_refl eq_refl eq_refl eq_refl)
    as (Hfound & _ & _).
  destruct (X2_member_converter_polyfills Guild.event_ Guild.fields Guild.inner Guild.tables
              [("123", JDict Guild.ada_member)] "999" eq_refl eq_refl eq_refl eq_refl)
    as (_ & Hmissing & _).
  destruct (Hfound Guild.ada_member [("123", Guild.ada); ("124", Guild.stub)] Guild.ada
              (JStr "20") 20%Z
              eq_refl ltac:(discriminate) eq_refl eq_refl eq_refl eq_refl)
    as (Hrun & _ & Hentry & _).
  rewrite (Hrun eq_refl).
  split; [reflexivity|].
  split; [exact Hentry|].
  apply Hmissing. reflexivity.
Defined.

Lemma channel_of_kind_run kind msg build ctx top d r ch chan id g :
  ctx = JDict top ->
  assoc_get "data" top = Some (JDict d) ->
  assoc_get "resolved" d = Some (JDict r) ->
  assoc_get "channels" r = Some (JDict ch) ->
  assoc_get id ch = Some (JDict chan) -> chan <> [] ->
  assoc_get "guild_id" top = Some g ->
  channel_of_kind kind msg build (JStr id) ctx
  = if negb (py_eq (default JNull (assoc_get "guild_id" chan)) g)
    then (raise (BadArgument "Channel not in this guild."), ctx)
    else match assoc_get "type" chan with
         | None => (raise (KeyError "type"), ctx)
         | Some ty =>
             if negb (py_eq ty (JInt kind)) then (raise (BadArgument msg), ctx)
             else match py_int g with
                  | inr guild =>
                      match Channel_init (JDict chan) with
                      | inr _ => (ok (build guild (JDict chan)), ctx)
                      | inl e => (raise e, ctx)
                      end
                  | inl e => (raise e, ctx)
                  end
         end.
Proof.
  intros Hctx Hd Hr Hch Hid Hne Hg.
  pose proof (resolved_of_run ctx top d (JDict r) Hctx Hd Hr) as Hres.
  unfold channel_of_kind. rewrite (run_bind_ok _ _ _ _ _ Hres).
  rewrite (run_bind_lift _ _ _ _ (dict_get_found _ _ _ _ Hch)).
  rewrite (run_bind_lift _ _ _ _ (dict_get_dyn_found _ _ _ Hid)).
  replace (truthy (JDict chan)) with true by (destruct chan; [congruence | reflexivity]).
  cbn [negb]. subst ctx.
  unfold guild_of. unfold bind, lift, get, ret, throw, dict_get, getitem. rewrite Hg.
  unfold default, raise, ok.
  destruct (assoc_get "guild_id" chan) as [theirs|];
    (destruct (negb (py_eq _ g)); [reflexivity|]);
    (destruct (assoc_get "type" chan) as [ty|]; [|reflexivity]);
    (destruct (negb (py_eq ty (JInt kind))); [reflexivity|]);
    rewrite ?Hg; cbv beta iota; destruct (py_int g); try reflexivity;
    destruct (Channel_init (JDict chan)); reflexivity.
Qed.

Lemma channel_of_kind_absent kind msg build ctx top d r ch id :
  ctx = JDict top ->
  assoc_get "data" top = Some (JDict d) ->
  assoc_get "resolved" d = Some (JDict r) ->
  assoc_get "channels" r = Some (JDict ch) ->
  assoc_get id ch = None ->
  channel_of_kind kind msg build (JStr id) ctx
  = (raise (BadArgument "Channel not in this guild."), ctx).
Proof.
  intros Hctx Hd Hr Hch Hid.
  pose proof (resolved_of_run ctx top d (JDict r) Hctx Hd Hr) as Hres.
  unfold channel_of_kind. rewrite (run_bind_ok _ _ _ _ _ Hres).
  rewrite (run_bind_lift _ _ _ _ (dict_get_found _ _ _ _ Hch)).
  rewrite (run_bind_lift _ _ _ _ (dict_get_dyn_missing _ _ Hid)).
  reflexivity.
Qed.

Lemma py_eq_one_number (x : json) (a b : Z) :
  py_eq x (JInt a) = true -> a <> b -> py_eq x (JInt b) = false.
Proof.
  destruct x as [|flag|n|s|l|dd]; simpl; try discriminate.
  - destruct flag; intros H Hne; apply Z.eqb_eq in H; apply Z.eqb_neq; lia.
  - intros H Hne. apply Z.eqb_eq in H. apply Z.eqb_neq. lia.
Qed.

(** X3: the two channel converters answer from [resolved.channels], and
    refuse before any channel is built, without writing the payload: an id
    without entry, or whose entry names another guild than the interaction,
    is refused with "Channel not in this guild."; an entry of this guild
    whose type is not 0 is refused by the text converter, one whose type is
    not 4 by the category converter.  So every entry is refused by at least
    one of the two: no channel is accepted by both. *)
Theorem X3_channel_converters_by_kind (ctx : json) (top d r ch : list (string * json))
    (id : string) (g : json) :
  ctx = JDict top ->
  assoc_get "data" top = Some (JDict d) ->
  assoc_get "resolved" d = Some (JDict r) ->
  assoc_get "channels" r = Some (JDict ch) ->
  assoc_get "guild_id" top = Some g ->
  (assoc_get id ch = None ->
     _text_channel_converter (JStr id) ctx
     = (raise (BadArgument "Channel not in this guild."), ctx)
     /\ _category_channel_converter (JStr id) ctx
        = (raise (BadArgument "Channel not in this guild."), ctx))
  /\ (forall chan,
        assoc_get id ch = Some (JDict chan) -> chan <> [] ->
        py_eq (default JNull (assoc_get "guild_id" chan)) g = false ->
        _text_channel_converter (JStr id) ctx
        = (raise (BadArgument "Channel not in this guild."), ctx)
        /\ _category_channel_converter (JStr id) ctx
           = (raise (BadArgument "Channel not in this guild."), ctx))
  /\ (forall chan ty,
        assoc_get id ch = Some (JDict chan) -> chan <> [] ->
        py_eq (default JNull (assoc_get "guild_id" chan)) g = true ->
        assoc_get "type" chan = Some ty ->
        (py_eq ty (JInt 0) = false ->
           _text_channel_converter (JStr id) ctx
           = (raise (BadArgument "This is not a text channel."), ctx))
        /\ (py_eq ty (JInt 4) = false ->
              _category_channel_converter (JStr id) ctx
              = (raise (BadArgument "This is not a category channel."), ctx))
        /\ (py_eq ty (JInt 0) = false \/ py_eq ty (JInt 4) = false)).
Proof.
  intros Hctx Hd Hr Hch Hg. unfold _text_channel_converter, _category_channel_converter.
  split; [|split].
  - intros Hid. split; eapply channel_of_kind_absent; eassumption.
  - intros chan Hid Hne Hforeign.
    rewrite !(channel_of_kind_run _ _ _ ctx top d r ch chan id g Hctx Hd Hr Hch Hid Hne Hg).
    rewrite Hforeign. split; reflexivity.
  - intros chan ty Hid Hne Hours Hty.
    rewrite !(channel_of_kind_run _ _ _ ctx top d r ch chan id g Hctx Hd Hr Hch Hid Hne Hg).
    rewrite Hours, Hty. cbn [negb]. split; [|split].
    + intros H0. now rewrite H0.
    + intros H4. now rewrite H4.
    + destruct (py_eq ty (JInt 0)) eqn:H0; [|now left].
      right. apply (py_eq_one_number ty 0 4 H0). lia.
Qed.

Lemma X3_channel_converters_by_kind_witness :
  _text_channel_converter (JStr "9") Guild.event_
    = (raise (BadArgument "This is not a text channel."), Guild.event_)
  /\ _category_channel_converter (JStr "7") Guild.event_
     = (raise (BadArgument "This is not a category channel."), Guild.event_)
  /\ _text_channel_converter (JStr "11") Guild.event_
     = (raise (BadArgument "Channel not in this guild."), Guild.event_)
  /\ _category_channel_converter (JStr "404") Guild.event_
     = (raise (BadArgument "Channel not in this guild."), Guild.event_).
Proof.
  destruct (X3_channel_converters_by_kind Guild.event_ Guild.fields Guild.inner Guild.tables
              Guild.channels "9" (JStr "20") eq_refl eq_refl eq_refl eq_refl eq_refl)
    as (_ & _ & Hlobby).
  destruct (X3_channel_converters_by_kind Guild.event_ Guild.fields Guild.inner Guild.tables
              Guild.channels "7" (JStr "20") eq_refl eq_refl eq_refl eq_refl eq_refl)
    as (_ & _ & Hgeneral).
  destruct (X3_channel_converters_by_kind Guild.event_ Guild.fields Guild.inner Guild.tables
              Guild.channels "11" (JStr "20") eq_refl eq_refl eq_refl eq_refl eq_refl)
    as (_ & Hforeign & _).
  destruct (X3_channel_converters_by_kind Guild.event_ Guild.fields Guild.inner Guild.tables
              Guild.channels "404" (JStr "20") eq_refl eq_refl eq_refl eq_refl eq_refl)
    as (Habsent & _ & _).
  destruct (Hlobby [ ("id", JStr "9"); ("guild_id", JStr "20"); ("type", JInt 4);
                     ("name", JStr "lobby"); ("position", JInt 1) ] (JInt 4)
              eq_refl ltac:(discriminate) eq_refl eq_refl) as (Htext & _ & _).
  destruct (Hgeneral [ ("id", JStr "7"); ("guild_id", JStr "20"); ("type", JInt 0);
                       ("name", JStr "general"); ("position", JInt 0) ] (JInt 0)
              eq_refl ltac:(discriminate) eq_refl eq_refl) as (_ & Hcategory & _).
  destruct (Hforeign [ ("id", JStr "11"); ("guild_id", JStr "21"); ("type", JInt 0);
                       ("name", JStr "general"); ("position", JInt 0) ]
              eq_refl ltac:(discriminate) eq_refl) as (Helsewhere & _).
  destruct (Habsent eq_refl) as (_ & Hmissing).
  split; [exact (Htext eq_refl)|]. split; [exact (Hcategory eq_refl)|].
  split; [exact Helsewhere | exact Hmissing].
Defined.

(** X4: [_role_converter] in a guild interaction returns the role built from
    [resolved.roles[id]].  An id without entry, or a payload without roles
    table, is answered with [KeyError], not with [BadArgument] as the user
    and channel converters do.  The payload is not written. *)
Theorem X4_role_converter (ctx : json) (top d r : list (string * json)) (id : string)
    (g : json) (guild : Z) :
  ctx = JDict top ->
  assoc_get "data" top = Some (JDict d) ->
  assoc_get "resolved" d = Some (JDict r) ->
  assoc_get "guild_id" top = Some g ->
  py_int g = ok guild ->
  (forall roles role,
     assoc_get "roles" r = Some (JDict roles) -> assoc_get id roles = Some role ->
     _role_converter (JStr id) ctx = (ok (VRole guild role), ctx))
  /\ (forall roles,
        assoc_get "roles" r = Some (JDict roles) -> assoc_get id roles = None ->
        _role_converter (JStr id) ctx = (raise (KeyError id), ctx))
  /\ (assoc_get "roles" r = None ->
        _role_converter (JStr id) ctx = (raise (KeyError "roles"), ctx)).
Proof.
  intros Hctx Hd Hr Hg Hguild.
  pose proof (resolved_of_run ctx top d (JDict r) Hctx Hd Hr) as Hres.
  pose proof (guild_of_run ctx top g guild Hctx Hg Hguild) as Hgu.
  unfold _role_converter.
  rewrite (run_bind_ok _ _ _ _ _ Hres), (run_bind_ok _ _ _ _ _ Hgu).
  split; [|split].
  - intros roles role Hroles Hid.
    rewrite (run_bind_lift _ _ _ _ (getitem_found _ _ _ Hroles)).
    rewrite (run_bind_lift _ _ _ _ (getitem_dyn_found _ _ _ Hid)). reflexivity.
  - intros roles Hroles Hid.
    rewrite (run_bind_lift _ _ _ _ (getitem_found _ _ _ Hroles)).
    rewrite (run_bind_lift_raise _ _ _ _ (getitem_dyn_missing _ _ Hid)). reflexivity.
  - intros Hroles.
    rewrite (run_bind_lift_raise _ _ _ _ (getitem_missing _ _ Hroles)). reflexivity.
Qed.

Lemma X4_role_converter_witness :
  _role_converter (JStr "8") Guild.event_ = (ok (VRole 20 Guild.moderator), Guild.event_)
  /\ _role_converter (JStr "9") Guild.event_ = (raise (KeyError "9"), Guild.event_).
Proof.
  destruct (X4_role_converter Guild.event_ Guild.fields Guild.inner Guild.tables "8"
              (JStr "20") 20%Z eq_refl eq_refl eq_refl eq_refl eq_refl) as (Hfound & _ & _).
  destruct (X4_role_converter Guild.event_ Guild.fields Guild.inner Guild.tables "9"
              (JStr "20") 20%Z eq_refl eq_refl eq_refl eq_refl eq_refl) as (_ & Hmissing & _).
  split.
  - apply (Hfound [("8", Guild.moderator)] Guild.moderator); reflexivity.
  - apply (Hmissing [("8", Guild.moderator)]); reflexivity.
Defined.

(** ** Annotations and published arguments *)

Lemma _get_converter_function_type_id :
  forall t c tid,
    _get_converter_function t = ok (c, tid) ->
    exists n, tid = TypeId n /\ (3 <= n <= 9)%Z.
Proof.
  fix IH 1. intros t c tid.
  destruct t as [| | | | | | | | | | | | | | | | origin args | cls convert | cls];
    try (simpl; intros H; inversion H; eexists; split; [reflexivity | lia]);
    try (simpl; discriminate).
  destruct origin; try (simpl; discriminate).
  - destruct args as [|a rest]; simpl; [discriminate|].
    destruct (_get_converter_function a) as [e|[c' tid']] eqn:E; simpl; [discriminate|].
    intros H. inversion H; subst. exact (IH a c' tid E).
  - destruct (union_annotation_raises args) as [e He]. unfold Union_ in He.
    rewrite He. discriminate.
Qed.

Lemma _process_args_loop_run params :
  forall frame processors args frame' processors' args',
    _process_args_loop params frame processors args = ok (frame', processors', args') ->
    (exists specs, args' = args ++ specs /\ Forall2 publishes params specs)
    /\ processors' = processors ++ repeat conversion_entrypoint (length params)
    /\ match last params with
       | None => frame' = frame
       | Some p =>
           exists c tid,
             _get_converter_function (converter_type_of p) = ok (c, tid)
             /\ frame' = Some (cells_after p c)
       end.
Proof.
  induction params as [|p rest IH]; intros frame processors args frame' processors' args' H.
  - simpl in H. inversion H; subst. split; [exists []; split; [now rewrite app_nil_r | constructor]|].
    split; [now rewrite app_nil_r | reflexivity].
  - simpl in H. fold (converter_type_of p) in H.
    destruct (_get_converter_function (converter_type_of p)) as [e|[c tid]] eqn:E;
      cbn [rbind raise ok] in H; [discriminate|].
    unfold attr_required in H.
    assert (Hreq : (if match param_default p with None => true | Some _ => false end
                    then true
                    else match param_default p with None => true | Some _ => false end)
                   = has_no_default p) by (unfold has_no_default; destruct (param_default p); reflexivity).
    rewrite Hreq in H.
    apply IH in H. destruct H as ((specs & Hargs & Hspecs) & Hprocs & Hlast).
    split; [|split].
    + eexists (_ :: specs). split; [rewrite Hargs, <- app_assoc; reflexivity|].
      constructor; [|exact Hspecs].
      unfold publishes; cbn. repeat split; eauto.
    + rewrite Hprocs, <- app_assoc. reflexivity.
    + destruct rest as [|q rest'].
      * cbn in Hlast |- *. exists c, tid. split; [exact E|exact Hlast].
      * change (last (p :: q :: rest')) with (last (q :: rest')).
        destruct (last (q :: rest')) eqn:El; [exact Hlast|].
        apply last_None in El. discriminate.
Qed.

Lemma _process_args_inv h ps specs :
  _process_args h = ok (ps, specs) ->
  exists first rest frame processors,
    parameters h = first :: rest
    /\ valid_context_annotation (annotation first) = true
    /\ _process_args_loop rest None [] [] = ok (frame, processors, specs)
    /\ ps = match frame with
            | None => []
            | Some final => map (fun closure => closure final) processors
            end.
Proof.
  unfold _process_args. destruct (parameters h) as [|first rest]; [discriminate|].
  destruct (valid_context_annotation (annotation first)) eqn:V; cbn [negb]; [|discriminate].
  destruct (_process_args_loop rest None [] []) as [e|[[frame processors] args]] eqn:L;
    cbn [rbind raise ok]; [discriminate|].
  intros H. exists first, rest, frame, processors.
  destruct frame; inversion H; subst; auto.
Qed.

Lemma _process_args_loop_total params :
  Forall convertible params ->
  forall frame processors args,
    exists r, _process_args_loop params frame processors args = ok r.
Proof.
  induction 1 as [|p rest [[c tid] Hp] _ IH]; intros frame processors args.
  - eexists. reflexivity.
  - simpl. fold (converter_type_of p). rewrite Hp. cbn [rbind raise ok]. apply IH.
Qed.

Lemma map_repeat_apply {A B : Type} (f : A -> B) (a : A) (n : nat) :
  map (fun g : A -> B => g a) (repeat f n) = repeat (f a) n.
Proof. induction n; simpl; congruence. Qed.

(** X5: whatever the annotation, the option type that
    [_get_converter_function] returns is one of the numbers 3 to 9, never a
    set; so is the type of every entry that [_process_args] publishes. *)
Theorem X5_option_types_are_numbers :
  (forall t c tid,
     _get_converter_function t = ok (c, tid) ->
     exists n, tid = TypeId n /\ (3 <= n <= 9)%Z)
  /\ (forall h ps specs,
        _process_args h = ok (ps, specs) ->
        Forall (fun s => exists n, spec_type s = TypeId n /\ (3 <= n <= 9)%Z) specs).
Proof.
  split; [exact _get_converter_function_type_id|].
  intros h ps specs H.
  destruct (_process_args_inv h ps specs H) as (first & rest & frame & processors & _ & _ & L & _).
  apply _process_args_loop_run in L. destruct L as ((specs' & Hspecs & Hpub) & _).
  cbn in Hspecs. subst specs'.
  clear -Hpub. induction Hpub as [|p s rest specs (_ & _ & _ & c & Hc) _ IH]; constructor; auto.
  exact (_get_converter_function_type_id _ _ _ Hc).
Qed.

Lemma X5_option_types_are_numbers_witness :
  _get_converter_function T_Member
    = ok (ConvFn (_wrap_arg_handler_async _member_converter), TypeId 6)
  /\ exists n, TypeId 6 = TypeId n /\ (3 <= n <= 9)%Z.
Proof.
  split; [reflexivity|].
  exact (proj1 X5_option_types_are_numbers T_Member
           (ConvFn (_wrap_arg_handler_async _member_converter)) (TypeId 6) eq_refl).
Defined.

(** X6: when [_process_args] accepts a handler, [self.args] has one entry
    for each parameter after the context, in the order of the signature:
    the entry carries the parameter's name, is required exactly when the
    parameter has no default, is described accordingly, and has the type id
    of the parameter's annotation ([str] when there is none).  There are as
    many processors as entries. *)
Theorem X6_published_arguments_follow_the_signature (h : Handler) (first : SigParameter)
    (rest : list SigParameter) (ps : list processor) (specs : list ArgSpec) :
  parameters h = first :: rest ->
  _process_args h = ok (ps, specs) ->
  Forall2 publishes rest specs
  /\ map spec_name specs = map param_name rest
  /\ map spec_required specs = map has_no_default rest
  /\ length specs = length rest
  /\ length ps = length rest.
Proof.
  intros Hparams H.
  destruct (_process_args_inv h ps specs H)
    as (first' & rest' & frame & processors & Hparams' & _ & L & Hps).
  rewrite Hparams in Hparams'. inversion Hparams'; subst first' rest'.
  apply _process_args_loop_run in L. destruct L as ((specs' & Hspecs & Hpub) & Hprocs & Hlast).
  cbn in Hspecs, Hprocs. subst specs' processors.
  assert (Hlen : length ps = length rest).
  { destruct frame as [final|].
    - rewrite Hps, length_map. apply repeat_length.
    - destruct rest as [|p rest'].
      + now subst ps.
      + exfalso. destruct (last (p :: rest')) eqn:El.
        * destruct Hlast as (c & tid & _ & Hf). discriminate.
        * apply last_None in El. discriminate. }
  split; [exact Hpub|].
  split; [|split; [|split; [|exact Hlen]]]; clear -Hpub.
  - induction Hpub as [|p s rest specs (Hn & _) _ IH]; simpl; congruence.
  - induction Hpub as [|p s rest specs (_ & Hr & _) _ IH]; simpl; congruence.
  - symmetry. eapply Forall2_length; eauto.
Qed.

Lemma X6_published_arguments_follow_the_signature_witness :
  exists ps specs,
    _process_args TwoParameters.tag = ok (ps, specs)
    /\ map spec_name specs = ["target"; "note"]
    /\ map spec_required specs = [true; true]
    /\ length ps = 2.
Proof.
  destruct (_process_args TwoParameters.tag) as [e|[ps specs]] eqn:E;
    [vm_compute in E; discriminate|].
  exists ps, specs. split; [reflexivity|].
  destruct (X6_published_arguments_follow_the_signature TwoParameters.tag Fixtures.ctx_param
              [TwoParameters.target_param; TwoParameters.note_param] ps specs eq_refl E)
    as (_ & Hnames & Hrequired & _ & Hlen).
  split; [exact Hnames|]. split; [exact Hrequired | exact Hlen].
Defined.

(** X7: the processors that [_process_args] returns are all the same
    function: each [conversion_entrypoint] closure reads [required], [param]
    and [converter_function] when it is called, and by then they hold what
    the loop left for the last parameter.  So every position is converted by
    the last parameter's converter, with its default and its required
    flag. *)
Theorem X7_processors_share_the_last_cells (h : Handler) (first : SigParameter)
    (rest : list SigParameter) (ps : list processor) (specs : list ArgSpec) :
  parameters h = first :: rest ->
  _process_args h = ok (ps, specs) ->
  match last rest with
  | None => ps = []
  | Some p =>
      exists c tid,
        _get_converter_function (converter_type_of p) = ok (c, tid)
        /\ ps = repeat (conversion_entrypoint (cells_after p c)) (length rest)
  end.
Proof.
  intros Hparams H.
  destruct (_process_args_inv h ps specs H)
    as (first' & rest' & frame & processors & Hparams' & _ & L & Hps).
  rewrite Hparams in Hparams'. inversion Hparams'; subst first' rest'.
  apply _process_args_loop_run in L. destruct L as (_ & Hprocs & Hlast).
  cbn in Hprocs. subst processors.
  destruct (last rest) as [p|].
  - destruct Hlast as (c & tid & Hc & Hf). exists c, tid. split; [exact Hc|].
    subst frame ps. apply map_repeat_apply.
  - now subst frame ps.
Qed.

Lemma X7_processors_share_the_last_cells_witness :
  exists ps specs c tid,
    _process_args TwoParameters.tag = ok (ps, specs)
    /\ _get_converter_function (converter_type_of TwoParameters.note_param) = ok (c, tid)
    /\ ps = [ conversion_entrypoint (cells_after TwoParameters.note_param c);
              conversion_entrypoint (cells_after TwoParameters.note_param c) ].
Proof.
  destruct (_process_args TwoParameters.tag) as [e|[ps specs]] eqn:E;
    [vm_compute in E; discriminate|].
  destruct (X7_processors_share_the_last_cells TwoParameters.tag Fixtures.ctx_param
              [TwoParameters.target_param; TwoParameters.note_param] ps specs eq_refl E)
    as (c & tid & Hc & Hps).
  exists ps, specs, c, tid. split; [reflexivity|]. split; [exact Hc | exact Hps].
Defined.

(** X8: [_process_args] accepts a handler exactly when its signature has a
    first parameter annotated with nothing, [Context] or [CommandsContext],
    and every other parameter's annotation has a converter.  A coroutine
    function is therefore turned into a command exactly when its signature
    is accepted, whatever the bot, the name and the depth. *)
Theorem X8_accepted_signatures (h : Handler) :
  ((exists r, _process_args h = ok r)
   <-> exists first rest,
         parameters h = first :: rest
         /\ valid_context_annotation (annotation first) = true
         /\ Forall convertible rest)
  /\ (forall bot name it nested,
        coroutine it = Some h ->
        ((exists c, _create_command bot name it nested = ok c)
         <-> exists r, _process_args h = ok r)).
Proof.
  split.
  - split.
    + intros [[ps specs] H].
      destruct (_process_args_inv h ps specs H)
        as (first & rest & frame & processors & Hparams & Hvalid & L & _).
      exists first, rest. split; [exact Hparams|]. split; [exact Hvalid|].
      apply _process_args_loop_run in L. destruct L as ((specs' & _ & Hpub) & _).
      clear -Hpub. induction Hpub as [|p s rest specs' (_ & _ & _ & c & Hc) _ IH];
        constructor; auto.
      eexists. exact Hc.
    + intros (first & rest & Hparams & Hvalid & Hconv).
      unfold _process_args. rewrite Hparams, Hvalid. cbn [negb].
      destruct (_process_args_loop_total rest Hconv None [] []) as [[[frame processors] args] L].
      rewrite L. cbn [rbind raise ok]. destruct frame; eexists; reflexivity.
  - intros bot name it nested Hco. destruct it as [s doc pr co attrs]. cbn in Hco. subst co.
    rewrite _create_command_eq. cbn [rbind raise ok]. unfold SlashCommand_init.
    split.
    + intros [c H]. destruct (_process_args h) as [e|r]; [discriminate | eauto].
    + intros [[ps specs] H]. rewrite H. cbn [rbind raise ok]. eexists. reflexivity.
Qed.

Lemma X8_accepted_signatures_witness :
  (exists r, _process_args TwoParameters.tag = ok r)
  /\ ~ (exists r, _process_args UnionIntStr.echo = ok r).
Proof.
  split.
  - apply (proj1 (X8_accepted_signatures TwoParameters.tag)).
    exists Fixtures.ctx_param, [TwoParameters.target_param; TwoParameters.note_param].
    split; [reflexivity|]. split; [reflexivity|].
    repeat constructor; eexists; reflexivity.
  - intros H. apply (proj1 (X8_accepted_signatures UnionIntStr.echo)) in H.
    destruct H as (first & rest & Hparams & _ & Hconv).
    inversion Hparams; subst. inversion Hconv as [|p l [r Hr] _]; subst.
    discriminate Hr.
Defined.

(** ** Executing a command *)

Lemma execute_leaf self h w ctx p0 :
  handler self = Some h ->
  CommandsContext_init (payload w) = (ok ctx, p0) ->
  execute self w
  = bind (run_checks (name self) (checks self) ctx)
      (fun _ =>
         do! ctx_data := get_payload in
         do! data := lift (getitem ctx_data "data") in
         do! params := lift (getitem data "options") in
         do! args :=
           match _processors self with
           | Some processors => convert_args processors params 0 []
           | None => throw (TypeError "'NoneType' object is not iterable")
           end in
         log (EvInvoke (name self) ctx args) ;;;
         lift_app (handler_body h ctx args)) {| payload := p0; trace := trace w |}.
Proof.
  destruct self as [n dsc hd ar pr pv kids cks]. cbn [handler name checks _processors].
  intros -> Hctx. cbn [execute].
  rewrite (bind_lift_app_ok _ _ _ _ _ Hctx). reflexivity.
Qed.

(** A leaf whose context cannot be built raises what the construction
    raises. *)
Lemma execute_leaf_without_context self h w e p0 :
  handler self = Some h ->
  CommandsContext_init (payload w) = (raise e, p0) ->
  execute self w = (raise e, {| payload := p0; trace := trace w |}).
Proof.
  destruct self as [n dsc hd ar pr pv kids cks]. cbn [handler].
  intros -> Hctx. cbn [execute].
  now rewrite (bind_lift_app_raise _ _ _ _ _ Hctx).
Qed.

Lemma await_async_check c ctx w :
  await_check (AsyncCheck c) ctx w
  = (fst (check_body c ctx (payload w)),
     {| payload := snd (check_body c ctx (payload w));
        trace := trace w ++ [EvCheck (check_name c)] |}).
Proof.
  unfold await_check, run_check_body, bind, log, lift_app. cbn [payload trace].
  destruct (check_body c ctx (payload w)) as [[e|v] p']; reflexivity.
Qed.

Lemma run_checks_passing name pre rest ctx :
  forall w p1,
    passing pre ctx (payload w) = Some p1 ->
    run_checks name (map AsyncCheck pre ++ rest) ctx w
    = run_checks name rest ctx
        {| payload := p1; trace := trace w ++ map EvCheck (map check_name pre) |}.
Proof.
  induction pre as [|c pre IH]; intros w p1 H.
  - cbn in H. inversion H; subst. cbn. rewrite app_nil_r. now destruct w.
  - cbn [map app run_checks]. unfold bind at 1. rewrite await_async_check.
    cbn [passing] in H.
    destruct (check_body c ctx (payload w)) as [[e|v] p'] eqn:E; [discriminate|].
    cbn [fst snd]. destruct (value_truthy v); [|discriminate]. cbn [negb].
    rewrite (IH _ p1) by exact H. cbn [payload trace]. now rewrite <- app_assoc.
Qed.

(** X9: the checks of a command run in order, after the context is built,
    each on the payload as the previous step left it.  At the first async
    check that returns a falsy value, [execute] raises [CheckFailure] naming
    the command; at the first one that raises, it raises that exception.
    In both cases the later checks are not run, no argument is converted
    and the handler is not called. *)
Theorem X9_first_failing_check_stops (self : SlashCommand) (h : Handler) (w : world)
    (ctx : CommandsContext) (pre post : list check_fn) (c : check_fn) (p0 p1 : json) :
  handler self = Some h ->
  checks self = map AsyncCheck (pre ++ c :: post) ->
  CommandsContext_init (payload w) = (ok ctx, p0) ->
  passing pre ctx p0 = Some p1 ->
  let asked := trace w ++ map EvCheck (map check_name (pre ++ [c])) in
  (forall v p2,
     check_body c ctx p1 = (ok v, p2) -> value_truthy v = false ->
     execute self w
     = (raise (CheckFailure ("The check functions for command " +:+ name self +:+ " failed.")),
        {| payload := p2; trace := asked |}))
  /\ (forall e p2,
        check_body c ctx p1 = (raise e, p2) ->
        execute self w = (raise e, {| payload := p2; trace := asked |})).
Proof.
  intros Hh Hchecks Hctx Hpre asked.
  assert (Hrun : forall k : unit -> M unit,
             bind (run_checks (name self) (checks self) ctx) k
               {| payload := p0; trace := trace w |}
             = bind (run_checks (name self) (AsyncCheck c :: map AsyncCheck post) ctx) k
                 {| payload := p1; trace := trace w ++ map EvCheck (map check_name pre) |}).
  { intros k. unfold bind. rewrite Hchecks, map_app.
    rewrite (run_checks_passing _ _ _ _ {| payload := p0; trace := trace w |} p1 Hpre).
    reflexivity. }
  rewrite (execute_leaf self h w ctx p0 Hh Hctx), Hrun.
  subst asked. rewrite !map_app, app_assoc. cbn [map].
  split.
  - intros v p2 Hc Hv. unfold bind. cbn [run_checks]. unfold bind.
    rewrite await_async_check. cbn [payload trace]. rewrite Hc. cbn [fst snd].
    unfold ok. cbv beta iota. rewrite Hv. reflexivity.
  - intros e p2 Hc. unfold bind. cbn [run_checks]. unfold bind.
    rewrite await_async_check. cbn [payload trace]. rewrite Hc. reflexivity.
Qed.

Lemma X9_first_failing_check_stops_witness :
  checks Membership.node
    = map AsyncCheck ([Membership.is_member] ++ Membership.is_owner :: [Membership.is_sober])
  /\ execute Membership.node (Fixtures.fresh Membership.event_)
     = (raise (CheckFailure "The check functions for command purge failed."),
        {| payload := Fixtures.interaction_seen "purge" (JList []);
           trace := [EvCheck "is_member"; EvCheck "is_owner"] |}).
Proof.
  split; [reflexivity|].
  destruct (X9_first_failing_check_stops Membership.node
              (reverse_checks_in_place Membership.purge)
              (Fixtures.fresh Membership.event_) Membership.context
              [Membership.is_member] [Membership.is_sober] Membership.is_owner
              (Fixtures.interaction_seen "purge" (JList []))
              (Fixtures.interaction_seen "purge" (JList []))
              eq_refl eq_refl eq_refl eq_refl) as (Hfalsy & _).
  exact (Hfalsy (VJson (JBool false)) (Fixtures.interaction_seen "purge" (JList []))
           eq_refl eq_refl).
Defined.

(** X10: a group refuses an event it cannot route with [BadArgument] and
    leaves the payload and the trace as they were: when [data.options] does
    not hold exactly one option, when that option's type is neither 1 nor
    2, and when it names no child.  In the last case the message reads
    [Unknown subcommand "None"]: it formats the result of the failed lookup,
    not the name that was asked for. *)
Theorem X10_unroutable_events_are_refused (self : SlashCommand) (w : world)
    (top data : list (string * json)) (options : json) :
  handler self = None ->
  payload w = JDict top ->
  assoc_get "data" top = Some (JDict data) ->
  assoc_get "options" data = Some options ->
  (forall n,
     py_len options = ok n -> n <> 1 ->
     execute self w
     = (raise (BadArgument "Expected type option, found weird argument set."), w))
  /\ (forall base_option ty,
        options = JList [base_option] ->
        getitem base_option "type" = ok ty ->
        in_1_2 ty = ok false ->
        execute self w
        = (raise (BadArgument "First argument is not a sub-command type."), w))
  /\ (forall base_option ty k,
        options = JList [base_option] ->
        getitem base_option "type" = ok ty ->
        in_1_2 ty = ok true ->
        getitem base_option "name" = ok (JStr k) ->
        assoc_get k (children self) = None ->
        execute self w
        = (raise (BadArgument ("Unknown subcommand " +:+ dquote +:+ "None" +:+ dquote)), w)).
Proof.
  destruct self as [n0 dsc hd ar pr pv kids cks]. cbn [handler children].
  intros -> Hp Hd Ho. cbn [execute].
  rewrite bind_get_payload, Hp.
  rewrite (bind_lift_ok _ _ _ _ (getitem_found _ _ _ Hd)).
  rewrite (bind_lift_ok _ _ _ _ (getitem_found _ _ _ Ho)).
  split; [|split].
  - intros n Hn Hne. rewrite (bind_lift_ok _ _ _ _ Hn).
    apply Nat.eqb_neq in Hne. rewrite Hne. reflexivity.
  - intros base_option ty -> Hty Hsub.
    rewrite (bind_lift_ok (py_len (JList [base_option])) 1) by reflexivity.
    cbn [Nat.eqb negb].
    rewrite (bind_lift_ok (getindex (JList [base_option]) 0) base_option) by reflexivity.
    rewrite (bind_lift_ok _ _ _ _ Hty), (bind_lift_ok _ _ _ _ Hsub). reflexivity.
  - intros base_option ty k -> Hty Hsub Hname Hchild.
    rewrite (bind_lift_ok (py_len (JList [base_option])) 1) by reflexivity.
    cbn [Nat.eqb negb].
    rewrite (bind_lift_ok (getindex (JList [base_option]) 0) base_option) by reflexivity.
    rewrite (bind_lift_ok _ _ _ _ Hty), (bind_lift_ok _ _ _ _ Hsub).
    cbn [negb]. rewrite (bind_lift_ok _ _ _ _ Hname). cbn [as_key].
    rewrite with_child_assoc, Hchild. reflexivity.
Qed.

Lemma X10_unroutable_events_are_refused_witness :
  execute Greet.root_node (Fixtures.fresh (Fixtures.interaction "greet" (JList [])))
    = (raise (BadArgument "Expected type option, found weird argument set."),
       Fixtures.fresh (Fixtures.interaction "greet" (JList [])))
  /\ execute Greet.root_node
       (Fixtures.fresh
          (Fixtures.interaction "greet"
             (JList [JDict [("name", JStr "channel"); ("type", JInt 1)]])))
     = (raise (BadArgument ("Unknown subcommand " +:+ dquote +:+ "None" +:+ dquote)),
        Fixtures.fresh
          (Fixtures.interaction "greet"
             (JList [JDict [("name", JStr "channel"); ("type", JInt 1)]]))).
Proof.
  split.
  - destruct (X10_unroutable_events_are_refused Greet.root_node
                (Fixtures.fresh (Fixtures.interaction "greet" (JList [])))
                [ ("type", JInt 2); ("id", JStr "900"); ("token", JStr "aW50ZXJhY3Rpb24");
                  ("channel_id", JStr "10"); ("guild_id", JStr "20");
                  ("member", Fixtures.caller);
                  ("data", JDict [("name", JStr "greet"); ("options", JList [])]) ]
                [("name", JStr "greet"); ("options", JList [])] (JList [])
                eq_refl eq_refl eq_refl eq_refl) as (Hcount & _ & _).
    apply (Hcount 0); [reflexivity | lia].
  - destruct (X10_unroutable_events_are_refused Greet.root_node
                (Fixtures.fresh
                   (Fixtures.interaction "greet"
                      (JList [JDict [("name", JStr "channel"); ("type", JInt 1)]])))
                [ ("type", JInt 2); ("id", JStr "900"); ("token", JStr "aW50ZXJhY3Rpb24");
                  ("channel_id", JStr "10"); ("guild_id", JStr "20");
                  ("member", Fixtures.caller);
                  ("data", JDict [ ("name", JStr "greet");
                                   ("options",
                                    JList [JDict [("name", JStr "channel");
                                                  ("type", JInt 1)]]) ]) ]
                [ ("name", JStr "greet");
                  ("options", JList [JDict [("name", JStr "channel"); ("type", JInt 1)]]) ]
                (JList [JDict [("name", JStr "channel"); ("type", JInt 1)]])
                eq_refl eq_refl eq_refl eq_refl) as (_ & _ & Hunknown).
    apply (Hunknown (JDict [("name", JStr "channel"); ("type", JInt 1)]) (JInt 1) "channel");
      reflexivity.
Defined.

(** X11: a command with a handler reads [data.options] after its checks,
    whether or not the handler takes options: when the payload carries no
    [options] key, [execute] raises [KeyError('options')] and the handler is
    not called. *)
Theorem X11_leaf_needs_the_options_key (self : SlashCommand) (h : Handler) (w w1 : world)
    (ctx : CommandsContext) (p0 : json) (top data : list (string * json)) :
  handler self = Some h ->
  CommandsContext_init (payload w) = (ok ctx, p0) ->
  run_checks (name self) (checks self) ctx {| payload := p0; trace := trace w |}
    = (ok tt, w1) ->
  payload w1 = JDict top ->
  assoc_get "data" top = Some (JDict data) ->
  assoc_get "options" data = None ->
  execute self w = (raise (KeyError "options"), w1).
Proof.
  intros Hh Hctx Hrun Hp Hd Ho.
  rewrite (execute_leaf self h w ctx p0 Hh Hctx).
  rewrite (run_bind_ok _ _ _ _ _ Hrun).
  rewrite bind_get_payload, Hp.
  rewrite (bind_lift_ok _ _ _ _ (getitem_found _ _ _ Hd)).
  rewrite (bind_lift_raise _ _ _ _ (getitem_missing _ _ Ho)). reflexivity.
Qed.

Lemma X11_leaf_needs_the_options_key_witness :
  execute Ping.node (Fixtures.fresh Ping.event_)
  = (raise (KeyError "options"), Fixtures.fresh Ping.event_seen).
Proof.
  exact (X11_leaf_needs_the_options_key Ping.node (reverse_checks_in_place Ping.ping)
           (Fixtures.fresh Ping.event_) (Fixtures.fresh Ping.event_seen) Ping.context
           Ping.event_seen (Ping.fields_of Fixtures.caller_seen) Ping.inner
           eq_refl eq_refl eq_refl eq_refl eq_refl eq_refl).
Defined.

(** ** The listener and the router *)

(** X13: the socket listener leaves the message and the trace untouched
    unless the message is an [INTERACTION_CREATE] whose payload has type 2:
    other gateway events are skipped, and a payload of another type (a
    component interaction, type 3, is handed to the router) is dropped by
    the router without any report.  For type 2 the listener returns what the
    router returns, and what the router wrote into the payload shows under
    [message["d"]]. *)
Theorem X13_only_application_commands_are_routed (commands : gmap string SlashCommand)
    (message : json) (fields : list (string * json)) (t : json) (events : list event) :
  message = JDict fields ->
  assoc_get "t" fields = Some t ->
  (py_eq t (JStr "INTERACTION_CREATE") = false ->
     on_socket_response commands message events = (ok tt, message, events))
  /\ (forall data ty,
        py_eq t (JStr "INTERACTION_CREATE") = true ->
        assoc_get "d" fields = Some data ->
        getitem data "type" = ok ty ->
        py_eq ty (JInt 2) = false ->
        on_socket_response commands message events = (ok tt, message, events))
  /\ (forall data ty,
        py_eq t (JStr "INTERACTION_CREATE") = true ->
        assoc_get "d" fields = Some data ->
        getitem data "type" = ok ty ->
        py_eq ty (JInt 2) = true ->
        let run := _process_interaction commands {| payload := data; trace := events |} in
        on_socket_response commands message events
        = (fst run, JDict (assoc_set "d" (payload (snd run)) fields), trace (snd run))).
Proof.
  intros -> Ht. unfold on_socket_response.
  rewrite (getitem_found _ _ _ Ht). unfold ok. cbv beta iota.
  split; [|split].
  - intros Hne. now rewrite Hne.
  - intros data ty Heq Hd Hty Hne. rewrite Heq. cbn [negb].
    rewrite (getitem_found _ _ _ Hd). unfold ok. cbv beta iota.
    rewrite Hty. unfold ok. cbv beta iota.
    destruct (in_2_3 ty); [|reflexivity].
    unfold _process_interaction. rewrite bind_get_payload. cbn [payload].
    rewrite (bind_lift_ok _ _ _ _ Hty), Hne. unfold ret. cbn [payload trace setitem].
    unfold ok. cbv beta iota. now rewrite (assoc_set_same _ _ _ Hd).
  - intros data ty Heq Hd Hty H2. rewrite Heq. cbn [negb].
    rewrite (getitem_found _ _ _ Hd). unfold ok. cbv beta iota.
    rewrite Hty. unfold ok. cbv beta iota.
    unfold in_2_3. rewrite H2. cbn [orb].
    destruct (_process_interaction commands _) as [r w']. reflexivity.
Qed.

Lemma X13_only_application_commands_are_routed_witness :
  on_socket_response Ping.registry (Ping.gateway "MESSAGE_CREATE" Ping.event_) []
    = (ok tt, Ping.gateway "MESSAGE_CREATE" Ping.event_, [])
  /\ on_socket_response Ping.registry
       (Ping.gateway "INTERACTION_CREATE" (JDict [("type", JInt 3); ("id", JStr "901")])) []
     = (ok tt,
        Ping.gateway "INTERACTION_CREATE" (JDict [("type", JInt 3); ("id", JStr "901")]), []).
Proof.
  split.
  - destruct (X13_only_application_commands_are_routed Ping.registry
                (Ping.gateway "MESSAGE_CREATE" Ping.event_)
                [("op", JInt 0); ("t", JStr "MESSAGE_CREATE"); ("s", JInt 42);
                 ("d", Ping.event_)]
                (JStr "MESSAGE_CREATE") [] eq_refl eq_refl) as (Hskip & _ & _).
    apply Hskip. reflexivity.
  - destruct (X13_only_application_commands_are_routed Ping.registry
                (Ping.gateway "INTERACTION_CREATE"
                   (JDict [("type", JInt 3); ("id", JStr "901")]))
                [("op", JInt 0); ("t", JStr "INTERACTION_CREATE"); ("s", JInt 42);
                 ("d", JDict [("type", JInt 3); ("id", JStr "901")])]
                (JStr "INTERACTION_CREATE") [] eq_refl eq_refl) as (_ & Hdrop & _).
    apply (Hdrop (JDict [("type", JInt 3); ("id", JStr "901")]) (JInt 3)); reflexivity.
Defined.

(** X14: when the lookup, the walk, the checks, the conversion and the
    handler all return, the router returns with the world as the handler
    left it, and nothing was dispatched on the bot. *)
Theorem X14_success_dispatches_nothing (commands : gmap string SlashCommand) (w w1 : world)
    (ty inner command_name : json) :
  getitem (payload w) "type" = ok ty ->
  py_eq ty (JInt 2) = true ->
  getitem (payload w) "data" = ok inner ->
  getitem inner "name" = ok command_name ->
  resolve_and_execute commands command_name w = (ok tt, w1) ->
  _process_interaction commands w = (ok tt, w1)
  /\ dispatch_count w1 = dispatch_count w.
Proof.
  intros Hty H2 Hd Hn Hrun.
  rewrite (_process_interaction_application_command commands w ty inner command_name
             Hty H2 Hd Hn).
  unfold try_except. rewrite Hrun. split; [reflexivity|].
  destruct (quiet_resolve_and_execute commands command_name w) as (evs & Htrace & Hnone).
  rewrite Hrun in Htrace. cbn [snd] in Htrace.
  unfold dispatch_count. rewrite Htrace, List.filter_app, Hnone, app_nil_r. reflexivity.
Qed.

Lemma X14_success_dispatches_nothing_witness :
  fst (_process_interaction TwoParameters.registry (Fixtures.fresh TwoParameters.event_))
    = ok tt
  /\ dispatch_count
       (snd (_process_interaction TwoParameters.registry
               (Fixtures.fresh TwoParameters.event_))) = 0
  /\ payload
       (snd (_process_interaction TwoParameters.registry
               (Fixtures.fresh TwoParameters.event_)))
     = Fixtures.interaction_seen "tag"
         (JList [ Fixtures.option_with "target" (JStr "5");
                  Fixtures.option_with "note" (JStr "hi") ]).
Proof.
  destruct (resolve_and_execute TwoParameters.registry (JStr "tag")
              (Fixtures.fresh TwoParameters.event_)) as [[e|[]] w1] eqn:E;
    [vm_compute in E; discriminate|].
  destruct (X14_success_dispatches_nothing TwoParameters.registry
              (Fixtures.fresh TwoParameters.event_) w1 (JInt 2)
              (JDict [ ("name", JStr "tag");
                       ("options",
                        JList [ Fixtures.option_with "target" (JStr "5");
                                Fixtures.option_with "note" (JStr "hi") ]) ])
              (JStr "tag") eq_refl eq_refl eq_refl eq_refl E) as (Hrun & Hcount).
  rewrite Hrun. split; [reflexivity|]. split; [exact Hcount|].
  assert (Hw1 : payload (snd (resolve_and_execute TwoParameters.registry (JStr "tag")
                                (Fixtures.fresh TwoParameters.event_)))
                = Fixtures.interaction_seen "tag"
                    (JList [ Fixtures.option_with "target" (JStr "5");
                             Fixtures.option_with "note" (JStr "hi") ]))
    by (vm_compute; reflexivity).
  rewrite E in Hw1. exact Hw1.
Defined.

(** X16: the reads that precede the router's [try] are not covered by it: an
    event without [type], or an application command without [data] or
    without [data.name], makes the router raise [KeyError] into its caller;
    nothing is dispatched and the payload is not touched. *)
Theorem X16_malformed_events_escape (commands : gmap string SlashCommand) (w : world)
    (top : list (string * json)) :
  payload w = JDict top ->
  (assoc_get "type" top = None ->
     _process_interaction commands w = (raise (KeyError "type"), w))
  /\ (forall ty,
        assoc_get "type" top = Some ty -> py_eq ty (JInt 2) = true ->
        assoc_get "data" top = None ->
        _process_interaction commands w = (raise (KeyError "data"), w))
  /\ (forall ty inner,
        assoc_get "type" top = Some ty -> py_eq ty (JInt 2) = true ->
        assoc_get "data" top = Some (JDict inner) ->
        assoc_get "name" inner = None ->
        _process_interaction commands w = (raise (KeyError "name"), w)).
Proof.
  intros Hp. unfold _process_interaction. rewrite bind_get_payload, Hp.
  split; [|split].
  - intros Hty. now rewrite (bind_lift_raise _ _ _ _ (getitem_missing _ _ Hty)).
  - intros ty Hty H2 Hd.
    rewrite (bind_lift_ok _ _ _ _ (getitem_found _ _ _ Hty)), H2.
    now rewrite (bind_lift_raise _ _ _ _ (getitem_missing _ _ Hd)).
  - intros ty inner Hty H2 Hd Hn.
    rewrite (bind_lift_ok _ _ _ _ (getitem_found _ _ _ Hty)), H2.
    rewrite (bind_lift_ok _ _ _ _ (getitem_found _ _ _ Hd)).
    now rewrite (bind_lift_raise _ _ _ _ (getitem_missing _ _ Hn)).
Qed.

Lemma X16_malformed_events_escape_witness :
  _process_interaction Ping.registry
    (Fixtures.fresh (JDict [("type", JInt 2); ("id", JStr "900")]))
  = (raise (KeyError "data"), Fixtures.fresh (JDict [("type", JInt 2); ("id", JStr "900")])).
Proof.
  destruct (X16_malformed_events_escape Ping.registry
              (Fixtures.fresh (JDict [("type", JInt 2); ("id", JStr "900")]))
              [("type", JInt 2); ("id", JStr "900")] eq_refl) as (_ & Hdata & _).
  apply (Hdata (JInt 2)); reflexivity.
Defined.

(** ** Interactions from direct messages *)

Lemma CommandsContext_init_direct_message p :
  direct_message p -> CommandsContext_init p = (raise (KeyError "guild_id"), p).
Proof.
  intros (top & id & channel & n & -> & Hg & Hid & Hch & Hn).
  assert (Hchannel : _create_text_channel (JDict top) = ok n).
  { unfold _create_text_channel. rewrite (getitem_found _ _ _ Hch). exact Hn. }
  assert (Hdata : _create_message_payload (JDict top) = raise (KeyError "guild_id")).
  { unfold _create_message_payload.
    assert (Hm : exists member, dict_get (JDict top) "member" JNull = ok member)
      by (unfold dict_get; destruct (assoc_get "member" top); eauto).
    destruct Hm as [member ->]. cbn [rbind raise ok].
    rewrite (getitem_found _ _ _ Hid). cbn [rbind raise ok].
    rewrite (getitem_found _ _ _ Hch). cbn [rbind raise ok].
    rewrite (getitem_missing _ _ Hg). reflexivity. }
  assert (Hmsg : CommandsMessage_init (JDict top) = (raise (KeyError "guild_id"), JDict top)).
  { unfold CommandsMessage_init.
    rewrite (run_bind_ok get _ _ _ _ (run_get _)).
    rewrite (run_bind_lift _ _ _ _ Hchannel).
    now rewrite (run_bind_lift_raise _ _ _ _ Hdata). }
  unfold CommandsContext_init. now rewrite (run_bind_raise _ _ _ _ _ Hmsg).
Qed.

Lemma getitem_raises_Exception j k e : getitem j k = raise e -> isinstance_Exception e = true.
Proof.
  unfold getitem. destruct j as [| | | | |d]; try (intros H; inversion H; reflexivity).
  destruct (assoc_get k d); intros H; inversion H; reflexivity.
Qed.

Lemma setitem_raises_Exception j k v e :
  setitem j k v = raise e -> isinstance_Exception e = true.
Proof. destruct j; intros H; inversion H; reflexivity. Qed.

Lemma py_len_raises_Exception j e : py_len j = raise e -> isinstance_Exception e = true.
Proof. destruct j; intros H; inversion H; reflexivity. Qed.

Lemma getindex_raises_Exception j i e :
  getindex j i = raise e -> isinstance_Exception e = true.
Proof.
  unfold getindex. destruct j as [| | |s|l|d]; try (intros H; inversion H; reflexivity).
  - destruct (String.get i s); intros H; inversion H; reflexivity.
  - destruct (nth_error l i); intros H; inversion H; reflexivity.
Qed.

Lemma in_1_2_raises_Exception j e : in_1_2 j = raise e -> isinstance_Exception e = true.
Proof. destruct j; intros H; inversion H; reflexivity. Qed.

Lemma refused_throw {A : Type} (e : exn) (w : world) :
  isinstance_Exception e = true -> direct_message (payload w) ->
  refused_in_dm (throw e : M A) w.
Proof. intros He Hdm. exists e, w. auto. Qed.

Lemma refused_bind_get_payload {A : Type} (k : json -> M A) (w : world) :
  refused_in_dm (k (payload w)) w -> refused_in_dm (bind get_payload k) w.
Proof. unfold refused_in_dm. now rewrite bind_get_payload. Qed.

Lemma refused_bind_lift {A B : Type} (r : result A) (k : A -> M B) (w : world) :
  direct_message (payload w) ->
  (forall e, r = raise e -> isinstance_Exception e = true) ->
  (forall a, r = ok a -> refused_in_dm (k a) w) ->
  refused_in_dm (bind (lift r) k) w.
Proof.
  intros Hdm He Hk. destruct r as [e|a].
  - exists e, w. split; [reflexivity|]. split; [now apply He | auto].
  - unfold refused_in_dm. rewrite (bind_lift_ok (inr a) a) by reflexivity. now apply Hk.
Qed.

Lemma direct_message_set_data top v :
  direct_message (JDict top) -> direct_message (JDict (assoc_set "data" v top)).
Proof.
  intros (top' & id & channel & n & Heq & Hg & Hid & Hch & Hn). inversion Heq; subst top'.
  exists (assoc_set "data" v top), id, channel, n.
  rewrite !assoc_get_set_ne by discriminate. auto.
Qed.

Lemma refused_after_set_options {A : Type} (v : json) (m : M A) (w : world) :
  direct_message (payload w) ->
  (forall w', direct_message (payload w') -> trace w' = trace w -> refused_in_dm m w') ->
  refused_in_dm (set_options v ;;; m) w.
Proof.
  intros Hdm Hm.
  assert (Htop : exists top, payload w = JDict top)
    by (destruct Hdm as (top & _ & _ & _ & -> & _); eauto).
  destruct Htop as [top Hp].
  destruct (assoc_get "data" top) as [data|] eqn:Hd.
  - destruct (setitem data "options" v) as [e|data'] eqn:Hs.
    + exists e, w. split; [|split; [exact (setitem_raises_Exception _ _ _ _ Hs) | auto]].
      unfold bind at 1, set_options. rewrite bind_get_payload, Hp.
      rewrite (bind_lift_ok _ _ _ _ (getitem_found _ _ _ Hd)).
      now rewrite (bind_lift_raise _ _ _ _ Hs).
    + assert (Hrun : set_options v w
                     = (ok tt, {| payload := JDict (assoc_set "data" data' top);
                                  trace := trace w |})).
      { unfold set_options. rewrite bind_get_payload, Hp.
        rewrite (bind_lift_ok _ _ _ _ (getitem_found _ _ _ Hd)).
        rewrite (bind_lift_ok _ _ _ _ Hs). reflexivity. }
      destruct (Hm {| payload := JDict (assoc_set "data" data' top); trace := trace w |})
        as (e & w' & Hrun' & He & Hdm' & Htr).
      * cbn [payload]. apply direct_message_set_data. now rewrite <- Hp.
      * reflexivity.
      * exists e, w'. rewrite (run_bind_ok _ _ _ _ _ Hrun). auto.
  - exists (KeyError "data"), w. split; [|auto].
    unfold bind at 1, set_options. rewrite bind_get_payload, Hp.
    now rewrite (bind_lift_raise _ _ _ _ (getitem_missing _ _ Hd)).
Qed.

Lemma assoc_get_Forall {A : Type} (Q : A -> Prop) k (d : list (string * A)) v :
  Forall (fun kv => Q (snd kv)) d -> assoc_get k d = Some v -> Q v.
Proof.
  induction 1 as [|[k' v'] rest Hv _ IH]; simpl; [discriminate|].
  destruct (String.eqb k k'); [intros H; inversion H; subst; exact Hv | exact IH].
Qed.

Lemma execute_direct_message self :
  forall w, direct_message (payload w) -> refused_in_dm (execute self) w.
Proof.
  induction self as [self IH] using SlashCommand_tree_ind.
  destruct self as [n dsc hd ar pr pv kids cks]. cbn [children] in IH.
  intros w Hdm. destruct hd as [h|]; cbn [execute].
  - exists (KeyError "guild_id"), w.
    rewrite (bind_lift_app_raise _ _ _ _ _ (CommandsContext_init_direct_message _ Hdm)).
    destruct w. auto.
  - apply refused_bind_get_payload.
    apply refused_bind_lift; [exact Hdm | apply getitem_raises_Exception | intros data _].
    apply refused_bind_lift; [exact Hdm | apply getitem_raises_Exception | intros options _].
    apply refused_bind_lift; [exact Hdm | apply py_len_raises_Exception | intros len _].
    destruct (negb (len =? 1)%nat); [now apply refused_throw|].
    apply refused_bind_lift; [exact Hdm | apply getindex_raises_Exception | intros base _].
    apply refused_bind_lift; [exact Hdm | apply getitem_raises_Exception | intros ty _].
    apply refused_bind_lift; [exact Hdm | apply in_1_2_raises_Exception | intros is_sub _].
    destruct (negb is_sub); [now apply refused_throw|].
    apply refused_bind_lift; [exact Hdm | apply getitem_raises_Exception | intros child_name _].
    destruct (as_key child_name) as [k| |]; try now apply refused_throw.
    rewrite with_child_assoc.
    destruct (assoc_get k kids) as [child|] eqn:Hchild; [|now apply refused_throw].
    apply refused_bind_lift; [exact Hdm | apply getitem_raises_Exception | intros nested _].
    apply refused_after_set_options; [exact Hdm|].
    intros w' Hdm' Htr.
    exact (assoc_get_Forall (fun c => forall w, direct_message (payload w) ->
                                      refused_in_dm (execute c) w)
             k kids child IH Hchild w' Hdm').
Qed.

(** X15: an application command sent from a direct message (a payload
    without [guild_id]) is never served.  Whatever the registry holds, the
    lookup or the walk fails, or the command's context cannot be built; the
    router catches that, and building the context for the [command_error]
    report raises [KeyError('guild_id')] in turn, which leaves the router:
    no handler is called, no check is run and nothing is dispatched. *)
Theorem X15_direct_messages_crash_the_router (commands : gmap string SlashCommand)
    (w : world) (ty inner command_name : json) :
  direct_message (payload w) ->
  getitem (payload w) "type" = ok ty ->
  py_eq ty (JInt 2) = true ->
  getitem (payload w) "data" = ok inner ->
  getitem inner "name" = ok command_name ->
  exists w',
    _process_interaction commands w = (raise (KeyError "guild_id"), w')
    /\ trace w' = trace w
    /\ direct_message (payload w').
Proof.
  intros Hdm Hty H2 Hd Hn.
  rewrite (_process_interaction_application_command commands w ty inner command_name
             Hty H2 Hd Hn).
  assert (Hrun : refused_in_dm (resolve_and_execute commands command_name) w).
  { unfold resolve_and_execute, lookup_root.
    destruct (as_key command_name) as [k| |].
    - destruct (commands !! k) as [cmd|].
      + unfold refused_in_dm, bind, ret. now apply execute_direct_message.
      + exists (root_not_found command_name), w. auto.
    - exists (root_not_found command_name), w. auto.
    - exists (TypeError "unhashable type"), w. auto. }
  destruct Hrun as (e & w' & Hrun & He & Hdm' & Htr).
  exists w'. unfold try_except. rewrite Hrun. unfold raise. rewrite He.
  unfold report_error.
  rewrite (bind_lift_app_raise _ _ _ _ _ (CommandsContext_init_direct_message _ Hdm')).
  destruct w'. auto.
Qed.

Lemma X15_direct_messages_crash_the_router_witness :
  exists w',
    _process_interaction Ping.registry (Fixtures.fresh Ping.from_dm)
    = (raise (KeyError "guild_id"), w')
    /\ trace w' = []
    /\ direct_message (payload w').
Proof.
  apply (X15_direct_messages_crash_the_router Ping.registry (Fixtures.fresh Ping.from_dm)
           (JInt 2) (JDict [("name", JStr "ping"); ("options", JList [])]) (JStr "ping")).
  - eexists _, (JStr "900"), (JStr "10"), 10%Z.
    split; [reflexivity|]. repeat split; reflexivity.
  - reflexivity.
  - reflexivity.
  - reflexivity.
  - reflexivity.
Defined.

(** ** The registry and the trees in it *)

Lemma SlashCommand_init_fields bot n d h p c :
  SlashCommand_init bot n d h p = ok c ->
  name c = n /\ description c = d /\ private c = p.
Proof.
  unfold SlashCommand_init. destruct h as [h|]; cbn [rbind raise ok].
  - destruct (_process_args h) as [e|[ps specs]]; cbn [rbind raise ok]; [discriminate|].
    intros H. inversion H. auto.
  - intros H. inversion H. auto.
Qed.

Lemma _add_child_keeps self child c' :
  _add_child self child = ok c' ->
  name c' = name self /\ description c' = description self /\ private c' = private self.
Proof.
  unfold _add_child. destruct (handler self); [discriminate|].
  intros H. inversion H. auto.
Qed.

Lemma scan_attrs_keeps create keys :
  forall command c',
    scan_attrs create keys command = ok c' ->
    name c' = name command /\ description c' = description command
    /\ private c' = private command.
Proof.
  induction keys as [|[k attr] rest IH]; intros command c' Hscan; simpl in Hscan.
  - inversion Hscan. auto.
  - destruct (attr_truthy (_slash attr)) as [command_name|]; [|now apply IH].
    destruct (create command_name attr) as [e|sub]; cbn [rbind raise ok] in Hscan;
      [discriminate|].
    destruct (_add_child command sub) as [e|command1] eqn:Hadd; cbn [rbind raise ok] in Hscan;
      [discriminate|].
    apply IH in Hscan. apply _add_child_keeps in Hadd.
    destruct Hscan as (-> & -> & ->). exact Hadd.
Qed.

Lemma _create_command_fields bot key it nested c :
  _create_command bot key it nested = ok c ->
  name c = key
  /\ private c = _private it
  /\ description c = match attr_truthy (__doc__ it) with
                     | Some d => d
                     | None => EmptyString
                     end.
Proof.
  destruct it as [s doc pr h attrs]. rewrite _create_command_eq. cbn [_private __doc__].
  destruct h as [h|]; cbn [rbind raise ok].
  - destruct (SlashCommand_init bot key _ (Some h) pr) as [e|c0] eqn:Hinit;
      cbn [rbind raise ok]; [discriminate|].
    intros H. inversion H; subst c0.
    destruct (SlashCommand_init_fields _ _ _ _ _ _ Hinit) as (? & ? & ?). auto.
  - destruct (1 <? nested)%nat; cbn [rbind raise ok]; [discriminate|].
    destruct (SlashCommand_init bot key _ None pr) as [e|c0] eqn:Hinit;
      cbn [rbind raise ok]; [discriminate|].
    destruct (scan_attrs _ attrs c0) as [e|c1] eqn:Hscan; cbn [rbind raise ok];
      [discriminate|].
    destruct (length (children c1) =? 0)%nat; [discriminate|].
    intros H. inversion H; subst c1.
    destruct (SlashCommand_init_fields _ _ _ _ _ _ Hinit) as (Hn & Hd & Hp).
    destruct (scan_attrs_keeps _ _ _ _ Hscan) as (-> & -> & ->). auto.
Qed.

Lemma load_command_inv bot commands it commands' :
  load_command bot commands it = (ok tt, commands') ->
  exists key c,
    _slash it = Some key
    /\ _create_command bot key it 0 = ok c
    /\ commands' = <[key := c]> commands.
Proof.
  unfold load_command. destruct (_slash it) as [key|]; [|discriminate].
  destruct (_create_command bot key it 0) as [e|c] eqn:Hc; [discriminate|].
  intros H. inversion H. exists key, c. auto.
Qed.

(** X17: when [load_command] returns, the registry holds under the item's
    tag a command that carries the tag as its name and the item's privacy
    flag; the router's lookup of the tag finds it; whatever was registered
    under the tag before is replaced, and every other entry is as it was.
    When [load_command] raises, the registry is unchanged. *)
Theorem X17_load_command_registers (bot : Bot) (commands : gmap string SlashCommand)
    (it : item) :
  (forall commands',
     load_command bot commands it = (ok tt, commands') ->
     exists key c,
       _slash it = Some key
       /\ commands' !! key = Some c
       /\ name c = key
       /\ private c = _private it
       /\ (forall w, lookup_root commands' (JStr key) w = (ok c, w))
       /\ (forall other, other <> key -> commands' !! other = commands !! other))
  /\ (forall e commands',
        load_command bot commands it = (raise e, commands') -> commands' = commands).
Proof.
  split.
  - intros commands' H.
    destruct (load_command_inv _ _ _ _ H) as (key & c & Htag & Hc & ->).
    destruct (_create_command_fields _ _ _ _ _ Hc) as (Hname & Hprivate & _).
    exists key, c. split; [exact Htag|]. split; [apply lookup_insert_eq|].
    split; [exact Hname|]. split; [exact Hprivate|]. split.
    + intros w. unfold lookup_root. cbn [as_key]. now rewrite lookup_insert_eq.
    + intros other Hne. now apply lookup_insert_ne.
  - intros e commands'. unfold load_command.
    destruct (_slash it) as [key|]; [|intros H; now inversion H].
    destruct (_create_command bot key it 0); intros H; now inversion H.
Qed.

Lemma X17_load_command_registers_witness :
  exists c,
    Ping.registry !! "ping" = Some c
    /\ name c = "ping"
    /\ private c = false.
Proof.
  unfold Ping.registry, Fixtures.registry_of.
  destruct (load_command Fixtures.quiet_bot ∅ (Fixtures.command_item "ping" Ping.ping))
    as [[e|[]] commands'] eqn:E; [vm_compute in E; discriminate|].
  destruct (proj1 (X17_load_command_registers Fixtures.quiet_bot ∅
                     (Fixtures.command_item "ping" Ping.ping)) commands' E)
    as (key & c & Htag & Hc & Hname & Hprivate & _).
  cbn in Htag. assert (Hkey : key = "ping") by congruence. rewrite Hkey in Hc, Hname.
  exists c. cbn [snd]. split; [exact Hc|]. split; [exact Hname | exact Hprivate].
Defined.

(** X18: unloading the tag of an item that was just loaded succeeds and
    removes exactly that entry; if the tag was free before the load, the
    registry is back to what it was. *)
Theorem X18_load_then_unload (bot : Bot) (commands commands' : gmap string SlashCommand)
    (it : item) :
  load_command bot commands it = (ok tt, commands') ->
  exists key,
    _slash it = Some key
    /\ unload_command commands' key = (ok tt, delete key commands)
    /\ (commands !! key = None -> unload_command commands' key = (ok tt, commands)).
Proof.
  intros H. destruct (load_command_inv _ _ _ _ H) as (key & c & Htag & _ & ->).
  exists key. split; [exact Htag|].
  assert (Hun : unload_command (<[key := c]> commands) key = (ok tt, delete key commands)).
  { unfold unload_command. rewrite lookup_insert_eq. now rewrite delete_insert_eq. }
  split; [exact Hun|].
  intros Hfree. rewrite Hun. now rewrite delete_id.
Qed.

Lemma X18_load_then_unload_witness :
  unload_command Ping.registry "ping" = (ok tt, ∅).
Proof.
  unfold Ping.registry, Fixtures.registry_of.
  destruct (load_command Fixtures.quiet_bot ∅ (Fixtures.command_item "ping" Ping.ping))
    as [[e|[]] commands'] eqn:E; [vm_compute in E; discriminate|].
  destruct (X18_load_then_unload Fixtures.quiet_bot ∅ commands'
              (Fixtures.command_item "ping" Ping.ping) E) as (key & Htag & _ & Hback).
  cbn in Htag. assert (Hkey : key = "ping") by congruence. rewrite Hkey in Hback.
  cbn [snd]. apply Hback. apply lookup_empty.
Defined.

Lemma assoc_set_keys {A : Type} k (v : A) (d : list (string * A)) :
  forall x, In x (map fst (assoc_set k v d)) <-> In x (map fst d) \/ x = k.
Proof.
  intros x. destruct (assoc_get k d) as [v0|] eqn:E.
  - rewrite assoc_set_keys_in by congruence. split; [auto|].
    intros [H| ->]; [exact H|].
    clear -E. induction d as [|[k' v'] rest IH]; simpl in *; [discriminate|].
    destruct (String.eqb k k') eqn:Ek; [apply String.eqb_eq in Ek; auto | auto].
  - rewrite assoc_set_keys_new by exact E. rewrite in_app_iff. simpl. intuition.
Qed.

Lemma assoc_set_NoDup {A : Type} k (v : A) (d : list (string * A)) :
  NoDup (map fst d) -> NoDup (map fst (assoc_set k v d)).
Proof.
  intros Hd. destruct (assoc_get k d) as [v0|] eqn:E.
  - now rewrite assoc_set_keys_in by congruence.
  - rewrite assoc_set_keys_new by exact E. apply NoDup_app. split; [exact Hd|].
    split; [|apply NoDup_singleton].
    intros x Hx Hin. apply list_elem_of_In in Hx, Hin. simpl in Hin.
    destruct Hin as [<-|[]]. exact (assoc_get_None_notin _ _ E Hx).
Qed.

Lemma assoc_set_Forall_keyed {A : Type} (R : string -> A -> Prop) k (v : A)
    (d : list (string * A)) :
  R k v -> Forall (fun kv => R (fst kv) (snd kv)) d ->
  Forall (fun kv => R (fst kv) (snd kv)) (assoc_set k v d).
Proof.
  intros Hv. induction 1 as [|[k' v'] rest Hhead Hrest IH]; simpl.
  - constructor; [exact Hv | constructor].
  - destruct (String.eqb k k'); constructor; auto.
Qed.

Lemma tags_cons key attr rest :
  tags ((key, attr) :: rest)
  = match attr_truthy (_slash attr) with
    | Some tag => tag :: tags rest
    | None => tags rest
    end.
Proof. reflexivity. Qed.

Lemma scan_attrs_keys create keys :
  (forall n a c, create n a = ok c -> name c = n) ->
  forall command c',
    scan_attrs create keys command = ok c' ->
    keyed command ->
    keyed c'
    /\ forall k, In k (map fst (children c'))
                 <-> In k (map fst (children command)) \/ In k (tags keys).
Proof.
  intros Hcreate.
  induction keys as [|[key attr] rest IH]; intros command c' Hscan Hkeyed; simpl in Hscan.
  - inversion Hscan; subst. split; [exact Hkeyed|]. intros k. cbn. tauto.
  - rewrite tags_cons.
    destruct (attr_truthy (_slash attr)) as [command_name|].
    + destruct (create command_name attr) as [e|sub] eqn:Hsub; cbn [rbind raise ok] in Hscan;
        [discriminate|].
      destruct (_add_child command sub) as [e|command1] eqn:Hadd;
        cbn [rbind raise ok] in Hscan; [discriminate|].
      apply _add_child_ok in Hadd. destruct Hadd as (_ & _ & Hkids).
      pose proof (Hcreate _ _ _ Hsub) as Hname.
      destruct (IH command1 c' Hscan) as (Hk & Hin).
      { destruct Hkeyed as [Hnodup Hnames]. split; rewrite Hkids.
        - now apply assoc_set_NoDup.
        - apply (assoc_set_Forall_keyed (fun k c => k = name c)); auto. }
      split; [exact Hk|].
      intros k. rewrite Hin, Hkids, assoc_set_keys, Hname. cbn. intuition.
    + apply IH; assumption.
Qed.

Lemma scan_attrs_untagged create keys command :
  tags keys = [] -> scan_attrs create keys command = ok command.
Proof.
  induction keys as [|[key attr] rest IH]; [reflexivity|].
  rewrite tags_cons. simpl.
  destruct (attr_truthy (_slash attr)); [discriminate | exact IH].
Qed.

(** X19: in every tree that [_create_command] builds, each node holds its
    children under their own names, each name once; and the children of a
    node built from an object are exactly the non-empty [_slash] tags among
    the object's attributes (two attributes with the same tag leave one
    child). *)
Theorem X19_children_are_the_tagged_attributes (bot : Bot) (key : string) (it : item)
    (nested : nat) (c : SlashCommand) :
  _create_command bot key it nested = ok c ->
  Forall keyed (nodes c)
  /\ (coroutine it = None ->
      forall k, In k (map fst (children c)) <-> In k (tags (attributes it))).
Proof.
  revert key nested c. induction it as [[s doc pr h attrs] IH] using item_tree_ind.
  simpl in IH. intros key nested c. rewrite _create_command_eq. cbn [coroutine attributes].
  destruct h as [h|]; cbn [rbind raise ok].
  - destruct (SlashCommand_init bot key _ (Some h) pr) as [e|c0] eqn:Hinit;
      cbn [rbind raise ok]; [discriminate|].
    intros Hc. inversion Hc; subst c0. apply SlashCommand_init_ok in Hinit.
    destruct Hinit as [Hkids _]. split; [|discriminate].
    rewrite nodes_children, Hkids. simpl. constructor; [|constructor].
    unfold keyed. rewrite Hkids. split; constructor.
  - destruct (1 <? nested)%nat; cbn [rbind raise ok]; [discriminate|].
    destruct (SlashCommand_init bot key _ None pr) as [e|c0] eqn:Hinit;
      cbn [rbind raise ok]; [discriminate|].
    apply SlashCommand_init_ok in Hinit. destruct Hinit as [Hkids0 Hh0].
    destruct (scan_attrs _ attrs c0) as [e|c1] eqn:Hscan; cbn [rbind raise ok];
      [discriminate|].
    destruct (length (children c1) =? 0)%nat; [discriminate|].
    intros Hc. inversion Hc; subst c1. clear Hc.
    assert (Hsubs : Forall (fun kc => Forall keyed (nodes (snd kc))) (children c)).
    { eapply (scan_attrs_ok (fun sub => Forall keyed (nodes sub)));
        [|exact Hscan|exact Hh0|rewrite Hkids0; constructor].
      eapply Forall_impl; [exact IH|]. simpl. intros ka Hka n sub Hsub.
      exact (proj1 (Hka n (S nested) sub Hsub)). }
    destruct (scan_attrs_keys _ attrs
                (fun n a sub Hsub => proj1 (_create_command_fields bot n a (S nested) sub Hsub))
                c0 c Hscan) as (Hkeyed & Hin).
    { unfold keyed. rewrite Hkids0. split; constructor. }
    split.
    + rewrite nodes_children. constructor; [exact Hkeyed|].
      clear -Hsubs. induction Hsubs as [|kc rest Hkc _ IHrest]; simpl;
        [constructor | apply Forall_app; split; assumption].
    + intros _ k. rewrite Hin, Hkids0. cbn. tauto.
Qed.

Lemma X19_children_are_the_tagged_attributes_witness :
  Forall keyed (nodes Greet.root_node)
  /\ forall k, In k (map fst (children Greet.root_node)) <-> In k ["user"].
Proof.
  destruct (X19_children_are_the_tagged_attributes Fixtures.quiet_bot "greet" Greet.greet 0
              Greet.root_node eq_refl) as (Hkeyed & Hkids).
  split; [exact Hkeyed | exact (Hkids eq_refl)].
Defined.

(** X20: an object that is not a coroutine function becomes a command only
    if it has at least one attribute with a non-empty [_slash] tag: without
    one, [_create_command] raises [TypeError] at depth 0 and 1; at any
    greater depth it raises [RecursionError] whatever the attributes. *)
Theorem X20_groups_need_children (bot : Bot) (key : string) (it : item) (nested : nat) :
  coroutine it = None ->
  (1 < nested ->
     _create_command bot key it nested = raise (RecursionError "Command is nested too deep."))
  /\ (nested <= 1 -> tags (attributes it) = [] ->
        _create_command bot key it nested
        = raise (TypeError "A sub-command class requires children.")).
Proof.
  destruct it as [s doc pr h attrs]. cbn [coroutine attributes]. intros ->.
  rewrite _create_command_eq. split.
  - intros Hdeep. apply Nat.ltb_lt in Hdeep. now rewrite Hdeep.
  - intros Hshallow Htags. apply Nat.ltb_ge in Hshallow. rewrite Hshallow.
    cbn [rbind raise ok].
    destruct (SlashCommand_init_group bot key
                match attr_truthy doc with Some d => d | None => EmptyString end pr)
      as [c0 Hinit].
    rewrite Hinit. cbn [rbind raise ok].
    rewrite (scan_attrs_untagged _ _ _ Htags). cbn [rbind raise ok].
    apply SlashCommand_init_ok in Hinit. destruct Hinit as [-> _]. reflexivity.
Qed.

Lemma X20_groups_need_children_witness :
  _create_command Fixtures.quiet_bot "empty" (Fixtures.parent_item "empty" []) 0
    = raise (TypeError "A sub-command class requires children.")
  /\ _create_command Fixtures.quiet_bot "inner" Nested.inner 2
     = raise (RecursionError "Command is nested too deep.").
Proof.
  split.
  - apply (X20_groups_need_children Fixtures.quiet_bot "empty"
             (Fixtures.parent_item "empty" []) 0 eq_refl); [lia | reflexivity].
  - apply (X20_groups_need_children Fixtures.quiet_bot "inner" Nested.inner 2 eq_refl). lia.
Defined.

(** ** Publishing the commands *)

Lemma SlashCommand_init_leaf bot n d h p c :
  SlashCommand_init bot n d (Some h) p = ok c ->
  exists ps specs,
    _process_args h = ok (ps, specs)
    /\ args c = specs
    /\ _processors c = Some ps
    /\ handler c = Some (reverse_checks_in_place h)
    /\ checks c = _get_checks bot (Some h).
Proof.
  unfold SlashCommand_init.
  destruct (_process_args h) as [e|[ps specs]]; cbn [rbind raise ok]; [discriminate|].
  intros H. inversion H. exists ps, specs. auto.
Qed.

Lemma _create_command_leaf bot key it nested h c :
  coroutine it = Some h ->
  _create_command bot key it nested = ok c ->
  SlashCommand_init bot key
    match attr_truthy (__doc__ it) with Some d => d | None => EmptyString end
    (Some h) (_private it) = ok c.
Proof.
  destruct it as [s doc pr co attrs]. cbn [coroutine __doc__ _private]. intros ->.
  rewrite _create_command_eq. cbn [rbind raise ok].
  destruct (SlashCommand_init bot key _ (Some h) pr) as [e|c0]; cbn [rbind raise ok];
    [discriminate|]. intros H. now inversion H.
Qed.

Lemma _create_command_group bot key it nested c :
  coroutine it = None ->
  _create_command bot key it nested = ok c ->
  is_group c.
Proof.
  destruct it as [s doc pr co attrs]. cbn [coroutine]. intros ->.
  rewrite _create_command_eq.
  destruct (1 <? nested)%nat; cbn [rbind raise ok]; [discriminate|].
  destruct (SlashCommand_init bot key _ None pr) as [e|c0] eqn:Hinit;
    cbn [rbind raise ok]; [discriminate|].
  apply SlashCommand_init_ok in Hinit. destruct Hinit as [Hkids0 Hh0].
  destruct (scan_attrs _ attrs c0) as [e|c1] eqn:Hscan; cbn [rbind raise ok];
    [discriminate|].
  destruct (length (children c1) =? 0)%nat eqn:Hlen; [discriminate|].
  intros H. inversion H; subst c1.
  assert (Hh : has_handler c = false /\ Forall (fun kc => True) (children c)
               /\ (children c0 <> [] -> children c <> [])).
  { eapply (scan_attrs_ok (fun _ => True));
      [|exact Hscan|exact Hh0|rewrite Hkids0; constructor].
    apply Forall_forall. auto. }
  destruct Hh as (Hh & _ & _).
  split.
  - unfold has_handler in Hh. destruct (handler c); [discriminate | reflexivity].
  - intros Hnil. rewrite Hnil in Hlen. discriminate.
Qed.

Lemma _cmd_to_dict_group c :
  is_group c ->
  _cmd_to_dict c = raise (AttributeError "'str' object has no attribute 'handler'").
Proof.
  intros [Hh Hkids]. unfold _cmd_to_dict. rewrite Hh.
  destruct (children c); [congruence | reflexivity].
Qed.


Lemma _cmd_to_dict_leaf c : has_handler c = true -> _cmd_to_dict c = ok (leaf_dict c).
Proof.
  unfold has_handler, _cmd_to_dict. destruct (handler c); [reflexivity | discriminate].
Qed.

(** X21: [_cmd_to_dict] serves commands with a handler only.  For a command
    built from a coroutine function it returns the name, the description
    and one option per parameter after the context, in order, each with a
    numeric type from 3 to 9, the parameter's name and its required flag.
    For a command built from any other object, a group, it raises
    [AttributeError]: the loop over [enumerate(cmd.children)] runs over the
    keys of the dict and reads [.handler] of a string. *)
Theorem X21_only_leaves_are_serialised (bot : Bot) (key : string) (it : item) (nested : nat)
    (c : SlashCommand) :
  _create_command bot key it nested = ok c ->
  (coroutine it = None ->
     _cmd_to_dict c = raise (AttributeError "'str' object has no attribute 'handler'"))
  /\ (forall h first rest,
        coroutine it = Some h ->
        parameters h = first :: rest ->
        exists options,
          _cmd_to_dict c
          = ok (JDict [ ("name", JStr key);
                        ("description",
                         JStr match attr_truthy (__doc__ it) with
                              | Some d => d
                              | None => EmptyString
                              end);
                        ("options", JList options) ])
          /\ Forall2 (fun p o => exists n, (3 <= n <= 9)%Z /\ o = option_dict p n)
               rest options).
Proof.
  intros Hc. split.
  - intros Hco. apply _cmd_to_dict_group. exact (_create_command_group _ _ _ _ _ Hco Hc).
  - intros h first rest Hco Hparams.
    pose proof (_create_command_leaf _ _ _ _ _ _ Hco Hc) as Hinit.
    destruct (SlashCommand_init_fields _ _ _ _ _ _ Hinit) as (Hname & Hdesc & _).
    destruct (SlashCommand_init_leaf _ _ _ _ _ _ Hinit) as (ps & specs & Hargs & Hspecs & _ & Hh & _).
    exists (map ArgSpec_dict specs). split.
    + rewrite _cmd_to_dict_leaf by (unfold has_handler; now rewrite Hh).
      unfold leaf_dict. now rewrite Hname, Hdesc, Hspecs.
    + destruct (_process_args_inv h ps specs Hargs)
        as (first' & rest' & frame & processors & Hparams' & _ & L & _).
      rewrite Hparams in Hparams'. inversion Hparams'; subst first' rest'.
      apply _process_args_loop_run in L. destruct L as ((specs' & Heq & Hpub) & _).
      cbn in Heq. subst specs'. clear -Hpub.
      induction Hpub as [|p s rest specs (Hn & Hr & Hd & c & Hc) _ IH]; simpl;
        constructor; [|exact IH].
      destruct (_get_converter_function_type_id _ _ _ Hc) as (n & Hty & Hrange).
      exists n. split; [exact Hrange|].
      unfold ArgSpec_dict, option_dict. now rewrite Hty, Hn, Hr, Hd.
Qed.

Lemma X21_only_leaves_are_serialised_witness :
  _cmd_to_dict Greet.root_node
    = raise (AttributeError "'str' object has no attribute 'handler'")
  /\ exists options,
       _cmd_to_dict Greet.child_node
       = ok (JDict [ ("name", JStr "user");
                     ("description", JStr EmptyString);
                     ("options", JList options) ])
       /\ Forall2 (fun p o => exists n, (3 <= n <= 9)%Z /\ o = option_dict p n)
            [Greet.target_param] options.
Proof.
  split.
  - apply (proj1 (X21_only_leaves_are_serialised Fixtures.quiet_bot "greet" Greet.greet 0
                    Greet.root_node eq_refl)). reflexivity.
  - apply (proj2 (X21_only_leaves_are_serialised Fixtures.quiet_bot "user"
                    (Fixtures.command_item "user" Greet.user) 1 Greet.child_node eq_refl)
             Greet.user Fixtures.ctx_param [Greet.target_param]); reflexivity.
Defined.





(** ** Cogs *)

Lemma attr_truthy_Some a s : attr_truthy a = Some s -> a = Some s.
Proof.
  unfold attr_truthy. destruct a as [s'|]; [|discriminate].
  destruct (String.eqb s' EmptyString); [discriminate | congruence].
Qed.

Lemma load_tagged_ok bot attrs :
  forall commands commands',
    load_tagged bot commands attrs = (ok tt, commands') ->
    (forall tag, In tag (tags attrs) -> exists c, commands' !! tag = Some c /\ name c = tag)
    /\ (forall k, ~ In k (tags attrs) -> commands' !! k = commands !! k).
Proof.
  induction attrs as [|[key attr] rest IH]; intros commands commands' H.
  - cbn in H. inversion H; subst. split; [intros tag []|reflexivity].
  - cbn [load_tagged] in H. rewrite tags_cons.
    destruct (attr_truthy (_slash attr)) as [tag|] eqn:Htag; [|now apply IH].
    destruct (load_command bot commands attr) as [[e|[]] commands1] eqn:Hload;
      [discriminate|].
    destruct (load_command_inv _ _ _ _ Hload) as (key' & c & Hkey & Hc & ->).
    apply attr_truthy_Some in Htag. rewrite Htag in Hkey. inversion Hkey; subst key'.
    destruct (IH _ _ H) as (Hin & Hout). split.
    + intros tag' Hin'. destruct (in_dec string_dec tag' (tags rest)) as [Hrest|Hrest].
      * now apply Hin.
      * destruct Hin' as [<-|Hin']; [|contradiction].
        exists c. rewrite (Hout _ Hrest), lookup_insert_eq. split; [reflexivity|].
        exact (proj1 (_create_command_fields _ _ _ _ _ Hc)).
    + intros k Hk. rewrite Hout by (intros Hin'; apply Hk; now right).
      apply lookup_insert_ne. intros ->. apply Hk. now left.
Qed.

Lemma load_tagged_app bot pre post :
  forall commands commands1,
    load_tagged bot commands pre = (ok tt, commands1) ->
    load_tagged bot commands (pre ++ post) = load_tagged bot commands1 post.
Proof.
  induction pre as [|[key attr] rest IH]; intros commands commands1 H.
  - cbn in H. now inversion H.
  - cbn [app load_tagged] in H |- *.
    destruct (attr_truthy (_slash attr)); [|now apply IH].
    destruct (load_command bot commands attr) as [[e|[]] commands0]; [discriminate|].
    now apply IH.
Qed.

(** X23: for a cog that is not itself a command, [patched_load_cog] loads
    the attributes with a non-empty [_slash] tag in the order of
    [__dir__()].  When it returns, every tag is registered with a command of
    that name, the other entries of the registry are as before, and the
    original [add_cog] was called.  It is not atomic: when the construction
    of one attribute fails, the commands loaded before it stay registered,
    the exception leaves [add_cog], and the original [add_cog] is not
    called. *)
Theorem X23_scanning_cogs_load_every_tag (bot : Bot) (commands : gmap string SlashCommand)
    (cog : item) :
  attr_truthy (_slash cog) = None ->
  (forall commands' reached,
     patched_load_cog bot commands cog = (ok tt, commands', reached) ->
     reached = true
     /\ (forall tag, In tag (tags (attributes cog)) ->
           exists c, commands' !! tag = Some c /\ name c = tag)
     /\ (forall k, ~ In k (tags (attributes cog)) -> commands' !! k = commands !! k))
  /\ (forall pre key attr post commands1 e commands2,
        attributes cog = pre ++ (key, attr) :: post ->
        load_tagged bot commands pre = (ok tt, commands1) ->
        attr_truthy (_slash attr) <> None ->
        load_command bot commands1 attr = (raise e, commands2) ->
        patched_load_cog bot commands cog = (raise e, commands1, false)
        /\ forall tag, In tag (tags pre) -> is_Some (commands1 !! tag)).
Proof.
  intros Hcog. unfold patched_load_cog. rewrite Hcog. split.
  - intros commands' reached H.
    destruct (load_tagged bot commands (attributes cog)) as [[e|[]] commands1] eqn:Hload;
      [discriminate|].
    inversion H; subst. split; [reflexivity|]. exact (load_tagged_ok _ _ _ _ Hload).
  - intros pre key attr post commands1 e commands2 Hattrs Hpre Htag Hfail.
    rewrite Hattrs, (load_tagged_app _ _ _ _ _ Hpre). cbn [load_tagged].
    destruct (attr_truthy (_slash attr)); [|congruence].
    rewrite Hfail.
    assert (commands2 = commands1) as ->.
    { revert Hfail. unfold load_command.
      destruct (_slash attr) as [tag|]; [|intros H; inversion H; congruence].
      destruct (_create_command bot tag attr 0); intros H; inversion H; congruence. }
    split; [reflexivity|].
    intros tag Hin. destruct (proj1 (load_tagged_ok _ _ _ _ Hpre) tag Hin) as (c & -> & _).
    eauto.
Qed.

Lemma X23_scanning_cogs_load_every_tag_witness :
  patched_load_cog Fixtures.quiet_bot ∅ Toolbox.broken_cog
    = (raise (TypeError "The argument type is not discord.ext.commands compatible."),
       Ping.registry, false)
  /\ is_Some (Ping.registry !! "ping").
Proof.
  destruct (proj2 (X23_scanning_cogs_load_every_tag Fixtures.quiet_bot ∅ Toolbox.broken_cog
                     eq_refl)
              [("ping", Toolbox.ping_item)] "echo" Toolbox.echo_item [] Ping.registry
              (TypeError "The argument type is not discord.ext.commands compatible.")
              Ping.registry eq_refl eq_refl ltac:(discriminate) eq_refl) as (Hrun & Hkept).
  split; [exact Hrun|]. apply Hkept. now left.
Defined.

(** X24: a cog that is itself a command is registered under its [_slash]
    tag but unregistered under the name it is removed by.  Removing it by a
    name equal to the tag undoes the load; removing it by another name that
    is not registered raises [KeyError], leaves the command registered and
    does not reach the original [remove_cog]; and if that other name is
    registered, it is that other command which is unloaded. *)
Theorem X24_command_cogs_unload_by_cog_name (bot : Bot)
    (commands commands' : gmap string SlashCommand) (cog : item) (tag : string)
    (reached : bool) :
  attr_truthy (_slash cog) = Some tag ->
  patched_load_cog bot commands cog = (ok tt, commands', reached) ->
  reached = true
  /\ is_Some (commands' !! tag)
  /\ patched_remove_cog commands' tag (Some cog)
     = (ok tt, delete tag commands, Some (JStr tag))
  /\ (forall cog_name,
        cog_name <> tag -> commands !! cog_name = None ->
        patched_remove_cog commands' cog_name (Some cog)
        = (raise (KeyError cog_name), commands', None))
  /\ (forall cog_name,
        cog_name <> tag -> is_Some (commands !! cog_name) ->
        patched_remove_cog commands' cog_name (Some cog)
        = (ok tt, delete cog_name commands', Some (JStr cog_name))
        /\ is_Some (delete cog_name commands' !! tag)).
Proof.
  intros Htag. unfold patched_load_cog, patched_remove_cog. rewrite Htag.
  destruct (load_command bot commands cog) as [[e|[]] commands1] eqn:Hload; [discriminate|].
  intros H. inversion H; subst commands1 reached. clear H.
  destruct (load_command_inv _ _ _ _ Hload) as (key & c & Hkey & _ & ->).
  apply attr_truthy_Some in Htag. rewrite Htag in Hkey. inversion Hkey; subst key.
  split; [reflexivity|]. split; [rewrite lookup_insert_eq; eauto|].
  unfold unload_command. split; [|split].
  - rewrite lookup_insert_eq. now rewrite delete_insert_eq.
  - intros cog_name Hne Hfree. rewrite lookup_insert_ne by congruence. now rewrite Hfree.
  - intros cog_name Hne [other Hother]. rewrite lookup_insert_ne by congruence.
    rewrite Hother. split; [reflexivity|].
    rewrite lookup_delete_ne by congruence. rewrite lookup_insert_eq. eauto.
Qed.

Lemma X24_command_cogs_unload_by_cog_name_witness :
  patched_remove_cog Ping.registry "Ping" (Some Toolbox.command_cog)
    = (raise (KeyError "Ping"), Ping.registry, None)
  /\ patched_remove_cog Ping.registry "ping" (Some Toolbox.command_cog)
     = (ok tt, delete "ping" ∅, Some (JStr "ping")).
Proof.
  destruct (X24_command_cogs_unload_by_cog_name Fixtures.quiet_bot ∅ Ping.registry
              Toolbox.command_cog "ping" true eq_refl eq_refl)
    as (_ & _ & Hsame & Hother & _).
  split; [|exact Hsame].
  apply Hother; [discriminate | apply lookup_empty].
Defined.

Lemma unload_tagged_inv attrs :
  forall commands n commands' n',
    unload_tagged commands n attrs = (ok tt, commands', n') ->
    NoDup (tags attrs)
    /\ (forall t, In t (tags attrs) -> is_Some (commands !! t))
    /\ (forall t, In t (tags attrs) -> commands' !! t = None)
    /\ (forall k, ~ In k (tags attrs) -> commands' !! k = commands !! k)
    /\ n' = match last attrs with
            | Some ka => slash_value (snd ka)
            | None => n
            end.
Proof.
  induction attrs as [|[key attr] rest IH]; intros commands n commands' n' H.
  - cbn in H. inversion H; subst. cbn.
    split; [constructor|]. split; [intros t []|]. split; [intros t []|]. auto.
  - cbn [unload_tagged] in H. rewrite tags_cons.
    assert (Hlast : forall m : json,
               match last rest with Some ka => slash_value (snd ka) | None => slash_value attr end
               = match last ((key, attr) :: rest) with
                 | Some ka => slash_value (snd ka)
                 | None => m
                 end).
    { intros m. destruct rest as [|ka rest']; [reflexivity|].
      change (last ((key, attr) :: ka :: rest')) with (last (ka :: rest')).
      destruct (last (ka :: rest')) eqn:El; [reflexivity|].
      apply last_None in El. discriminate. }
    destruct (attr_truthy (_slash attr)) as [tag|] eqn:Htag.
    + unfold unload_command in H.
      destruct (commands !! tag) as [c|] eqn:Hc; [|discriminate].
      destruct (IH _ _ _ _ H) as (Hnodup & Hreg & Hgone & Hframe & Hn').
      assert (Hfresh : ~ In tag (tags rest)).
      { intros Hin. destruct (Hreg _ Hin) as [c' Hc']. now rewrite lookup_delete_eq in Hc'. }
      split; [constructor; [now rewrite <- list_elem_of_In in Hfresh | exact Hnodup]|].
      split.
      { intros t [<-|Hin]; [eauto|].
        destruct (Hreg _ Hin) as [c' Hc'].
        destruct (decide (t = tag)) as [->|Hne]; [eauto|].
        rewrite lookup_delete_ne in Hc' by congruence. eauto. }
      split.
      { intros t [<-|Hin]; [|now apply Hgone].
        rewrite (Hframe _ Hfresh). apply lookup_delete_eq. }
      split.
      { intros k Hk. rewrite Hframe by (intros Hin; apply Hk; now right).
        apply lookup_delete_ne. intros ->. apply Hk. now left. }
      rewrite Hn'. apply Hlast.
    + destruct (IH _ _ _ _ H) as (Hnodup & Hreg & Hgone & Hframe & Hn').
      repeat split; auto. rewrite Hn'. apply Hlast.
Qed.

Lemma unload_tagged_total attrs :
  forall commands n,
    NoDup (tags attrs) ->
    (forall t, In t (tags attrs) -> is_Some (commands !! t)) ->
    exists commands' n', unload_tagged commands n attrs = (ok tt, commands', n').
Proof.
  induction attrs as [|[key attr] rest IH]; intros commands n Hnodup Hreg.
  - cbn. eauto.
  - cbn [unload_tagged]. rewrite tags_cons in Hnodup, Hreg.
    destruct (attr_truthy (_slash attr)) as [tag|]; [|now apply IH].
    destruct (Hreg tag (or_introl eq_refl)) as [c Hc].
    unfold unload_command. rewrite Hc.
    apply NoDup_cons in Hnodup. destruct Hnodup as [Hfresh Hnodup].
    apply IH; [exact Hnodup|].
    intros t Hin. rewrite lookup_delete_ne; [apply Hreg; now right|].
    intros ->. apply Hfresh. now apply list_elem_of_In.
Qed.

(** X25: for a cog that is not itself a command, the loop of
    [patched_remove_cog] assigns its parameter [name] at every attribute.
    When the loop ends, the original [remove_cog] is called with the
    [_slash] value of the last attribute in [__dir__()] order, [False] for
    an attribute that has none: it receives the cog's own name only if the
    cog has no attribute at all, or if the last attribute happens to carry
    that name as its tag. *)
Theorem X25_the_cog_name_is_overwritten (commands commands' : gmap string SlashCommand)
    (cog_name : string) (cog : item) (forwarded : option json) :
  attr_truthy (_slash cog) = None ->
  patched_remove_cog commands cog_name (Some cog) = (ok tt, commands', forwarded) ->
  forwarded = Some match last (attributes cog) with
                   | Some ka => slash_value (snd ka)
                   | None => JStr cog_name
                   end
  /\ (forwarded = Some (JStr cog_name) ->
      attributes cog = []
      \/ exists ka, last (attributes cog) = Some ka /\ _slash (snd ka) = Some cog_name).
Proof.
  intros Hcog. unfold patched_remove_cog. rewrite Hcog.
  destruct (unload_tagged commands (JStr cog_name) (attributes cog))
    as [[[e|[]] commands1] n'] eqn:Hun; [discriminate|].
  intros H. inversion H; subst commands1 forwarded. clear H.
  destruct (unload_tagged_inv _ _ _ _ _ Hun) as (_ & _ & _ & _ & ->).
  split; [reflexivity|].
  destruct (last (attributes cog)) as [ka|] eqn:El.
  - intros H. right. exists ka. split; [reflexivity|].
    unfold slash_value in H. destruct (_slash (snd ka)); inversion H. reflexivity.
  - intros _. left. now apply last_None.
Qed.

Lemma X25_the_cog_name_is_overwritten_witness :
  fst (fst (patched_remove_cog Ping.registry "Toolbox" (Some Toolbox.cog))) = ok tt
  /\ snd (patched_remove_cog Ping.registry "Toolbox" (Some Toolbox.cog))
     = Some (JBool false).
Proof.
  destruct (patched_remove_cog Ping.registry "Toolbox" (Some Toolbox.cog))
    as [[[e|[]] commands'] forwarded] eqn:E; [vm_compute in E; discriminate|].
  destruct (X25_the_cog_name_is_overwritten Ping.registry commands' "Toolbox" Toolbox.cog
              forwarded eq_refl E) as (-> & _).
  split; reflexivity.
Defined.

(** X26: for a cog that is not itself a command, [patched_remove_cog]
    returns exactly when the non-empty tags of the cog's attributes are
    pairwise distinct and all registered; it then leaves none of them in
    the registry and every other entry as it was.  In every other case an
    unload raises [KeyError] and the original [remove_cog] is not
    reached. *)
Theorem X26_scanning_cogs_unload (commands : gmap string SlashCommand) (cog_name : string)
    (cog : item) :
  attr_truthy (_slash cog) = None ->
  ((exists commands' forwarded,
      patched_remove_cog commands cog_name (Some cog) = (ok tt, commands', forwarded))
   <-> NoDup (tags (attributes cog))
       /\ forall t, In t (tags (attributes cog)) -> is_Some (commands !! t))
  /\ (forall commands' forwarded,
        patched_remove_cog commands cog_name (Some cog) = (ok tt, commands', forwarded) ->
        (forall t, In t (tags (attributes cog)) -> commands' !! t = None)
        /\ (forall k, ~ In k (tags (attributes cog)) -> commands' !! k = commands !! k))
  /\ (forall e commands' forwarded,
        patched_remove_cog commands cog_name (Some cog) = (raise e, commands', forwarded) ->
        forwarded = None /\ exists k, e = KeyError k).
Proof.
  intros Hcog. unfold patched_remove_cog. rewrite Hcog. split; [|split].
  - split.
    + intros (commands' & forwarded & H).
      destruct (unload_tagged commands (JStr cog_name) (attributes cog))
        as [[[e|[]] commands1] n'] eqn:Hun; [discriminate|].
      destruct (unload_tagged_inv _ _ _ _ _ Hun) as (Hnodup & Hreg & _). auto.
    + intros [Hnodup Hreg].
      destruct (unload_tagged_total (attributes cog) commands (JStr cog_name) Hnodup Hreg)
        as (commands' & n' & ->). eauto.
  - intros commands' forwarded H.
    destruct (unload_tagged commands (JStr cog_name) (attributes cog))
      as [[[e|[]] commands1] n'] eqn:Hun; [discriminate|].
    inversion H; subst commands1.
    destruct (unload_tagged_inv _ _ _ _ _ Hun) as (_ & _ & Hgone & Hframe & _). auto.
  - intros e commands' forwarded H.
    destruct (unload_tagged commands (JStr cog_name) (attributes cog))
      as [[[e'|[]] commands1] n'] eqn:Hun; [|discriminate].
    inversion H; subst. split; [reflexivity|].
    clear -Hun. revert commands Hun. generalize (JStr cog_name).
    induction (attributes cog) as [|[key attr] rest IH]; intros n commands Hun.
    + discriminate.
    + cbn [unload_tagged] in Hun.
      destruct (attr_truthy (_slash attr)) as [tag|]; [|now apply IH in Hun].
      unfold unload_command in Hun. destruct (commands !! tag).
      * now apply IH in Hun.
      * inversion Hun. eauto.
Qed.

Lemma X26_scanning_cogs_unload_witness :
  (exists commands' forwarded,
     patched_remove_cog Ping.registry "Toolbox" (Some Toolbox.cog)
     = (ok tt, commands', forwarded))
  /\ ~ (exists commands' forwarded,
          patched_remove_cog Ping.registry "Toolbox" (Some Toolbox.aliased_cog)
          = (ok tt, commands', forwarded)).
Proof.
  split.
  - apply (proj1 (X26_scanning_cogs_unload Ping.registry "Toolbox" Toolbox.cog eq_refl)).
    split.
    + change (tags (attributes Toolbox.cog)) with ["ping"]. apply NoDup_singleton.
    + intros t Hin. change (tags (attributes Toolbox.cog)) with ["ping"] in Hin.
      destruct Hin as [<-|[]]. vm_compute. eauto.
  - intros H.
    apply (proj1 (X26_scanning_cogs_unload Ping.registry "Toolbox" Toolbox.aliased_cog
                    eq_refl)) in H.
    destruct H as [Hnodup _].
    change (tags (attributes Toolbox.aliased_cog)) with ["ping"; "ping"] in Hnodup.
    apply NoDup_cons in Hnodup. destruct Hnodup as [Hfresh _].
    apply Hfresh. now left.
Defined.

(** X27: loading a cog that is not itself a command and removing it again
    restores the registry, provided the tags of its attributes are pairwise
    distinct and were free before the load.  A cog with a repeated tag
    loads (the later attribute replaces the earlier command) but cannot be
    removed: the second unload of the tag raises. *)
Theorem X27_cog_round_trip (bot : Bot) (commands commands' : gmap string SlashCommand)
    (cog_name : string) (cog : item) (reached : bool) :
  attr_truthy (_slash cog) = None ->
  patched_load_cog bot commands cog = (ok tt, commands', reached) ->
  (NoDup (tags (attributes cog)) ->
   (forall t, In t (tags (attributes cog)) -> commands !! t = None) ->
   exists forwarded,
     patched_remove_cog commands' cog_name (Some cog) = (ok tt, commands, Some forwarded))
  /\ (~ NoDup (tags (attributes cog)) ->
      exists k commands'',
        patched_remove_cog commands' cog_name (Some cog)
        = (raise (KeyError k), commands'', None)).
Proof.
  intros Hcog Hload.
  assert (Hloaded : load_tagged bot commands (attributes cog) = (ok tt, commands')).
  { revert Hload. unfold patched_load_cog. rewrite Hcog.
    destruct (load_tagged bot commands (attributes cog)) as [[e|[]] commands1];
      intros H; inversion H. reflexivity. }
  destruct (load_tagged_ok _ _ _ _ Hloaded) as (Hin & Hout).
  unfold patched_remove_cog. rewrite Hcog. split.
  - intros Hnodup Hfree.
    destruct (unload_tagged_total (attributes cog) commands' (JStr cog_name) Hnodup)
      as (commands'' & n' & Hun).
    { intros t Ht. destruct (Hin t Ht) as (c & -> & _). eauto. }
    rewrite Hun. exists n'.
    destruct (unload_tagged_inv _ _ _ _ _ Hun) as (_ & _ & Hgone & Hframe & _).
    assert (commands'' = commands) as ->; [|reflexivity].
    apply map_eq. intros k.
    destruct (in_dec string_dec k (tags (attributes cog))) as [Hk|Hk].
    + now rewrite (Hgone k Hk), (Hfree k Hk).
    + now rewrite (Hframe k Hk), (Hout k Hk).
  - intros Hdup.
    destruct (unload_tagged commands' (JStr cog_name) (attributes cog))
      as [[[e|[]] commands''] n'] eqn:Hun.
    + assert (Hk : exists k, e = KeyError k).
      { clear -Hun. revert commands' Hun. generalize (JStr cog_name).
        induction (attributes cog) as [|[key attr] rest IH]; intros n commands' Hun.
        - discriminate.
        - cbn [unload_tagged] in Hun.
          destruct (attr_truthy (_slash attr)) as [tag|]; [|now apply IH in Hun].
          unfold unload_command in Hun. destruct (commands' !! tag).
          + now apply IH in Hun.
          + inversion Hun. eauto. }
      destruct Hk as [k ->]. eauto.
    + destruct (unload_tagged_inv _ _ _ _ _ Hun) as (Hnodup & _). contradiction.
Qed.

Lemma X27_cog_round_trip_witness :
  (exists forwarded,
     patched_remove_cog Ping.registry "Toolbox" (Some Toolbox.cog)
     = (ok tt, ∅, Some forwarded))
  /\ exists k commands'',
       patched_remove_cog Ping.registry "Toolbox" (Some Toolbox.aliased_cog)
       = (raise (KeyError k), commands'', None).
Proof.
  split.
  - apply (proj1 (X27_cog_round_trip Fixtures.quiet_bot ∅ Ping.registry "Toolbox"
                    Toolbox.cog true eq_refl eq_refl)).
    + change (tags (attributes Toolbox.cog)) with ["ping"]. apply NoDup_singleton.
    + intros t _. apply lookup_empty.
  - assert (Hload : patched_load_cog Fixtures.quiet_bot ∅ Toolbox.aliased_cog
                    = (ok tt, Ping.registry, true)) by (vm_compute; reflexivity).
    apply (proj2 (X27_cog_round_trip Fixtures.quiet_bot ∅ Ping.registry "Toolbox"
                    Toolbox.aliased_cog true eq_refl Hload)).
    change (tags (attributes Toolbox.aliased_cog)) with ["ping"; "ping"].
    intros Hnodup. apply NoDup_cons in Hnodup. destruct Hnodup as [Hfresh _].
    apply Hfresh. now left.
Defined.

(** ** What the handler and the platform receive *)

Lemma conversion_entrypoint_raw p ty d v :
  In (converter_type_of p) [T_str; T_int; T_bool] ->
  _get_converter_function (converter_type_of p) = ok ty ->
  assoc_get "value" d = Some v -> v <> JNull ->
  forall ctx, conversion_entrypoint (cells_after p (fst ty)) (JDict d) ctx = (ok (VJson v), ctx).
Proof.
  intros Hin Hty Hv Hnull ctx.
  assert (Hc : fst ty = ConvFn (_wrap_arg_handler_async _nothing_converter)).
  { destruct Hin as [Heq|[Heq|[Heq|[]]]]; rewrite <- Heq in Hty; cbn in Hty;
      inversion Hty; reflexivity. }
  unfold conversion_entrypoint. rewrite Hc.
  rewrite (run_bind_lift _ _ _ _ (dict_get_found _ _ _ _ Hv)).
  destruct v; try reflexivity. congruence.
Qed.

Lemma convert_args_by_position (f : processor) used values :
  Forall2 (fun o v => forall ctx, f o ctx = (ok (VJson v), ctx)) used values ->
  forall skipped extra acc w,
    convert_args (repeat f (length values)) (JList (skipped ++ used ++ extra))
      (length skipped) acc w
    = (ok (acc ++ map VJson values), w).
Proof.
  induction 1 as [|o v used values Hov _ IH]; intros skipped extra acc w.
  - cbn. now rewrite app_nil_r.
  - cbn [length repeat convert_args map].
    assert (Hget : getindex (JList (skipped ++ (o :: used) ++ extra)) (length skipped) = ok o).
    { unfold getindex. rewrite nth_error_app2 by lia. now rewrite Nat.sub_diag. }
    rewrite (bind_lift_ok _ _ _ _ Hget).
    assert (Hrun : lift_app (f o) w = (ok (VJson v), w)).
    { unfold lift_app. rewrite Hov. now destruct w. }
    rewrite (run_bind_ok _ _ _ _ _ Hrun).
    replace (skipped ++ (o :: used) ++ extra) with ((skipped ++ [o]) ++ used ++ extra)
      by (rewrite <- app_assoc; reflexivity).
    replace (S (length skipped)) with (length (skipped ++ [o]))
      by (rewrite length_app; simpl; lia).
    rewrite IH, <- app_assoc. reflexivity.
Qed.

(** X12: options reach the handler by position, unconverted.  For an
    accepted handler whose last parameter is annotated [str], [int] or
    [bool] (or not at all), the i-th argument is the [value] of the i-th
    option as the platform sent it, whatever the option is called and
    whatever the annotation of the i-th parameter; options beyond the
    parameters are ignored, and the payload is not written. *)
Theorem X12_options_are_passed_by_position (h : Handler) (first p : SigParameter)
    (rest : list SigParameter) (ps : list processor) (specs : list ArgSpec)
    (used extra : list json) (values : list json) (w : world) :
  parameters h = first :: rest ->
  _process_args h = ok (ps, specs) ->
  last rest = Some p ->
  In (converter_type_of p) [T_str; T_int; T_bool] ->
  length values = length rest ->
  Forall2 (fun o v => exists d, o = JDict d /\ assoc_get "value" d = Some v /\ v <> JNull)
    used values ->
  convert_args ps (JList (used ++ extra)) 0 [] w = (ok (map VJson values), w).
Proof.
  intros Hparams H Hlast Hty Hlen Hused.
  destruct (_process_args_inv h ps specs H)
    as (first' & rest' & frame & processors & Hparams' & _ & L & Hps).
  rewrite Hparams in Hparams'. inversion Hparams'; subst first' rest'.
  apply _process_args_loop_run in L. destruct L as (_ & Hprocs & Hframe).
  cbn in Hprocs. subst processors. rewrite Hlast in Hframe.
  destruct Hframe as (c & tid & Hc & ->).
  rewrite map_repeat_apply in Hps. subst ps. rewrite <- Hlen.
  apply (convert_args_by_position _ used values) with (skipped := []) (acc := []).
  eapply Forall2_impl; [exact Hused|].
  intros o v (d & -> & Hv & Hnull) ctx.
  exact (conversion_entrypoint_raw p (c, tid) d v Hty Hc Hv Hnull ctx).
Qed.

Lemma X12_options_are_passed_by_position_witness :
  exists ps specs,
    _process_args TwoParameters.tag = ok (ps, specs)
    /\ convert_args ps
         (JList [ Fixtures.option_with "target" (JStr "5");
                  Fixtures.option_with "note" (JStr "hi");
                  Fixtures.option_with "more" (JInt 1) ]) 0 []
         (Fixtures.fresh TwoParameters.event_)
       = (ok [VJson (JStr "5"); VJson (JStr "hi")], Fixtures.fresh TwoParameters.event_).
Proof.
  destruct (_process_args TwoParameters.tag) as [e|[ps specs]] eqn:E;
    [vm_compute in E; discriminate|].
  exists ps, specs. split; [reflexivity|].
  apply (X12_options_are_passed_by_position TwoParameters.tag Fixtures.ctx_param
           TwoParameters.note_param
           [TwoParameters.target_param; TwoParameters.note_param] ps specs
           [ Fixtures.option_with "target" (JStr "5"); Fixtures.option_with "note" (JStr "hi") ]
           [ Fixtures.option_with "more" (JInt 1) ]
           [ JStr "5"; JStr "hi" ]
           (Fixtures.fresh TwoParameters.event_) eq_refl E eq_refl).
  - left. reflexivity.
  - reflexivity.
  - repeat constructor.
    + eexists. split; [reflexivity|]. split; [reflexivity | discriminate].
    + eexists. split; [reflexivity|]. split; [reflexivity | discriminate].
Defined.

Lemma embeds_to_dicts_ok embeds dicts : embeds_to_dicts embeds = ok dicts -> dicts = embeds.
Proof. destruct embeds; intros H; inversion H; reflexivity. Qed.

(** X28: the body of the callback that [reply] builds.  [tts] is always
    present and is the truth value of the keyword; [flags] is 64 exactly
    for an ephemeral context; [content], [embeds] and [allowed_mentions]
    are present exactly when the argument is truthy (an empty string or an
    empty list is left out); a truthy [embed] wins over [embeds]; and the
    body has no other key. *)
Theorem X28_reply_data_shape (self : CommandsContext) (content : json)
    (kwargs : list (string * json)) (data : list (string * json)) :
  reply_data self content kwargs = ok data ->
  assoc_get "tts" data = Some (JBool (truthy (kwargs_get kwargs "tts")))
  /\ assoc_get "flags" data = (if ephemeral self then Some (JInt 64) else None)
  /\ assoc_get "content" data = (if truthy content then Some content else None)
  /\ assoc_get "embeds" data
     = (if truthy (kwargs_get kwargs "embed") then Some (JList [kwargs_get kwargs "embed"])
        else if truthy (kwargs_get kwargs "embeds") then Some (kwargs_get kwargs "embeds")
        else None)
  /\ assoc_get "allowed_mentions" data
     = (if truthy (kwargs_get kwargs "allowed_mentions")
        then Some (kwargs_get kwargs "allowed_mentions") else None)
  /\ (forall k, In k (map fst data) ->
        In k ["tts"; "flags"; "content"; "embeds"; "allowed_mentions"]).
Proof.
  unfold reply_data.
  destruct (truthy (kwargs_get kwargs "embeds")) eqn:Hembeds.
  - destruct (embeds_to_dicts (kwargs_get kwargs "embeds")) as [e|dicts] eqn:Hdicts.
    + destruct (ephemeral self), (truthy content); discriminate.
    + apply embeds_to_dicts_ok in Hdicts. subst dicts.
      destruct (ephemeral self), (truthy content), (truthy (kwargs_get kwargs "embed")),
        (truthy (kwargs_get kwargs "allowed_mentions"));
        cbn; intros H; inversion H; subst; clear H;
        (repeat split; [..|cbn; intuition]); reflexivity.
  - destruct (ephemeral self), (truthy content), (truthy (kwargs_get kwargs "embed")),
      (truthy (kwargs_get kwargs "allowed_mentions"));
      cbn; intros H; inversion H; subst; clear H;
      (repeat split; [..|cbn; intuition]); reflexivity.
Qed.

Lemma X28_reply_data_shape_witness :
  exists data,
    reply_data Replies.fresh_context (JStr EmptyString)
      [("embed", JDict [("title", JStr "pong")]); ("embeds", JList [JDict []])] = ok data
    /\ assoc_get "content" data = None
    /\ assoc_get "embeds" data = Some (JList [JDict [("title", JStr "pong")]]).
Proof.
  eexists. split; [reflexivity|].
  destruct (X28_reply_data_shape Replies.fresh_context (JStr EmptyString)
              [("embed", JDict [("title", JStr "pong")]); ("embeds", JList [JDict []])]
              _ eq_refl) as (_ & _ & Hcontent & Hembeds & _).
  split; [exact Hcontent | exact Hembeds].
Defined.

(** ** The handler's own checks *)

Lemma reverse_checks_in_place_twice h :
  reverse_checks_in_place (reverse_checks_in_place h) = h.
Proof.
  destruct h as [params [x|] body]; unfold reverse_checks_in_place; cbn;
    [rewrite rev_involutive|]; reflexivity.
Qed.

(** X29: [_get_checks] reverses the handler's [__commands_checks__] list in
    place.  With async checks only, a command runs the bot's checks, the
    bot's once-checks, then the handler's own in the reverse of the stored
    order; the list stays reversed on the handler, so a command built again
    from the same function runs the handler's own checks in the opposite
    order, and leaves the list as it was at first. *)
Theorem X29_own_checks_flip_at_each_construction (bot : Bot) (n d : string) (h : Handler)
    (p : bool) (c : SlashCommand) (x : list check_fn) :
  SlashCommand_init bot n d (Some h) p = ok c ->
  __commands_checks__ h = Some x ->
  Forall (fun k => iscoroutinefunction k = true) (_checks bot ++ _check_once bot ++ x) ->
  checks c = map AsyncCheck (_checks bot ++ _check_once bot ++ rev x)
  /\ exists h',
       handler c = Some h'
       /\ __commands_checks__ h' = Some (rev x)
       /\ exists c',
            SlashCommand_init bot n d (Some h') p = ok c'
            /\ checks c' = map AsyncCheck (_checks bot ++ _check_once bot ++ x)
            /\ handler c' = Some h.
Proof.
  intros Hinit Hx Hasync.
  destruct (SlashCommand_init_leaf _ _ _ _ _ _ Hinit) as (ps & specs & Hargs & _ & _ & Hh & Hchecks).
  assert (Hall : forall y, Forall (fun k => iscoroutinefunction k = true)
                             (_checks bot ++ _check_once bot ++ y) ->
                           forall h0, __commands_checks__ h0 = Some (rev y) ->
                           _get_checks bot (Some h0)
                           = map AsyncCheck (_checks bot ++ _check_once bot ++ y)).
  { intros y Hy h0 Hh0. rewrite _get_checks_async.
    - now rewrite (collect_checks_order bot h0 (rev y) Hh0), rev_involutive.
    - now rewrite (collect_checks_order bot h0 (rev y) Hh0), rev_involutive. }
  assert (Hrev : Forall (fun k => iscoroutinefunction k = true)
                   (_checks bot ++ _check_once bot ++ rev x)).
  { rewrite !Forall_app in Hasync |- *. destruct Hasync as (H1 & H2 & H3).
    split; [exact H1|]. split; [exact H2|]. now apply Forall_rev. }
  split.
  - rewrite Hchecks. apply Hall; [exact Hrev|]. now rewrite rev_involutive.
  - exists (reverse_checks_in_place h). split; [exact Hh|].
    assert (Hx' : __commands_checks__ (reverse_checks_in_place h) = Some (rev x))
      by (unfold reverse_checks_in_place; cbn; now rewrite Hx).
    split; [exact Hx'|].
    assert (Hargs' : _process_args (reverse_checks_in_place h) = ok (ps, specs))
      by exact Hargs.
    unfold SlashCommand_init. rewrite Hargs'. cbn [rbind raise ok].
    eexists. split; [reflexivity|]. cbn [checks handler option_map].
    split; [now apply Hall | now rewrite reverse_checks_in_place_twice].
Qed.

Lemma X29_own_checks_flip_at_each_construction_witness :
  exists c c',
    SlashCommand_init Membership.plain_bot "vote" EmptyString (Some Membership.vote) false
      = ok c
    /\ checks c = map AsyncCheck [Membership.is_member; Membership.is_sober]
    /\ SlashCommand_init Membership.plain_bot "vote" EmptyString (handler c) false = ok c'
    /\ checks c' = map AsyncCheck [Membership.is_sober; Membership.is_member].
Proof.
  destruct (SlashCommand_init Membership.plain_bot "vote" EmptyString
              (Some Membership.vote) false) as [e|c] eqn:E; [vm_compute in E; discriminate|].
  destruct (X29_own_checks_flip_at_each_construction Membership.plain_bot "vote" EmptyString
              Membership.vote false c [Membership.is_sober; Membership.is_member] E eq_refl)
    as (Hfirst & h' & Hh' & _ & c' & Hinit' & Hsecond & _).
  { repeat constructor. }
  exists c, c'. split; [reflexivity|]. split; [exact Hfirst|].
  rewrite Hh'. split; [exact Hinit' | exact Hsecond].
Defined.

(** ** Building the context *)

Lemma User_init_again user seen : User_init user = ok seen -> store_user seen = ok seen.
Proof.
  unfold User_init.
  destruct (getitem user "username") as [e|username]; cbn [rbind raise ok]; [discriminate|].
  destruct (getitem user "id") as [e|id]; cbn [rbind raise ok]; [discriminate|].
  destruct (py_int id) as [e|n]; cbn [rbind raise ok]; [discriminate|].
  destruct (getitem user "discriminator") as [e|disc]; cbn [rbind raise ok]; [discriminate|].
  destruct (getitem user "avatar") as [e|avatar]; cbn [rbind raise ok]; [discriminate|].
  destruct (dict_get user "bot" (JBool false)) as [e|is_bot]; cbn [rbind raise ok];
    [discriminate|].
  intros H. inversion H. reflexivity.
Qed.

Lemma store_user_inv user seen : store_user user = ok seen -> User_init user = ok seen.
Proof.
  unfold store_user.
  destruct (getitem user "id") as [e|id]; cbn [rbind raise ok]; [discriminate|].
  destruct (py_int id) as [e|n]; cbn [rbind raise ok]; [discriminate | auto].
Qed.

Lemma CommandsContext_init_member top id m channel n g member user seen :
  assoc_get "id" top = Some id -> py_int id = ok m ->
  assoc_get "channel_id" top = Some channel -> py_int channel = ok n ->
  assoc_get "guild_id" top = Some g ->
  assoc_get "member" top = Some (JDict member) -> member <> [] ->
  assoc_get "user" member = Some user ->
  store_user user = ok seen ->
  Member_init (JDict (assoc_set "user" seen member)) = ok tt ->
  exists ctx,
    CommandsContext_init (JDict top)
    = (ok ctx, JDict (assoc_set "member" (JDict (assoc_set "user" seen member)) top)).
Proof.
  intros Hid Hm Hch Hn Hg Hmember Hne Huser Hseen Hinit.
  assert (Hchannel : _create_text_channel (JDict top) = ok n).
  { unfold _create_text_channel. rewrite (getitem_found _ _ _ Hch). exact Hn. }
  assert (Hdata : exists tail,
             _create_message_payload (JDict top)
             = ok (JDict (("id", id) :: ("channel_id", channel) :: ("guild_id", g)
                          :: ("member", JDict member) :: ("author", user) :: tail))).
  { unfold _create_message_payload.
    rewrite (dict_get_found _ _ _ _ Hmember). cbn [rbind raise ok].
    rewrite (getitem_found _ _ _ Hid). cbn [rbind raise ok].
    rewrite (getitem_found _ _ _ Hch). cbn [rbind raise ok].
    rewrite (getitem_found _ _ _ Hg). cbn [rbind raise ok].
    replace (truthy (JDict member)) with true by (destruct member; [congruence | reflexivity]).
    rewrite (getitem_found _ _ _ Huser). cbn [rbind raise ok].
    eexists. reflexivity. }
  destruct Hdata as [tail Hdata].
  assert (Hmsg : Message_init
                   (JDict (("id", id) :: ("channel_id", channel) :: ("guild_id", g)
                           :: ("member", JDict member) :: ("author", user) :: tail))
                   (JDict top)
                 = (ok (JDict (("id", id) :: ("channel_id", channel) :: ("guild_id", g)
                               :: ("member", JDict (assoc_set "user" seen member))
                               :: ("author", user) :: tail)),
                    JDict (assoc_set "member" (JDict (assoc_set "user" seen member)) top))).
  { unfold Message_init.
    rewrite (run_bind_lift (getitem _ "id") id) by reflexivity.
    rewrite (run_bind_lift _ _ _ _ Hm).
    rewrite (run_bind_lift (getitem _ "author") user) by reflexivity.
    rewrite (run_bind_lift (getitem _ "member") (JDict member)) by reflexivity.
    rewrite Hseen. unfold ok at 1. cbv beta iota.
    rewrite (run_bind_lift (setitem (JDict member) "user" seen)
               (JDict (assoc_set "user" seen member))) by reflexivity.
    rewrite (run_bind_ok get _ _ _ _ (run_get _)).
    rewrite (run_bind_lift (setitem (JDict top) "member" _)
               (JDict (assoc_set "member" (JDict (assoc_set "user" seen member)) top)))
      by reflexivity.
    rewrite Hinit. reflexivity. }
  assert (Hcm : exists msg,
             CommandsMessage_init (JDict top)
             = (ok msg,
                JDict (assoc_set "member" (JDict (assoc_set "user" seen member)) top))).
  { eexists. unfold CommandsMessage_init.
    rewrite (run_bind_ok get _ _ _ _ (run_get _)).
    rewrite (run_bind_lift _ _ _ _ Hchannel).
    rewrite (run_bind_lift _ _ _ _ Hdata).
    rewrite (run_bind_ok _ _ _ _ _ Hmsg).
    reflexivity. }
  destruct Hcm as [msg Hcm].
  eexists. unfold CommandsContext_init.
  rewrite (run_bind_ok _ _ _ _ _ Hcm). reflexivity.
Qed.

Lemma CommandsContext_init_anonymous top id m channel n g :
  assoc_get "id" top = Some id -> py_int id = ok m ->
  assoc_get "channel_id" top = Some channel -> py_int channel = ok n ->
  assoc_get "guild_id" top = Some g ->
  assoc_get "member" top = None ->
  assoc_get "user" top = None ->
  CommandsContext_init (JDict top)
  = (raise (TypeError "object is not subscriptable"), JDict top).
Proof.
  intros Hid Hm Hch Hn Hg Hmember Huser.
  assert (Hchannel : _create_text_channel (JDict top) = ok n).
  { unfold _create_text_channel. rewrite (getitem_found _ _ _ Hch). exact Hn. }
  assert (Hdata : exists tail,
             _create_message_payload (JDict top)
             = ok (JDict (("id", id) :: ("channel_id", channel) :: ("guild_id", g)
                          :: ("member", JNull) :: ("author", JNull) :: tail))).
  { unfold _create_message_payload.
    rewrite (dict_get_default _ _ JNull Hmember). cbn [rbind raise ok].
    rewrite (getitem_found _ _ _ Hid). cbn [rbind raise ok].
    rewrite (getitem_found _ _ _ Hch). cbn [rbind raise ok].
    rewrite (getitem_found _ _ _ Hg). cbn [rbind raise ok truthy].
    rewrite (dict_get_default _ _ JNull Huser). cbn [rbind raise ok].
    eexists. reflexivity. }
  destruct Hdata as [tail Hdata].
  assert (Hmsg : Message_init
                   (JDict (("id", id) :: ("channel_id", channel) :: ("guild_id", g)
                           :: ("member", JNull) :: ("author", JNull) :: tail))
                   (JDict top)
                 = (raise (TypeError "object is not subscriptable"), JDict top)).
  { unfold Message_init.
    rewrite (run_bind_lift (getitem _ "id") id) by reflexivity.
    rewrite (run_bind_lift _ _ _ _ Hm).
    rewrite (run_bind_lift (getitem _ "author") JNull) by reflexivity.
    rewrite (run_bind_lift (getitem _ "member") JNull) by reflexivity.
    reflexivity. }
  assert (Hcm : CommandsMessage_init (JDict top)
                = (raise (TypeError "object is not subscriptable"), JDict top)).
  { unfold CommandsMessage_init.
    rewrite (run_bind_ok get _ _ _ _ (run_get _)).
    rewrite (run_bind_lift _ _ _ _ Hchannel).
    rewrite (run_bind_lift _ _ _ _ Hdata).
    now rewrite (run_bind_raise _ _ _ _ _ Hmsg). }
  unfold CommandsContext_init. now rewrite (run_bind_raise _ _ _ _ _ Hcm).
Qed.

(** X30: what building a [CommandsContext] asks of the event and does to
    it, for an event with an id, a channel id and a guild id.  Without a
    [member] (and without [user]) the author handed to [discord.Message] is
    [None] and the construction raises [TypeError].  With a member whose
    [user] the library accepts, the construction returns and has replaced
    [member.user] in the payload by the user's minimal form ([username],
    integer [id], [avatar], [discriminator], [bot]); no other key of the
    payload changes, and building a context again from the payload so left
    changes nothing more. *)
Theorem X30_a_context_needs_a_member (top : list (string * json)) (id channel g : json)
    (m n : Z) :
  assoc_get "id" top = Some id -> py_int id = ok m ->
  assoc_get "channel_id" top = Some channel -> py_int channel = ok n ->
  assoc_get "guild_id" top = Some g ->
  (assoc_get "member" top = None -> assoc_get "user" top = None ->
     exists msg, CommandsContext_init (JDict top) = (raise (TypeError msg), JDict top))
  /\ (forall member user seen,
        assoc_get "member" top = Some (JDict member) -> member <> [] ->
        assoc_get "user" member = Some user ->
        store_user user = ok seen ->
        Member_init (JDict (assoc_set "user" seen member)) = ok tt ->
        let p' := JDict (assoc_set "member" (JDict (assoc_set "user" seen member)) top) in
        (exists ctx, CommandsContext_init (JDict top) = (ok ctx, p'))
        /\ (exists ctx, CommandsContext_init p' = (ok ctx, p'))
        /\ (try! member' := getitem p' "member" in getitem member' "user") = ok seen
        /\ forall key, key <> "member" -> getitem p' key = getitem (JDict top) key).
Proof.
  intros Hid Hm Hch Hn Hg. split.
  - intros Hmember Huser. eexists.
    exact (CommandsContext_init_anonymous top id m channel n g Hid Hm Hch Hn Hg Hmember Huser).
  - intros member user seen Hmember Hne Huser Hseen Hinit. cbv zeta.
    split; [|split; [|split]].
    + exact (CommandsContext_init_member top id m channel n g member user seen
               Hid Hm Hch Hn Hg Hmember Hne Huser Hseen Hinit).
    + destruct (CommandsContext_init_member
                  (assoc_set "member" (JDict (assoc_set "user" seen member)) top)
                  id m channel n g (assoc_set "user" seen member) seen seen) as [ctx Hctx].
      * now rewrite assoc_get_set_ne by discriminate.
      * exact Hm.
      * now rewrite assoc_get_set_ne by discriminate.
      * exact Hn.
      * now rewrite assoc_get_set_ne by discriminate.
      * apply assoc_get_set_eq.
      * apply assoc_set_nonempty.
      * apply assoc_get_set_eq.
      * exact (User_init_again user seen (store_user_inv user seen Hseen)).
      * now rewrite assoc_set_set.
      * exists ctx. rewrite Hctx. now rewrite !assoc_set_set.
    + rewrite (getitem_found _ _ _ (assoc_get_set_eq _ _ _)). cbn [rbind raise ok].
      apply getitem_found, assoc_get_set_eq.
    + intros key Hkey. unfold getitem. now rewrite assoc_get_set_ne by congruence.
Qed.

Lemma X30_a_context_needs_a_member_witness :
  (exists msg,
     CommandsContext_init Anonymous.event_ = (raise (TypeError msg), Anonymous.event_))
  /\ exists ctx,
       CommandsContext_init (Fixtures.interaction "ping" (JList []))
       = (ok ctx, Fixtures.interaction_seen "ping" (JList [])).
Proof.
  split.
  - apply (proj1 (X30_a_context_needs_a_member Anonymous.fields (JStr "900") (JStr "10")
                    (JStr "20") 900 10 eq_refl eq_refl eq_refl eq_refl eq_refl));
      reflexivity.
  - destruct (proj2 (X30_a_context_needs_a_member
                       [ ("type", JInt 2); ("id", JStr "900");
                         ("token", JStr "aW50ZXJhY3Rpb24"); ("channel_id", JStr "10");
                         ("guild_id", JStr "20"); ("member", Fixtures.caller);
                         ("data", JDict [("name", JStr "ping"); ("options", JList [])]) ]
                       (JStr "900") (JStr "10") (JStr "20") 900 10
                       eq_refl eq_refl eq_refl eq_refl eq_refl)
                [("user", Fixtures.ada_user); ("roles", JList []); ("nick", JNull)]
                Fixtures.ada_user
                (JDict [ ("username", JStr "ada"); ("id", JInt 123); ("avatar", JNull);
                         ("discriminator", JStr "1815"); ("bot", JBool false) ])
                eq_refl ltac:(discriminate) eq_refl eq_refl eq_refl) as (Hbuilt & _).
    exact Hbuilt.
Defined.
